(** * ETL ICFES + PIB: a shallow embedding of the pipeline stages

    The development follows the four scripts of [dags/scripts]:
    - [transform_icfes.py]  (the Consolidator),
    - [transform_api.py]    (the Lookup Normalizer),
    - [merge.py]            (the Join and Imputation Engine),
    - [load_dw.py]          (the Bulk Loader).

    Python strings are modelled as byte strings (UTF-8); the character
    classes that Python extends to all of Unicode (white space, decimal
    digits) are modelled on their ASCII part. *)

From Stdlib Require Import ZArith QArith Lia List Bool Ascii String Sorted Permutation.
From Stdlib Require Import Decimal DecimalFacts DecimalPos DecimalN DecimalZ DecimalString.
From stdpp Require Import base option list strings gmap.

Local Open Scope string_scope.
Local Open Scope list_scope.
Local Open Scope Z_scope.

(** ** Python values shared by the scripts *)

Module Py.

(** The exception classes that the embedded code can raise; [Otra] is
    an exception of any other class, by the name of its class. *)
Inductive exn : Type :=
| ValueError
| TypeError
| OverflowError
| ZeroDivisionError
| AttributeError
| RuntimeError (msg : string)
| FileNotFoundError (msg : string)
| Psycopg2Error (pgcode : string)
| Otra (clase msg : string).

(** A computation that returns or raises. *)
Inductive res (A : Type) : Type :=
| Ret (a : A)
| Raise (e : exn).
Arguments Ret {A} a.
Arguments Raise {A} e.

Definition bind {A B : Type} (m : res A) (k : A -> res B) : res B :=
  match m with
  | Ret a => k a
  | Raise e => Raise e
  end.

Definition returns {A : Type} (m : res A) : Prop := exists a, m = Ret a.

(** [str.isspace] on the ASCII range: TAB..CR, FS..US and the space. *)
Definition isspace (c : ascii) : bool :=
  let n := nat_of_ascii c in
  (((9 <=? n) && (n <=? 13)) || ((28 <=? n) && (n <=? 32)))%nat.

Fixpoint lstrip (s : string) : string :=
  match s with
  | String c s' => if isspace c then lstrip s' else s
  | EmptyString => EmptyString
  end.

Fixpoint rstrip (s : string) : string :=
  match s with
  | String c s' =>
      let r := rstrip s' in
      if isspace c && String.eqb r EmptyString then EmptyString else String c r
  | EmptyString => EmptyString
  end.

(** [s.strip()] *)
Definition strip (s : string) : string := rstrip (lstrip s).

(** [str(int)]: the decimal rendering, with a minus sign when negative. *)
Definition str_int (z : Z) : string := NilZero.string_of_int (Z.to_int z).

(** [f"{codigo:02d}"]: sign-aware zero padding to a minimum width of two. *)
Definition format_02d (codigo : Z) : string :=
  let s := str_int codigo in
  if (String.length s <? 2)%nat then String "0" s else s.

(** [str.lower] on the ASCII range. *)
Definition lower_ascii (c : ascii) : ascii :=
  let n := nat_of_ascii c in
  if ((65 <=? n) && (n <=? 90))%nat then ascii_of_nat (n + 32) else c.

Fixpoint lower (s : string) : string :=
  match s with
  | String c s' => String (lower_ascii c) (lower s')
  | EmptyString => EmptyString
  end.

(** [sub in s] for strings. *)
Fixpoint contains (sub s : string) : bool :=
  String.prefix sub s ||
  match s with
  | String _ s' => contains sub s'
  | EmptyString => false
  end.

Definition is_digit (c : ascii) : bool :=
  let n := nat_of_ascii c in ((48 <=? n) && (n <=? 57))%nat.

End Py.

#[global] Instance res_ret : MRet Py.res := @Py.Ret.
#[global] Instance res_bind : MBind Py.res := fun A B k m => Py.bind m k.

(** ** IEEE 754 binary64, as far as [int(float(s))] and the sums of
    pandas need it *)

Module Float64.

(** A Python float: a finite value [m * 2^e], an infinity or a NaN. *)
Inductive float : Type :=
| Fin (m e : Z)
| Inf (neg : bool)
| NaN.

(** [floor (log2 (p / q))] for positive [p] and [q]. *)
Definition floor_log2 (p q : Z) : Z :=
  let k := Z.log2 p - Z.log2 q in
  let below := if 0 <=? k then p <? q * 2 ^ k else p * 2 ^ (- k) <? q in
  if below then k - 1 else k.

(** The integer nearest to [num / den], ties to even. *)
Definition round_half_even (num den : Z) : Z :=
  let a := num / den in
  let r := num mod den in
  match 2 * r ?= den with
  | Lt => a
  | Gt => a + 1
  | Eq => if Z.even a then a else a + 1
  end.

(** Round the positive rational [p / q] to a 53-bit significand [M] and
    an exponent [E >= -1074]: the nearest binary64 value is [M * 2^E]. *)
Definition round_pos (p q : Z) : Z * Z :=
  let E := Z.max (floor_log2 p q - 52) (-1074) in
  let M := if 0 <=? E then round_half_even p (q * 2 ^ E)
           else round_half_even (p * 2 ^ (- E)) q in
  (M, E).

Definition overflows (M E : Z) : bool := (0 <=? E) && (2 ^ 1024 <=? M * 2 ^ E).

(** The binary64 value nearest to [(-1)^neg * m * 10^e10], for [m >= 0]. *)
Definition of_decimal (neg : bool) (m e10 : Z) : float :=
  if m =? 0 then Fin 0 0
  else
    let '(M, E) := if 0 <=? e10 then round_pos (m * 10 ^ e10) 1
                   else round_pos m (10 ^ (- e10)) in
    if overflows M E then Inf neg
    else Fin (if neg then - M else M) E.

(** [int(x)]: truncation toward zero; raises on infinities and NaN. *)
Definition int_of_float (x : float) : Py.res Z :=
  match x with
  | Fin m e => Py.Ret (if 0 <=? e then m * 2 ^ e else Z.quot m (2 ^ (- e)))
  | Inf _ => Py.Raise Py.OverflowError
  | NaN => Py.Raise Py.ValueError
  end.

(** *** Addition and subtraction *)

(** The binary64 value nearest to [n * 2^e], ties to even. The two
    zeros of binary64, which compare equal, are one value here. *)
Definition of_scaled (n e : Z) : float :=
  if n =? 0 then Fin 0 0
  else
    let '(M, E) := if 0 <=? e then round_pos (Z.abs n * 2 ^ e) 1
                   else round_pos (Z.abs n) (2 ^ (- e)) in
    if overflows M E then Inf (n <? 0)
    else Fin (if n <? 0 then - M else M) E.

(** [x + y]: the exact sum of two finite values, rounded. *)
Definition add (x y : float) : float :=
  match x, y with
  | NaN, _ | _, NaN => NaN
  | Inf a, Inf b => if Bool.eqb a b then Inf a else NaN
  | Inf a, Fin _ _ => Inf a
  | Fin _ _, Inf b => Inf b
  | Fin m1 e1, Fin m2 e2 =>
      let e := Z.min e1 e2 in
      of_scaled (m1 * 2 ^ (e1 - e) + m2 * 2 ^ (e2 - e)) e
  end.

Definition opp (x : float) : float :=
  match x with
  | Fin m e => Fin (- m) e
  | Inf neg => Inf (negb neg)
  | NaN => NaN
  end.

(** [x - y] *)
Definition sub (x y : float) : float := add x (opp y).

(** [x != x] *)
Definition is_nan (x : float) : bool :=
  match x with
  | NaN => true
  | _ => false
  end.

(** *** The grammar accepted by [float(str)] *)

Definition digit_of (c : ascii) : option (uint -> uint) :=
  match c with
  | "0"%char => Some D0 | "1"%char => Some D1 | "2"%char => Some D2
  | "3"%char => Some D3 | "4"%char => Some D4 | "5"%char => Some D5
  | "6"%char => Some D6 | "7"%char => Some D7 | "8"%char => Some D8
  | "9"%char => Some D9
  | _ => None
  end.

(** The rest of a [digitpart] after its first digit: digits, each
    optionally preceded by one underscore. *)
Fixpoint digitpart_tail (s : string) : uint * string :=
  match s with
  | String c s' =>
      match digit_of c with
      | Some d => let '(u, r) := digitpart_tail s' in (d u, r)
      | None =>
          if Ascii.eqb c "_" then
            match s' with
            | String c2 s'' =>
                match digit_of c2 with
                | Some d => let '(u, r) := digitpart_tail s'' in (d u, r)
                | None => (Nil, s)
                end
            | EmptyString => (Nil, s)
            end
          else (Nil, s)
      end
  | EmptyString => (Nil, s)
  end.

(** [digitpart ::= digit (["_"] digit)*] *)
Definition digitpart (s : string) : option (uint * string) :=
  match s with
  | String c s' =>
      match digit_of c with
      | Some d => let '(u, r) := digitpart_tail s' in Some (d u, r)
      | None => None
      end
  | EmptyString => None
  end.

(** [number ::= [digitpart] "." digitpart | digitpart ["."]]:
    integer digits, fraction digits, rest. *)
Definition number (s : string) : option (uint * uint * string) :=
  match s with
  | String "."%char s' =>
      match digitpart s' with
      | Some (f, r) => Some (Nil, f, r)
      | None => None
      end
  | _ =>
      match digitpart s with
      | Some (i, String "."%char r) =>
          match digitpart r with
          | Some (f, r') => Some (i, f, r')
          | None => Some (i, Nil, r)
          end
      | Some (i, r) => Some (i, Nil, r)
      | None => None
      end
  end.

Definition sign (s : string) : bool * string :=
  match s with
  | String "-"%char r => (true, r)
  | String "+"%char r => (false, r)
  | _ => (false, s)
  end.

(** [exponent ::= ("e" | "E") [sign] digitpart], or nothing; the whole
    rest of the string must be consumed. *)
Definition exponent (s : string) : option Z :=
  match s with
  | EmptyString => Some 0
  | String c r =>
      if Ascii.eqb c "e" || Ascii.eqb c "E" then
        let '(neg, r') := sign r in
        match digitpart r' with
        | Some (u, EmptyString) => Some (if neg then - Z.of_uint u else Z.of_uint u)
        | _ => None
        end
      else None
  end.

(** [float(s)] on a string: white space stripped, then
    [[sign] (floatnumber | "inf" | "infinity" | "nan")], letters in any case. *)
Definition float_of_str (s : string) : Py.res float :=
  let '(neg, body) := sign (Py.strip s) in
  let w := Py.lower body in
  if String.eqb w "inf" || String.eqb w "infinity" then Py.Ret (Inf neg)
  else if String.eqb w "nan" then Py.Ret NaN
  else
    match number body with
    | Some (i, f, r) =>
        match exponent r with
        | Some e =>
            Py.Ret (of_decimal neg (Z.of_uint (Decimal.app i f))
                                   (e - Z.of_nat (Decimal.nb_digits f)))
        | None => Py.Raise Py.ValueError
        end
    | None => Py.Raise Py.ValueError
    end.

End Float64.

(** ** The part of pandas that the scripts use *)

Module Pandas.

(** A cell read with [dtype=str]: a string, or a missing value. *)
Definition cell : Type := option string.

(** A frame: the column names in order, and the rows, each a map from
    column name to cell. The model follows pandas on frames whose column
    names are distinct and stay distinct under the renamings applied. *)
Record DataFrame : Type := mkDataFrame {
  columns : list string;
  filas : list (gmap string cell)
}.

Definition has_col (df : DataFrame) (c : string) : bool := bool_decide (c ∈ columns df).

(** [row[c]] *)
Definition celda (r : gmap string cell) (c : string) : cell := default None (r !! c).

(** [Series.astype(str)] on a cell: a missing value prints as ["nan"]. *)
Definition astype_str (v : cell) : string := default "nan" v.

(** [df.rename(columns={old: new})] *)
Definition rename (old new : string) (df : DataFrame) : DataFrame :=
  {| columns := map (fun c => if String.eqb c old then new else c) (columns df);
     filas := map (fun r => match r !! old with
                            | Some v => <[new := v]> (delete old r)
                            | None => r
                            end) (filas df) |}.

(** [df[c] = f(row)]: the column is replaced in place, or appended. *)
Definition assign (c : string) (f : gmap string cell -> cell) (df : DataFrame) : DataFrame :=
  {| columns := if has_col df c then columns df else columns df ++ [c];
     filas := map (fun r => <[c := f r]> r) (filas df) |}.

(** [df[cols]] for names that are columns of the frame. *)
Definition select (cols : list string) (df : DataFrame) : DataFrame :=
  {| columns := cols;
     filas := map (fun r => filter (fun kv => kv.1 ∈ cols) r) (filas df) |}.

(** [df.dropna(subset=cols)] *)
Definition dropna (cols : list string) (df : DataFrame) : DataFrame :=
  {| columns := columns df;
     filas := filter (fun r => forallb (fun c => bool_decide (celda r c <> None)) cols = true) (filas df) |}.

(** A row as [to_csv] writes it: the cells in column order. *)
Definition to_record (cols : list string) (r : gmap string cell) : list cell :=
  map (celda r) cols.

(** The first of [candidatos] that is a column of the frame. *)
Definition first_col (candidatos : list string) (df : DataFrame) : option string :=
  List.find (has_col df) candidatos.

(** [df.columns = [c.lower() for c in df.columns]] *)
Definition lower_columns (df : DataFrame) : DataFrame :=
  {| columns := map Py.lower (columns df);
     filas :=
       map (fun r => foldr (fun c acc => <[Py.lower c := celda r c]> acc) ∅ (columns df))
           (filas df) |}.

End Pandas.

(** ** transform_icfes.py *)

Module TransformIcfes.

(** [_normalizar_departamento]. The argument is a cell of the frame:
    [None] is a missing value ([pd.isna]), [Some s] a string. The
    [except (ValueError, TypeError)] clause catches those two classes
    only; any other exception leaves the function. *)
Definition _normalizar_departamento (depto_str : option string) : Py.res (option string) :=
  match depto_str with
  | None => Py.Ret None
  | Some s =>
      if String.eqb (Py.strip s) "" then Py.Ret None
      else
        let depto := Py.strip s in
        match (x ← Float64.float_of_str depto; Float64.int_of_float x) with
        | Py.Ret codigo => Py.Ret (Some (Py.format_02d codigo))
        | Py.Raise Py.ValueError | Py.Raise Py.TypeError => Py.Ret None
        | Py.Raise e => Py.Raise e
        end
  end.

(** [_extraer_anio_de_nombre]. The argument is [path.stem]. *)

Definition digit_val (c : ascii) : Z := Z.of_nat (nat_of_ascii c) - 48.

(** The pattern [20\d{2}] at the start of [s]. *)
Definition match_20dd (s : string) : option Z :=
  match s with
  | String "2"%char (String "0"%char (String c (String d _))) =>
      if Py.is_digit c && Py.is_digit d
      then Some (2000 + 10 * digit_val c + digit_val d) else None
  | _ => None
  end.

(** The pattern [\d{4}] at the start of [s]. *)
Definition match_dddd (s : string) : option Z :=
  match s with
  | String a (String b (String c (String d _))) =>
      if Py.is_digit a && Py.is_digit b && Py.is_digit c && Py.is_digit d
      then Some (1000 * digit_val a + 100 * digit_val b + 10 * digit_val c + digit_val d)
      else None
  | _ => None
  end.

(** [re.search]: the leftmost position at which the pattern matches. *)
Fixpoint re_search (pat : string -> option Z) (s : string) : option Z :=
  match pat s with
  | Some v => Some v
  | None =>
      match s with
      | String _ s' => re_search pat s'
      | EmptyString => None
      end
  end.

Definition _extraer_anio_de_nombre (nombre : string) : Z :=
  match re_search match_20dd nombre with
  | Some anio => anio
  | None =>
      match re_search match_dddd nombre with
      | Some anio => if (2014 <=? anio) && (anio <=? 2025) then anio else 9999
      | None => 9999
      end
  end.

(** An input file: [stem] is [path.stem]. [error_lectura] is the
    exception that [_read_csv_robusto] raises for the path, when it
    raises: the [FileNotFoundError] of [open] (line 19) for a path that
    names no file, for no line of [run] looks whether a path of
    [raw_csvs] is there, or what pandas raises on a file that it cannot
    parse. [contenido] is the frame that [_read_csv_robusto] returns
    otherwise (cells are strings, [fillna("")]). *)
Record archivo : Type := mkArchivo {
  stem : string;
  contenido : Pandas.DataFrame;
  error_lectura : option Py.exn
}.

(** Line 134: [df = _read_csv_robusto(p)]. *)
Definition leer (p : archivo) : Py.res Pandas.DataFrame :=
  match error_lectura p with
  | Some e => Py.Raise e
  | None => Py.Ret (contenido p)
  end.

(** [list.sort(key=lambda x: x[1])]: a stable sort by year. *)
Fixpoint insert_by_anio (x : archivo * Z) (l : list (archivo * Z)) : list (archivo * Z) :=
  match l with
  | [] => [x]
  | y :: l' => if x.2 <=? y.2 then x :: l else y :: insert_by_anio x l'
  end.

Definition sort_by_anio (l : list (archivo * Z)) : list (archivo * Z) :=
  foldr insert_by_anio [] l.

Definition en_ventana (a : Z) : bool := (2015 <=? a) && (a <=? 2023).

(** Lines 108-110: the files kept, with their year, in processing order. *)
Definition seleccionar (csvs : list archivo) : list (archivo * Z) :=
  sort_by_anio
    (List.filter (fun pa => en_ventana pa.2)
       (map (fun p => (p, _extraer_anio_de_nombre (stem p))) csvs)).

Definition columnas_mantener_patrones : list string :=
  ["punt"; "depto"; "departamento"; "estu_areareside"; "cole_caracter"; "cole_area_ubicacion"].

(** [list(dict.fromkeys(l))]: duplicates removed, first occurrences kept. *)
Fixpoint dedup_keep_first (l : list string) : list string :=
  match l with
  | [] => []
  | x :: l' => x :: List.filter (fun y => negb (String.eqb x y)) (dedup_keep_first l')
  end.

(** Lines 137-152 on a frame that has a recognized year column beside
    a column [año]: the renaming of line 144 leaves two columns of that
    name, [df['año']] is then a frame, and [.str] at line 152 raises
    [AttributeError]. *)
Definition anio_duplicado (df : Pandas.DataFrame) : bool :=
  match Pandas.first_col ["periodo"; "PERIODO"; "estu_anoterminobachiller"] df with
  | Some _ => Pandas.has_col df "año"
  | None => false
  end.

(** Lines 136-153: the year column. A recognized column is renamed;
    otherwise the year of the file name fills a new column. The values
    are then cut to their first four characters. This is the frame on
    which the loop goes on when the renaming leaves one column [año];
    [procesar] raises before for the frames of [anio_duplicado]. *)
Definition poner_anio (anio : Z) (df : Pandas.DataFrame) : Pandas.DataFrame :=
  let df :=
    match Pandas.first_col ["periodo"; "PERIODO"; "estu_anoterminobachiller"] df with
    | Some year_col => Pandas.rename year_col "año" df
    | None => Pandas.assign "año" (fun _ => Some (Py.str_int anio)) df
    end in
  Pandas.assign "año"
    (fun r => Some (String.substring 0 4 (Pandas.astype_str (Pandas.celda r "año")))) df.

(** Lines 160-170: [df[depto_col].apply(_normalizar_departamento)]. *)
Definition poner_depto (df : Pandas.DataFrame) : Py.res Pandas.DataFrame :=
  match Pandas.first_col ["cole_cod_depto_ubicacion"; "estu_cod_depto_presentacion";
                          "estu_cod_reside_depto"] df with
  | Some depto_col =>
      vals ← mapM (fun r => _normalizar_departamento (Pandas.celda r depto_col)) (Pandas.filas df);
      mret {| Pandas.columns :=
                if Pandas.has_col df "depto_normalizado" then Pandas.columns df
                else Pandas.columns df ++ ["depto_normalizado"];
              Pandas.filas :=
                zip_with (fun r v => <["depto_normalizado" := v]> r) (Pandas.filas df) vals |}
  | None => mret df
  end.

(** Lines 174-188: the columns kept. *)
Definition columnas_seleccionadas (df : Pandas.DataFrame) : list string :=
  dedup_keep_first
    (["año"]
     ++ (if Pandas.has_col df "depto_normalizado" then ["depto_normalizado"] else [])
     ++ List.filter
          (fun col => existsb (fun patron => Py.contains (Py.lower patron) (Py.lower col))
                        columnas_mantener_patrones)
          (Pandas.columns df)).

(** Lines 134-201: one file of the loop. *)
Definition procesar (p : archivo) (anio : Z) : Py.res Pandas.DataFrame :=
  df ← leer p;
  if anio_duplicado df then Py.Raise Py.AttributeError
  else
    let df := Pandas.lower_columns (poner_anio anio df) in
    df ← poner_depto df;
    let df := Pandas.select (columnas_seleccionadas df) df in
    let cols_criticas :=
      "año" :: (if Pandas.has_col df "depto_normalizado" then ["depto_normalizado"] else []) in
    mret (Pandas.dropna cols_criticas df).

(** The result of [run]: the output file (the header written with the
    first frame, then the records of every frame) and the manifest. *)
Record resultado : Type := mkResultado {
  header : list string;
  records : list (list Pandas.cell);
  rows : Z;
  n_columns : Z;
  archivos_procesados : Z;
  anios : list Z
}.

(** [run]. [csvs] is the list of input files after discovery: the
    paths of [raw_csvs] as they are given, or the files that line 102
    finds. *)
Definition run (csvs : list archivo) : Py.res resultado :=
  if bool_decide (csvs = []) then
    Py.Raise (Py.FileNotFoundError "No encontré CSV de ICFES")
  else
    let csvs_con_anio := seleccionar csvs in
    if bool_decide (csvs_con_anio = []) then
      Py.Raise (Py.FileNotFoundError "No encontré CSV de ICFES para años 2015-2023")
    else
      dfs ← mapM (fun pa => procesar pa.1 pa.2) csvs_con_anio;
      mret {| header := from_option Pandas.columns [] (head dfs);
              records := concat (map (fun df => map (Pandas.to_record (Pandas.columns df))
                                                     (Pandas.filas df)) dfs);
              rows := Z.of_nat (length (concat (map Pandas.filas dfs)));
              n_columns := from_option (fun df => Z.of_nat (length (Pandas.columns df))) 0 (last dfs);
              archivos_procesados := Z.of_nat (length csvs_con_anio);
              anios := map snd csvs_con_anio |}.

End TransformIcfes.


(** ** transform_api.py *)

Module TransformApi.

Section Normalizer.

(** The non-missing values of a [Float64] column, and the ["sum"]
    aggregation of pandas on the values of one group, in row order. *)
Variable V : Type.
Variable vsum : list V -> V.

(** A row after step 4 (types): [anio] and [depto_divipola] are
    nullable [Int64], [valor_api_mm] is a nullable [Float64];
    [departamento] is a string (the frame was read with [fillna("")],
    and a missing column is created empty at step 6). *)
Record fila : Type := mkFila {
  anio : option Z;
  depto_divipola : option Z;
  valor_api_mm : option V;
  departamento : string
}.

(** A row that survived [dropna]. *)
Record limpia : Type := mkLimpia {
  l_anio : Z;
  l_depto : Z;
  l_valor : V;
  l_departamento : string
}.

(** Step 5: [df.dropna(subset=["anio", "depto_divipola", "valor_api_mm"])]. *)
Definition dropna_fila (r : fila) : option limpia :=
  match anio r, depto_divipola r, valor_api_mm r with
  | Some a, Some d, Some v => Some (mkLimpia a d v (departamento r))
  | _, _, _ => None
  end.

Definition dropna (df : list fila) : list limpia := omap dropna_fila df.

Definition clave (r : limpia) : Z * Z := (l_anio r, l_depto r).

(** [groupby]: the rows are split by key, each group keeping the rows
    in frame order. *)
Fixpoint add_to_group (r : limpia) (gs : list ((Z * Z) * list limpia))
  : list ((Z * Z) * list limpia) :=
  match gs with
  | [] => [(clave r, [r])]
  | (k, rs) :: gs' =>
      if decide (clave r = k) then (k, rs ++ [r]) :: gs'
      else (k, rs) :: add_to_group r gs'
  end.

Definition split_groups (df : list limpia) : list ((Z * Z) * list limpia) :=
  fold_left (fun gs r => add_to_group r gs) df [].

(** The order of the group keys in the result ([sort=True]). *)
Definition clave_leb (k1 k2 : Z * Z) : bool :=
  (k1.1 <? k2.1) || ((k1.1 =? k2.1) && (k1.2 <=? k2.2)).

Fixpoint insert_group (g : (Z * Z) * list limpia) (gs : list ((Z * Z) * list limpia))
  : list ((Z * Z) * list limpia) :=
  match gs with
  | [] => [g]
  | g' :: gs' => if clave_leb g.1 g'.1 then g :: gs else g' :: insert_group g gs'
  end.

Definition groupby (df : list limpia) : list ((Z * Z) * list limpia) :=
  foldr insert_group [] (split_groups df).

(** [lambda s: next((x for x in s if str(x).strip() != ""), "")] *)
Definition primero_no_vacio (s : list string) : string :=
  from_option id "" (List.find (fun x => negb (String.eqb (Py.strip x) "")) s).

(** A row of the aggregated frame, columns
    [anio, depto_divipola, departamento, valor_api_mm]. *)
Record agregada : Type := mkAgregada {
  g_anio : Z;
  g_depto : Z;
  g_departamento : string;
  g_valor : V
}.

Definition agg (g : (Z * Z) * list limpia) : agregada :=
  {| g_anio := g.1.1;
     g_depto := g.1.2;
     g_departamento := primero_no_vacio (map l_departamento g.2);
     g_valor := vsum (map l_valor g.2) |}.

(** Steps 5 to 7 of [run], on the typed frame. *)
Definition run (df : list fila) : Py.res (list agregada) :=
  let df := dropna df in
  if (length df =? 0)%nat then
    Py.Raise (Py.RuntimeError "[transform_api] Todas las filas quedaron inválidas tras limpieza.")
  else Py.Ret (map agg (groupby df)).

End Normalizer.

Arguments mkFila {V}.
Arguments anio {V}.
Arguments depto_divipola {V}.
Arguments valor_api_mm {V}.
Arguments departamento {V}.
Arguments mkLimpia {V}.
Arguments l_anio {V}.
Arguments l_depto {V}.
Arguments l_valor {V}.
Arguments l_departamento {V}.
Arguments clave {V}.
Arguments dropna {V}.
Arguments groupby {V}.
Arguments split_groups {V}.
Arguments add_to_group {V}.
Arguments insert_group {V}.
Arguments mkAgregada {V}.
Arguments g_anio {V}.
Arguments g_depto {V}.
Arguments g_departamento {V}.
Arguments g_valor {V}.
Arguments agg {V}.
Arguments run {V}.

(** The ["sum"] aggregation of line 93 on the [Float64] values of one
    group, none of them missing after step 5, as pandas computes it
    ([group_sum]): the values are added in row order with Kahan's
    compensation, each operation rounded to binary64, from a sum and a
    compensation of zero; a compensation that is not a number, which an
    infinite value leaves, is set back to zero. *)
Definition suma_paso (acc : Float64.float * Float64.float) (val : Float64.float)
    : Float64.float * Float64.float :=
  let '(sumx, compensation) := acc in
  let y := Float64.sub val compensation in
  let t := Float64.add sumx y in
  let c := Float64.sub (Float64.sub t sumx) y in
  (t, if Float64.is_nan c then Float64.Fin 0 0 else c).

Definition suma (s : list Float64.float) : Float64.float :=
  (fold_left suma_paso s (Float64.Fin 0 0, Float64.Fin 0 0)).1.

End TransformApi.

(** ** merge.py *)

Module Merge.

(** Python [int] and [numpy.int64] counters: true division by a zero
    [int] raises for the former and yields [nan] or [inf] (with a
    warning) for the latter. *)
Inductive num : Type :=
| PyInt (z : Z)
| NpInt64 (z : Z).

Definition num_val (n : num) : Z :=
  match n with
  | PyInt z => z
  | NpInt64 z => z
  end.

(** [a += b] for a [numpy.int64] [b]: the sum is a [numpy.int64]. *)
Definition iadd_np (a : num) (b : Z) : num := NpInt64 (num_val a + b).

(** [a / b] for a Python [int] [b], as far as raising goes. *)
Definition truediv (a : num) (b : Z) : Py.res unit :=
  match a with
  | PyInt _ => if b =? 0 then Py.Raise Py.ZeroDivisionError else Py.Ret tt
  | NpInt64 _ => Py.Ret tt
  end.

(** The model follows [run] on chunks whose column names, once
    lower-cased, are distinct and are none of the names that the join
    brings or creates ([año_pib], [depto_codigo], [valor_api_mm],
    [pib_departamental_mm]), as in the dataset that the Consolidator
    writes from the ICFES files; and on lookup tables whose year cells
    are the text of an integer, as the Lookup Normalizer writes them
    (line 67, which only prints the years, calls [int] on them). *)

Section Engine.

(** The non-missing values of the [float64] column [valor_api_mm], and
    the mean of a non-empty list of them ([None] when the float result
    is NaN). *)
Variable V : Type.
Variable fmean : V -> list V -> option V.

(** A row of [df_pib] after lines 52-62: the keys were read with
    [dtype=str], the value went through [pd.to_numeric(errors='coerce')].
    The columns are those that the Lookup Normalizer writes. *)
Record pib_row : Type := mkPib {
  anio_pib : Pandas.cell;
  depto_codigo : Pandas.cell;
  departamento : Pandas.cell;
  valor_api_mm : option V
}.

(** The table as lines 52-62 read the file that [transform_api.py]
    writes: the integer keys come back as their decimal text, an empty
    name as a missing cell, the value as a number. *)
Definition leer_pib (out : list (TransformApi.agregada V)) : list pib_row :=
  map (fun o =>
         mkPib (Some (Py.str_int (TransformApi.g_anio o)))
               (Some (Py.str_int (TransformApi.g_depto o)))
               (if String.eqb (TransformApi.g_departamento o) "" then None
                else Some (TransformApi.g_departamento o))
               (Some (TransformApi.g_valor o))) out.

(** A row of [chunk_merged] once the auxiliary columns are dropped:
    the string cells by column name, and the value column. *)
Record fila_merged : Type := mkMerged {
  campos : gmap string Pandas.cell;
  pib_departamental_mm : option V
}.

Record frame_merged : Type := mkFrameMerged {
  m_columns : list string;
  m_filas : list fila_merged
}.

(** Lines 89-98: the year column, with its fallback names. *)
Definition preparar_anio (chunk : Pandas.DataFrame) : Py.res Pandas.DataFrame :=
  let chunk :=
    if Pandas.has_col chunk "año" then chunk
    else
      match Pandas.first_col ["periodo"; "estu_anoterminobachiller"; "anio_origen"] chunk with
      | Some col_candidato => Pandas.rename col_candidato "año" chunk
      | None => chunk
      end in
  if Pandas.has_col chunk "año" then Py.Ret chunk
  else Py.Raise (Py.RuntimeError "No se pudo encontrar una columna de año en ICFES").

(** Lines 101-116: the region column, with its fallback names. *)
Definition elegir_depto (chunk : Pandas.DataFrame) : Py.res string :=
  if Pandas.has_col chunk "depto_normalizado" then Py.Ret "depto_normalizado"
  else
    match Pandas.first_col ["cole_cod_depto_ubicacion"; "estu_cod_depto_presentacion";
                            "cole_depto_ubicacion"] chunk with
    | Some candidato => Py.Ret candidato
    | None =>
        Py.Raise (Py.RuntimeError "No se encontró columna de código de departamento en ICFES")
    end.

(** Lines 119-120: the join key of a row, as strings. *)
Definition clave_merge (depto_col : string) (r : gmap string Pandas.cell) : string * string :=
  (Pandas.astype_str (Pandas.celda r "año"), Pandas.astype_str (Pandas.celda r depto_col)).

(** The rows of [df_pib] that a left key matches, in table order. A
    missing key on the right matches no string. *)
Definition coincidencias (df_pib : list pib_row) (k : string * string) : list pib_row :=
  List.filter (fun p => bool_decide (anio_pib p = Some k.1 /\ depto_codigo p = Some k.2)) df_pib.

(** The string cells of an output row: the cells of the input row
    without the auxiliary key columns, and the [departamento] cell that
    the right side brings (suffixed when both sides have the name). *)
Definition campos_salida (tiene_departamento : bool) (r : gmap string Pandas.cell)
    (dep : Pandas.cell) : gmap string Pandas.cell :=
  let r := delete "depto_merge" (delete "año_merge" r) in
  if tiene_departamento then
    <["departamento_y" := dep]>
      (<["departamento_x" := Pandas.celda r "departamento"]> (delete "departamento" r))
  else <["departamento" := dep]> r.

(** Lines 126-131: the left join of one row. An unmatched row stays,
    with missing right-hand cells; a matched row appears once per match. *)
Definition merge_fila (df_pib : list pib_row) (depto_col : string) (tiene_departamento : bool)
    (r : gmap string Pandas.cell) : list fila_merged :=
  match coincidencias df_pib (clave_merge depto_col r) with
  | [] => [mkMerged (campos_salida tiene_departamento r None) None]
  | ps => map (fun p => mkMerged (campos_salida tiene_departamento r (departamento p))
                                 (valor_api_mm p)) ps
  end.

(** The columns of [chunk_merged] after lines 134-147. *)
Definition columnas_salida (cols : list string) : list string :=
  let cols := List.filter (fun c => negb (String.eqb c "año_merge" || String.eqb c "depto_merge")) cols in
  if bool_decide ("departamento" ∈ cols) then
    map (fun c => if String.eqb c "departamento" then "departamento_x" else c) cols
      ++ ["departamento_y"; "pib_departamental_mm"]
  else cols ++ ["departamento"; "pib_departamental_mm"].

(** Lines 119-147: join, rename of the value column, drop of the
    auxiliary columns. *)
Definition left_join (df_pib : list pib_row) (depto_col : string) (chunk : Pandas.DataFrame)
    : frame_merged :=
  let tiene_departamento := Pandas.has_col chunk "departamento" in
  {| m_columns := columnas_salida (Pandas.columns chunk);
     m_filas := flat_map (merge_fila df_pib depto_col tiene_departamento) (Pandas.filas chunk) |}.

(** [chunk_merged['pib_departamental_mm'].notna().sum()] *)
Definition notna_sum (ms : list fila_merged) : Z :=
  Z.of_nat (length (List.filter (fun m => bool_decide (pib_departamental_mm m <> None)) ms)).

(** [.isna().sum()] *)
Definition isna_sum (ms : list fila_merged) : Z :=
  Z.of_nat (length (List.filter (fun m => bool_decide (pib_departamental_mm m = None)) ms)).

(** The [groupby] key of a row; rows with a missing key are in no group. *)
Definition clave_grupo (m : fila_merged) : option (string * string) :=
  match Pandas.celda (campos m) "año", Pandas.celda (campos m) "depto_normalizado" with
  | Some a, Some d => Some (a, d)
  | _, _ => None
  end.

(** [Series.mean()]: the mean of the values that are not missing,
    missing when there is none. *)
Definition mean_skipna (vals : list (option V)) : option V :=
  match omap id vals with
  | [] => None
  | v :: vs => fmean v vs
  end.

(** Line 157: [promedios]; [None] when the key is not in the index. *)
Definition promedios (ms : list fila_merged) (key : string * string) : option (option V) :=
  match List.filter (fun m => bool_decide (clave_grupo m = Some key)) ms with
  | [] => None
  | grupo => Some (mean_skipna (map pib_departamental_mm grupo))
  end.

(** Lines 160-165: [imputar_pib]. *)
Definition imputar_pib (ms : list fila_merged) (row : fila_merged) : option V :=
  match pib_departamental_mm row with
  | None =>
      match clave_grupo row with
      | Some key =>
          match promedios ms key with
          | Some promedio => promedio
          | None => pib_departamental_mm row
          end
      | None => pib_departamental_mm row
      end
  | Some v => Some v
  end.

(** Lines 151-173: the imputation pass. *)
Definition imputar (cm : frame_merged) : frame_merged :=
  if (0 <? isna_sum (m_filas cm)) && bool_decide ("depto_normalizado" ∈ m_columns cm) then
    {| m_columns := m_columns cm;
       m_filas := map (fun row => mkMerged (campos row) (imputar_pib (m_filas cm) row))
                      (m_filas cm) |}
  else cm.

(** Lines 84-147: the chunk after the left join, before imputation. *)
Definition unir (df_pib : list pib_row) (chunk : Pandas.DataFrame) : Py.res frame_merged :=
  let chunk := Pandas.lower_columns chunk in
  chunk ← preparar_anio chunk;
  depto_col ← elegir_depto chunk;
  mret (left_join df_pib depto_col chunk).

(** Lines 84-173: one chunk. The result is the frame that is written
    and [con_pib], the count taken at line 138, before the imputation
    pass of lines 149-173. ([con_pib] is a [numpy.int64]: the percentage
    of line 140 does not raise on a chunk without rows.) *)
Definition procesar_chunk (df_pib : list pib_row) (chunk : Pandas.DataFrame)
    : Py.res (frame_merged * Z) :=
  chunk_merged ← unir df_pib chunk;
  let con_pib := notna_sum (m_filas chunk_merged) in
  mret (imputar chunk_merged, con_pib).

(** The state of the loop over the chunks. *)
Record estado : Type := mkEstado {
  salida_header : option (list string);
  salida_filas : list fila_merged;
  total_procesado : Z;
  total_con_pib : num
}.

(** One turn of the loop: lines 175-182 and 139. *)
Definition acumular (st : estado) (r : frame_merged * Z) : estado :=
  {| salida_header :=
       match salida_header st with
       | None => Some (m_columns r.1)
       | Some h => Some h
       end;
     salida_filas := salida_filas st ++ m_filas r.1;
     total_procesado := total_procesado st + Z.of_nat (length (m_filas r.1));
     total_con_pib := iadd_np (total_con_pib st) r.2 |}.

Definition estado_inicial : estado :=
  {| salida_header := None; salida_filas := []; total_procesado := 0; total_con_pib := PyInt 0 |}.

Fixpoint loop (df_pib : list pib_row) (chunks : list Pandas.DataFrame) (st : estado)
    : Py.res estado :=
  match chunks with
  | [] => Py.Ret st
  | chunk :: rest =>
      r ← procesar_chunk df_pib chunk;
      loop df_pib rest (acumular st r)
  end.

(** The dictionary that [run] returns ([pct_with_pib], the same ratio
    rounded for display, is left out), with the file written. *)
Record stats : Type := mkStats {
  ddm_header : option (list string);
  ddm_filas : list fila_merged;
  total_rows : Z;
  rows_with_pib : Z;
  rows_without_pib : Z;
  pib_coverage : Q
}.

(** [run]. [chunks] are the frames that
    [pd.read_csv(icfes_path, chunksize=50000, dtype=str)] yields. The
    summary of line 194 divides the two totals; lines 195 and 210
    repeat a division of the same kinds. *)
Definition run (df_pib : list pib_row) (chunks : list Pandas.DataFrame) : Py.res stats :=
  st ← loop df_pib chunks estado_inicial;
  _ ← truediv (total_con_pib st) (total_procesado st);
  let pib_coverage :=
    if 0 <? total_procesado st
    then (inject_Z (num_val (total_con_pib st)) / inject_Z (total_procesado st))%Q
    else 0%Q in
  mret {| ddm_header := salida_header st;
          ddm_filas := salida_filas st;
          total_rows := total_procesado st;
          rows_with_pib := num_val (total_con_pib st);
          rows_without_pib := total_procesado st - num_val (total_con_pib st);
          pib_coverage := pib_coverage |}.

End Engine.

Arguments mkPib {V}.
Arguments anio_pib {V}.
Arguments depto_codigo {V}.
Arguments departamento {V}.
Arguments valor_api_mm {V}.
Arguments mkMerged {V}.
Arguments campos {V}.
Arguments pib_departamental_mm {V}.
Arguments mkFrameMerged {V}.
Arguments m_columns {V}.
Arguments m_filas {V}.
Arguments leer_pib {V}.
Arguments coincidencias {V}.
Arguments merge_fila {V}.
Arguments left_join {V}.
Arguments notna_sum {V}.
Arguments isna_sum {V}.
Arguments clave_grupo {V}.
Arguments mean_skipna {V}.
Arguments promedios {V}.
Arguments imputar_pib {V}.
Arguments imputar {V}.
Arguments unir {V}.
Arguments procesar_chunk {V}.
Arguments acumular {V}.
Arguments mkEstado {V}.
Arguments salida_header {V}.
Arguments salida_filas {V}.
Arguments total_procesado {V}.
Arguments total_con_pib {V}.
Arguments estado_inicial {V}.
Arguments loop {V}.
Arguments mkStats {V}.
Arguments ddm_header {V}.
Arguments ddm_filas {V}.
Arguments total_rows {V}.
Arguments rows_with_pib {V}.
Arguments rows_without_pib {V}.
Arguments pib_coverage {V}.
Arguments run {V}.

End Merge.

(** ** load_dw.py *)

Module LoadDw.

Definition comilla : ascii := ascii_of_nat 34.
Definition quote : string := String comilla EmptyString.
Definition nl : string := String (ascii_of_nat 10) EmptyString.

(** [col.replace(q, q + q)] for the double-quote character [q]. *)
Fixpoint replace_quote (s : string) : string :=
  match s with
  | String c s' =>
      if Ascii.eqb c comilla then String c (String c (replace_quote s'))
      else String c (replace_quote s')
  | EmptyString => EmptyString
  end.

(** [_ddl]: the text of the statement. *)
Definition _ddl (table : string) (columns : list string) : string :=
  let cols_def := map (fun col => quote +:+ replace_quote col +:+ quote +:+ " TEXT") columns in
  let newline_indent := "," +:+ nl +:+ "  " in
  let cols_joined := String.concat newline_indent cols_def in
  "CREATE TABLE IF NOT EXISTS " +:+ quote +:+ table +:+ quote +:+ " (" +:+ nl
  +:+ "  id BIGSERIAL PRIMARY KEY," +:+ nl
  +:+ "  " +:+ cols_joined +:+ "," +:+ nl
  +:+ "  created_at TIMESTAMP DEFAULT now()" +:+ nl
  +:+ ");".

(** *** The statements, and the destination they act on *)

(** The column definitions that occur in the statement: an
    auto-incrementing identity key, a text column without [NOT NULL],
    a timestamp that defaults to the time of insertion. *)
Inductive tipo_sql : Type :=
| BIGSERIAL_PRIMARY_KEY
| TEXT
| TIMESTAMP_DEFAULT_NOW.

Record columna : Type := mkColumna {
  c_nombre : string;
  c_citado : bool;
  c_tipo : tipo_sql
}.

Definition nullable (c : columna) : bool :=
  match c_tipo c with
  | BIGSERIAL_PRIMARY_KEY => false
  | TEXT => true
  | TIMESTAMP_DEFAULT_NOW => true
  end.

Definition render_tipo (t : tipo_sql) : string :=
  match t with
  | BIGSERIAL_PRIMARY_KEY => "BIGSERIAL PRIMARY KEY"
  | TEXT => "TEXT"
  | TIMESTAMP_DEFAULT_NOW => "TIMESTAMP DEFAULT now()"
  end.

(** A quoted identifier doubles the quotes of the name it denotes. *)
Definition render_columna (c : columna) : string :=
  (if c_citado c then quote +:+ replace_quote (c_nombre c) +:+ quote else c_nombre c)
  +:+ " " +:+ render_tipo (c_tipo c).

(** The [CREATE TABLE IF NOT EXISTS] statement, as SQL text. The table
    name is written between quotes as it is. *)
Definition render_create (table : string) (cols : list columna) : string :=
  "CREATE TABLE IF NOT EXISTS " +:+ quote +:+ table +:+ quote +:+ " (" +:+ nl
  +:+ "  " +:+ String.concat ("," +:+ nl +:+ "  ") (map render_columna cols) +:+ nl
  +:+ ");".

(** The columns that the statement of [_ddl] defines. *)
Definition columnas_ddl (columns : list string) : list columna :=
  [mkColumna "id" false BIGSERIAL_PRIMARY_KEY]
  ++ map (fun col => mkColumna col true TEXT) columns
  ++ [mkColumna "created_at" false TIMESTAMP_DEFAULT_NOW].

(** A stored row: the identity value and the cells of the text
    columns by name ([created_at] is the clock's). *)
Record fila_db : Type := mkFilaDb {
  f_id : Z;
  f_valores : gmap string (option string)
}.

Record tabla : Type := mkTabla {
  t_columnas : list columna;
  t_filas : list fila_db;
  t_next_id : Z
}.

(** [SELECT column_name FROM information_schema.columns ...
    ORDER BY ordinal_position] *)
Definition existing_columns (db : gmap string tabla) (table : string) : list string :=
  match db !! table with
  | Some t => map c_nombre (t_columnas t)
  | None => []
  end.

(** [DROP TABLE IF EXISTS] *)
Definition exec_drop (table : string) (db : gmap string tabla) : gmap string tabla :=
  delete table db.

(** [CREATE TABLE IF NOT EXISTS]: nothing when the table exists; an
    error when a column name is empty or occurs twice. Identifiers are
    taken as written: PostgreSQL cuts them at 63 bytes, so the model
    follows it for shorter names. *)
Definition exec_create (table : string) (cols : list columna) (db : gmap string tabla)
    : Py.res (gmap string tabla) :=
  match db !! table with
  | Some _ => Py.Ret db
  | None =>
      if bool_decide (EmptyString ∈ map c_nombre cols) then Py.Raise (Py.Psycopg2Error "42601")
      else if bool_decide (NoDup (map c_nombre cols)) then
        Py.Ret (<[table := mkTabla cols [] 1]> db)
      else Py.Raise (Py.Psycopg2Error "42701")
  end.

(** [TRUNCATE TABLE ... RESTART IDENTITY] *)
Definition exec_truncate (table : string) (db : gmap string tabla) : Py.res (gmap string tabla) :=
  match db !! table with
  | Some t => Py.Ret (<[table := mkTabla (t_columnas t) [] 1]> db)
  | None => Py.Raise (Py.Psycopg2Error "42P01")
  end.

(** The text of a field of a data record, as it is written in the file
    between two delimiters, read as [COPY ... (FORMAT CSV, QUOTE, ESCAPE)]
    reads it with the double quote for both: a quote opens or closes a
    quoted section and is left out, and two quotes inside a quoted
    section are one quote character. The records are those that [COPY]
    has split, so a quoted section ends with its field at the latest. *)
Fixpoint valor_csv (en_comillas : bool) (s : string) : string :=
  match s with
  | EmptyString => EmptyString
  | String c s' =>
      if Ascii.eqb c comilla then
        if en_comillas then
          match s' with
          | String c' s'' =>
              if Ascii.eqb c' comilla then String comilla (valor_csv true s'')
              else valor_csv false s'
          | EmptyString => EmptyString
          end
        else valor_csv true s'
      else String c (valor_csv en_comillas s')
  end.

(** A field of a data record as [COPY ... (FORMAT CSV)] stores it: a
    field written as nothing, without quotes, is NULL; any other field
    is its text, the empty string for a field written as two quotes. *)
Definition campo_copy (s : string) : option string :=
  if String.eqb s "" then None else Some (valor_csv false s).

(** [COPY table (cols) FROM STDIN WITH (FORMAT CSV, HEADER TRUE, ...)]:
    the first record is skipped, every other record becomes a row; a
    record with another number of fields than [cols] is an error, and
    so is a column that the table does not have. *)
Definition exec_copy (table : string) (cols : list string) (csv : list (list string))
    (db : gmap string tabla) : Py.res (gmap string tabla) :=
  match db !! table with
  | None => Py.Raise (Py.Psycopg2Error "42P01")
  | Some t =>
      if negb (forallb (fun c => bool_decide (c ∈ map c_nombre (t_columnas t))) cols) then
        Py.Raise (Py.Psycopg2Error "42703")
      else
        let datos := tail csv in
        if negb (forallb (fun rec => (length rec =? length cols)%nat) datos) then
          Py.Raise (Py.Psycopg2Error "22P04")
        else
          let nuevas :=
            imap (fun i rec =>
                    mkFilaDb (t_next_id t + Z.of_nat i)
                             (list_to_map (zip cols (map campo_copy rec)))) datos in
          Py.Ret (<[table := mkTabla (t_columnas t) (t_filas t ++ nuevas)
                                     (t_next_id t + Z.of_nat (length datos))]> db)
  end.

(** [SELECT COUNT( * ) FROM table] *)
Definition count_rows (table : string) (db : gmap string tabla) : Z :=
  match db !! table with
  | Some t => Z.of_nat (length (t_filas t))
  | None => 0
  end.

(** The values of a column that are neither NULL nor empty. *)
Definition valores_presentes (table col : string) (db : gmap string tabla) : list string :=
  match db !! table with
  | Some t =>
      omap (fun f => match f_valores f !! col with
                     | Some (Some v) => if String.eqb v "" then None else Some v
                     | _ => None
                     end) (t_filas t)
  | None => []
  end.

(** [SELECT COUNT(DISTINCT col) ... WHERE col IS NOT NULL AND col != ''] *)
Definition count_distinct (table col : string) (db : gmap string tabla) : Z :=
  Z.of_nat (size (list_to_set (valores_presentes table col db) : gset string)).

(** [SELECT COUNT( * ) ... WHERE col IS NOT NULL AND col != ''] *)
Definition count_present (table col : string) (db : gmap string tabla) : Z :=
  Z.of_nat (length (valores_presentes table col db)).

(** The dictionary that [run] returns ([path] left out). *)
Record resultado : Type := mkResultado {
  r_table : string;
  rows_loaded : Z;
  pib_coverage : Q;
  unique_years : Z;
  unique_deptos : Z;
  total_columns : Z
}.

Definition primera_en (candidatas csv_columns : list string) : option string :=
  List.find (fun col => bool_decide (col ∈ csv_columns)) candidatas.

(** The statements are built by interpolation. [_ddl] doubles the
    quotes of a column name, the column list of [COPY] does not, so a
    name with a double quote breaks that statement; and with no column
    at all the text of [_ddl] is not a statement. *)
Definition sin_comilla (s : string) : bool := negb (Py.contains quote s).

(** An identifier that PostgreSQL keeps as written between quotes. *)
Definition identificador_valido (s : string) : bool :=
  negb (String.eqb s "") && (String.length s <=? 63)%nat && sin_comilla s.

(** A table name that the interpolated statements keep intact. *)
Definition tabla_valida (s : string) : bool :=
  identificador_valido s && negb (Py.contains "'" s).

(** [run], from the point where the file has been found. [csv] holds
    the records of the file: first the header, as [csv.reader] gives it
    to line 150, then the data records that [COPY] reads from the file
    itself, each field as it is written there (between its quotes when
    it has them). [db] is the destination that [conn_uri] connects to,
    [table] a name without quote characters. *)
Definition run (csv : list (list string)) (table : string) (conn_uri : string)
    (replace : bool) (db : gmap string tabla) : Py.res (gmap string tabla * resultado) :=
  match csv with
  | [] => Py.Raise (Py.RuntimeError "CSV vacío")
  | csv_columns :: _ =>
      let num_cols := Z.of_nat (length csv_columns) in
      if String.eqb conn_uri "" then Py.Raise (Py.RuntimeError "Falta parámetro conn_uri")
      else
        let existing_cols := existing_columns db table in
        let db :=
          if negb (bool_decide (existing_cols = []))
             && negb (bool_decide
                        ((list_to_set existing_cols : gset string)
                           ∖ {[ "id"; "created_at"; "updated_at" ]}
                         = list_to_set csv_columns))
          then exec_drop table db else db in
        db ← (if bool_decide (csv_columns = []) then Py.Raise (Py.Psycopg2Error "42601")
              else exec_create table (columnas_ddl csv_columns) db);
        db ← (if replace then exec_truncate table db else Py.Ret db);
        db ← (if forallb sin_comilla csv_columns then exec_copy table csv_columns csv db
              else Py.Raise (Py.Psycopg2Error "42601"));
        let loaded_rows := count_rows table db in
        let unique_years :=
          match primera_en ["año"; "anio"; "periodo"] csv_columns with
          | Some year_col => count_distinct table year_col db
          | None => 0
          end in
        let unique_deptos :=
          match primera_en ["cole_cod_depto_ubicacion"; "estu_cod_depto_presentacion";
                            "departamento"] csv_columns with
          | Some depto_col => count_distinct table depto_col db
          | None => 0
          end in
        let pib_coverage :=
          match primera_en ["pib_departamental_mm"; "valor_api_mm"; "pib"] csv_columns with
          | Some pib_col =>
              if 0 <? loaded_rows
              then (inject_Z (count_present table pib_col db) / inject_Z loaded_rows)%Q
              else 0%Q
          | None => 0%Q
          end in
        mret (db, {| r_table := table;
                     rows_loaded := loaded_rows;
                     pib_coverage := pib_coverage;
                     unique_years := unique_years;
                     unique_deptos := unique_deptos;
                     total_columns := num_cols |})
  end.

End LoadDw.

(** ** extract_api.py: the download *)

Module ExtractApi.

Section Descarga.

(** A record of the dataset, and [client.get(dataset_id, limit=...,
    offset=..., filters)]: the page of at most [limit] records that
    starts at [offset]. *)
Variable registro : Type.
Variable get : nat -> nat -> list registro.

(** Lines 42-50: the loop [while True]. It goes on for as long as the
    pages are not empty; [fuel] bounds the number of requests. *)
Fixpoint descargar (fuel : nat) (page_limit offset : nat) (all_rows : list registro)
    : option (list registro) :=
  match fuel with
  | O => None
  | S fuel' =>
      match get page_limit offset with
      | [] => Some all_rows
      | batch => descargar fuel' page_limit (offset + page_limit) (all_rows ++ batch)
      end
  end.

(** Lines 42-53 of [run], when no local copy of the file exists: the
    records downloaded, or the error for an empty answer. [None] when
    [fuel] requests did not reach an empty page. *)
Definition run_online (fuel page_limit : nat) : option (Py.res (list registro)) :=
  match descargar fuel page_limit 0 [] with
  | Some [] => Some (Py.Raise (Py.RuntimeError "[extract_api] La API devolvió 0 filas."))
  | Some all_rows => Some (Py.Ret all_rows)
  | None => None
  end.

End Descarga.

(** A server that holds the records [datos] and pages them. *)
Definition servidor {registro : Type} (datos : list registro) (limit offset : nat)
    : list registro :=
  take limit (drop offset datos).

End ExtractApi.

(** ** transform_icfes.py: [_read_csv_robusto] *)

Module Lectura.

(** The frame that [pd.read_csv(path, dtype=str, sep=sep, ...)] returns
    at lines 27-36, before [fillna]: the column names as read, and the
    rows by position; a field that is absent is a missing cell. The
    detection of the delimiter and the parsing of the file are the
    libraries' and are not modelled. *)
Record leido : Type := mkLeido {
  l_columns : list string;
  l_filas : list (list Pandas.cell)
}.

(** [.fillna("")] on a cell. *)
Definition fillna (v : Pandas.cell) : Pandas.cell := Some (default "" v).

(** [Index.duplicated()]: the positions whose name occurred before. *)
Fixpoint duplicated_from (seen cols : list string) : list bool :=
  match cols with
  | [] => []
  | c :: cols' => bool_decide (c ∈ seen) :: duplicated_from (seen ++ [c]) cols'
  end.

Definition duplicated (cols : list string) : list bool := duplicated_from [] cols.

(** [x.loc[:, ~mask]] on a list aligned with the columns. *)
Fixpoint loc_not {A : Type} (mask : list bool) (l : list A) : list A :=
  match mask, l with
  | b :: mask', x :: l' => if b then loc_not mask' l' else x :: loc_not mask' l'
  | _, _ => []
  end.

(** [_read_csv_robusto], from the frame read: lines 36-47. *)
Definition _read_csv_robusto (raw : leido) : Pandas.DataFrame :=
  let rows := map (map fillna) (l_filas raw) in
  let cols := map Py.strip (l_columns raw) in
  let '(cols, rows) :=
    if existsb id (duplicated cols)
    then (loc_not (duplicated cols) cols, map (loc_not (duplicated cols)) rows)
    else (cols, rows) in
  {| Pandas.columns := cols;
     Pandas.filas := map (fun row => list_to_map (zip cols row)) rows |}.

End Lectura.

(** ** transform_api.py: the columns of the raw file *)

Module TransformApiColumnas.

Section Columnas.

(** [repr] of a list of [str], as the f-string of the error message
    prints it. *)
Variable repr_list : list string -> string.

Definition RENAME_MAP : list (string * string) :=
  [ ("a_o", "anio");
    ("actividad", "actividad");
    ("sector", "sector");
    ("tipo_de_precios", "tipo_de_precios");
    ("c_digo_departamento_divipola", "depto_divipola");
    ("departamento", "departamento");
    ("valor_miles_de_millones_de", "valor_api_mm") ].

(** Lines 60-62: one turn of the loop over [RENAME_MAP.items()]. *)
Definition renombrar_par (df : Pandas.DataFrame) (par : string * string) : Pandas.DataFrame :=
  if Pandas.has_col df par.1 && negb (Pandas.has_col df par.2)
  then Pandas.rename par.1 par.2 df else df.

Definition renombrar (df : Pandas.DataFrame) : Pandas.DataFrame :=
  fold_left renombrar_par RENAME_MAP df.

(** Line 65: [missing]. *)
Definition missing (df : Pandas.DataFrame) : list string :=
  List.filter (fun c => negb (Pandas.has_col df c)) ["anio"; "depto_divipola"; "valor_api_mm"].

(** Steps 2 and 3 of [run] (lines 59-70), on the frame read at step 1. *)
Definition columnas_estandar (df : Pandas.DataFrame) : Py.res Pandas.DataFrame :=
  let df := renombrar df in
  if negb (bool_decide (missing df = [])) then
    Py.Raise (Py.RuntimeError
      ("[transform_api] Faltan columnas clave en el crudo: " +:+ repr_list (missing df)
       +:+ ". Columnas disponibles: " +:+ repr_list (Pandas.columns df)))
  else Py.Ret df.

End Columnas.

End TransformApiColumnas.

(** ** load_dw.py: identifiers between quotes *)

Module Sql.

(** How PostgreSQL reads a quoted identifier, from the character after
    the opening quote: up to the closing quote, two quotes in a row
    standing for one quote character of the name. The result is the
    name and the text after the closing quote; there is none when the
    closing quote is missing. *)
Fixpoint leer_citado (s : string) : option (string * string) :=
  match s with
  | EmptyString => None
  | String c s' =>
      if Ascii.eqb c LoadDw.comilla then
        match s' with
        | String c2 s'' =>
            if Ascii.eqb c2 LoadDw.comilla then
              match leer_citado s'' with
              | Some (n, r) => Some (String LoadDw.comilla n, r)
              | None => None
              end
            else Some (EmptyString, s')
        | EmptyString => Some (EmptyString, EmptyString)
        end
      else
        match leer_citado s' with
        | Some (n, r) => Some (String c n, r)
        | None => None
        end
  end.

(** The text does not go on with a quote. *)
Definition sin_comilla_inicial (s : string) : bool :=
  match s with
  | String c _ => negb (Ascii.eqb c LoadDw.comilla)
  | EmptyString => true
  end.

End Sql.

(** ** load_dw.py: the search of the file *)

Module LoadDwRutas.

Section Rutas.

(** Paths, as far as step 1 of [run] uses them: the two directories,
    [dir / name], [path.name], [str(path)] and [path.exists()]. *)
Variable ruta : Type.
Variable DATA_DIR STAGING : ruta.
Variable sobre : ruta -> string -> ruta.
Variable name : ruta -> string.
Variable str : ruta -> string.
Variable existe : ruta -> bool.

Definition DEFAULT_DDM : ruta := sobre STAGING "ddm_icfes_pib.csv".

(** Lines 109-115. *)
Definition alt_paths (csv_path : ruta) : list ruta :=
  [ sobre DATA_DIR (name csv_path);
    sobre STAGING (name csv_path);
    sobre DATA_DIR "ddm_icfes_pib.csv";
    sobre STAGING "ddm_icfes_pib.csv";
    sobre DATA_DIR "icfes_con_pib.csv" ].

(** Lines 117-123: the loop; it ends on the first path that exists, or
    with the paths tried when none does. *)
Fixpoint buscar (alts : list ruta) (tried : list string) : ruta + list string :=
  match alts with
  | [] => inr tried
  | alt :: rest =>
      let tried := if bool_decide (str alt ∈ tried) then tried else tried ++ [str alt] in
      if existe alt then inl alt else buscar rest tried
  end.

(** Lines 132-136: the message of the error. *)
Definition mensaje (tried : list string) : string :=
  "❌ No se encontró el CSV en ninguna ubicación." +:+ LoadDw.nl
  +:+ "Rutas intentadas:" +:+ LoadDw.nl +:+ "  - "
  +:+ String.concat (LoadDw.nl +:+ "  - ") tried +:+ LoadDw.nl
  +:+ "Ver detalles en: " +:+ str (sobre (sobre DATA_DIR "debug") "load_dw_not_found.json").

(** Step 1 of [run] (lines 104-136): the file that is read. [path] is
    [None] when the argument is not given or is empty. The list of the
    paths tried is also what the run writes to the debug file. *)
Definition csv_encontrado (path : option ruta) : Py.res ruta :=
  let csv_path := from_option id DEFAULT_DDM path in
  if existe csv_path then Py.Ret csv_path
  else
    match buscar (alt_paths csv_path) [str csv_path] with
    | inl alt => Py.Ret alt
    | inr tried => Py.Raise (Py.FileNotFoundError (mensaje tried))
    end.

End Rutas.

End LoadDwRutas.

(** ** run_local.py *)

Module RunLocal.

(** The signature of a function: its parameters in order, each with
    whether it has a default value, and whether it takes any further
    keyword (a double-starred parameter). *)
Record firma : Type := mkFirma {
  params : list (string * bool);
  var_kw : bool
}.

(** A call with keyword arguments only: Python raises TypeError for a
    keyword that names no parameter (unless the function takes any
    keyword) and for a parameter without default that is not given. *)
Definition enlazar (f : firma) (kwargs : list string) : Py.res unit :=
  if forallb (fun k => var_kw f || bool_decide (k ∈ map fst (params f))) kwargs
     && forallb (fun p => p.2 || bool_decide (p.1 ∈ kwargs)) (params f)
  then Py.Ret tt else Py.Raise Py.TypeError.

(** The signatures of the six [run] functions of [scripts]. *)
Definition extract_icfes_run : firma := mkFirma [] false.

Definition transform_icfes_run : firma :=
  mkFirma [("raw_csvs", true); ("out_csv", true)] false.

Definition extract_api_run : firma :=
  mkFirma [("domain", true); ("dataset_id", true); ("app_token", true); ("username", true);
           ("password", true); ("out_csv", true); ("page_limit", true)] true.

Definition transform_api_run : firma :=
  mkFirma [("raw_csv", false); ("out_csv", true)] false.

Definition merge_run : firma :=
  mkFirma [("icfes_merged_csv", true); ("pib_by_depto_csv", true); ("out_csv", true)] false.

Definition load_dw_run : firma :=
  mkFirma [("path", true); ("table", true); ("conn_uri", true); ("replace", true)] false.

Section Main.

(** The dictionary [state], and what each step does to it once its
    call is bound: the body of the function, then [state.update]. *)
Variable estado : Type.
Variable extract_icfes transform_icfes extract_api transform_api merge load_dw
  : estado -> Py.res estado.

(** [if nombre in steps: state.update(f(k=...))] *)
Definition paso (nombre : string) (f : firma) (kwargs : list string)
    (cuerpo : estado -> Py.res estado) (steps : list string) (state : estado)
    : Py.res estado :=
  if bool_decide (nombre ∈ steps) then _ ← enlazar f kwargs; cuerpo state
  else Py.Ret state.

(** [main], from the list [steps] parsed from the command line. *)
Definition main (steps : list string) (state : estado) : Py.res estado :=
  state ← paso "extract_icfes" extract_icfes_run ["pattern"] extract_icfes steps state;
  state ← paso "transform_icfes" transform_icfes_run ["raw_paths"] transform_icfes steps state;
  state ← paso "extract_api" extract_api_run [] extract_api steps state;
  state ← paso "transform_api" transform_api_run [] transform_api steps state;
  state ← paso "merge" merge_run [] merge steps state;
  paso "load" load_dw_run ["validated_path"] load_dw steps state.

End Main.

End RunLocal.

(** * Proofs *)

(** Facts about [mapM] in the [res] monad. *)

Module ResFacts.
Import Py.

Lemma mapM_res_raise {A B} (f : A -> res B) l e :
  mapM f l = Raise e -> exists x, x ∈ l /\ f x = Raise e.
Proof.
  induction l as [|x l IH]; simpl; [discriminate |].
  destruct (f x) as [y|e'] eqn:Hx; simpl.
  - destruct (mapM f l) as [k|e'] eqn:Hl; simpl; [discriminate |].
    intros [= ->]. destruct (IH eq_refl) as (z & Hz & Hfz).
    exists z. split; [right; exact Hz | exact Hfz].
  - intros [= ->]. exists x. split; [left | exact Hx].
Qed.

(** [mapM] stops at the first element that raises. *)
Lemma mapM_res_raise_first {A B} (f : A -> res B) l e :
  mapM f l = Raise e ->
  exists l1 x l2, l = l1 ++ x :: l2 /\ Forall (fun y => returns (f y)) l1 /\ f x = Raise e.
Proof.
  induction l as [|x l IH]; simpl; [discriminate |].
  destruct (f x) as [y|e'] eqn:Hx; simpl.
  - destruct (mapM f l) as [k|e'] eqn:Hl; simpl; [discriminate |].
    intros [= ->]. destruct (IH eq_refl) as (l1 & z & l2 & -> & Hl1 & Hz).
    exists (x :: l1), z, l2. split; [reflexivity |]. split; [| exact Hz].
    constructor; [exists y; exact Hx | exact Hl1].
  - intros [= ->]. exists [], x, l. split; [reflexivity |]. split; [constructor | exact Hx].
Qed.

Lemma mapM_res_length {A B} (f : A -> res B) l k :
  mapM f l = Ret k -> length k = length l.
Proof.
  revert k. induction l as [|x l IH]; simpl; intros k.
  - intros [= <-]. reflexivity.
  - destruct (f x) as [y|e'] eqn:Hx; simpl; [| discriminate].
    destruct (mapM f l) as [k'|e'] eqn:Hl; simpl; [| discriminate].
    intros [= <-]. simpl. f_equal. apply IH. reflexivity.
Qed.

Lemma mapM_res_returns {A B} (f : A -> res B) l :
  (forall x, x ∈ l -> returns (f x)) -> returns (mapM f l).
Proof.
  intros H. destruct (mapM f l) as [k|e] eqn:HM; [eexists; reflexivity |].
  apply mapM_res_raise in HM as (x & Hx & Hfx).
  destruct (H x Hx) as [y Hy]. congruence.
Qed.

Lemma mapM_res_Forall2 {A B} (f : A -> res B) l k :
  mapM f l = Ret k -> Forall2 (fun x y => f x = Ret y) l k.
Proof.
  revert k. induction l as [|x l IH]; simpl; intros k.
  - intros [= <-]. constructor.
  - destruct (f x) as [y|e'] eqn:Hx; simpl; [| discriminate].
    destruct (mapM f l) as [k'|e'] eqn:Hl; simpl; [| discriminate].
    intros [= <-]. constructor; [exact Hx | apply IH; reflexivity].
Qed.

End ResFacts.

(** ** Facts about the binary64 rounding *)

Module Float64Facts.
Import Float64.

(** [p / q < 2^t], written without negative powers. *)
Definition lt_pow2 (p q t : Z) : Prop :=
  if 0 <=? t then p < q * 2 ^ t else p * 2 ^ (- t) < q.

Lemma lt_pow2_mono p q t t' :
  0 < p -> 0 < q -> t <= t' -> lt_pow2 p q t -> lt_pow2 p q t'.
Proof.
  unfold lt_pow2. intros Hp Hq Ht.
  destruct (Z.leb_spec 0 t), (Z.leb_spec 0 t'); try lia; intros Hlt.
  - assert (2 ^ t <= 2 ^ t') by (apply Z.pow_le_mono_r; lia). nia.
  - assert (0 < 2 ^ (- t)) by (apply Z.pow_pos_nonneg; lia).
    assert (0 < 2 ^ t') by (apply Z.pow_pos_nonneg; lia). nia.
  - assert (2 ^ (- t') <= 2 ^ (- t)) by (apply Z.pow_le_mono_r; lia). nia.
Qed.

Lemma floor_log2_upper p q :
  0 < p -> 0 < q -> lt_pow2 p q (floor_log2 p q + 1).
Proof.
  intros Hp Hq. unfold floor_log2.
  pose proof (Z.log2_spec p Hp) as [Hp1 Hp2].
  pose proof (Z.log2_spec q Hq) as [Hq1 Hq2].
  pose proof (Z.log2_nonneg p). pose proof (Z.log2_nonneg q).
  set (lp := Z.log2 p) in *. set (lq := Z.log2 q) in *.
  destruct (Z.leb_spec 0 (lp - lq)) as [Hk|Hk].
  - destruct (Z.ltb_spec p (q * 2 ^ (lp - lq))) as [Hb|Hb].
    + replace (lp - lq - 1 + 1) with (lp - lq) by lia.
      unfold lt_pow2. destruct (Z.leb_spec 0 (lp - lq)); [exact Hb | lia].
    + unfold lt_pow2. destruct (Z.leb_spec 0 (lp - lq + 1)); [| lia].
      replace (Z.succ lp) with ((lp - lq + 1) + lq) in Hp2 by lia.
      rewrite Z.pow_add_r in Hp2 by lia.
      assert (0 < 2 ^ (lp - lq + 1)) by (apply Z.pow_pos_nonneg; lia). nia.
  - destruct (Z.ltb_spec (p * 2 ^ (- (lp - lq))) q) as [Hb|Hb].
    + unfold lt_pow2. destruct (Z.leb_spec 0 (lp - lq - 1 + 1)); [lia |].
      replace (- (lp - lq - 1 + 1)) with (- (lp - lq)) by lia. exact Hb.
    + unfold lt_pow2. destruct (Z.leb_spec 0 (lp - lq + 1)) as [Hk1|Hk1].
      * assert (lp - lq + 1 = 0) as -> by lia. simpl.
        replace (Z.succ lp) with lq in Hp2 by lia. lia.
      * assert (Hs : 2 ^ Z.succ lp * 2 ^ (- (lp - lq + 1)) = 2 ^ lq).
        { rewrite <- Z.pow_add_r by lia. f_equal. lia. }
        assert (0 < 2 ^ (- (lp - lq + 1))) by (apply Z.pow_pos_nonneg; lia).
        nia.
Qed.

Lemma round_half_even_bounds num den b :
  0 <= num -> 0 < den -> num < b * den ->
  0 <= round_half_even num den <= b.
Proof.
  intros Hn Hd Hb. unfold round_half_even.
  assert (0 <= num / den) by (apply Z.div_pos; lia).
  assert (num / den < b) by (apply Z.div_lt_upper_bound; lia).
  destruct (2 * (num mod den) ?= den); [destruct (Z.even (num / den)) | |]; lia.
Qed.

Lemma round_half_even_exact a den :
  0 < den -> round_half_even (a * den) den = a.
Proof.
  intros Hd. unfold round_half_even.
  rewrite Z.div_mul by lia. rewrite Z.mod_mul by lia.
  destruct (Z.compare_spec (2 * 0) den); lia.
Qed.

(** The significand produced by the rounding has at most 53 bits
    (or is exactly [2^53], after a carry). *)
Lemma round_pos_bounds p q M E :
  0 < p -> 0 < q -> round_pos p q = (M, E) ->
  0 <= M <= 2 ^ 53 /\ -1074 <= E.
Proof.
  intros Hp Hq. unfold round_pos. intros [= <- <-].
  set (E := Z.max (floor_log2 p q - 52) (-1074)).
  assert (HE : floor_log2 p q + 1 <= E + 53) by (unfold E; lia).
  pose proof (lt_pow2_mono p q _ _ Hp Hq HE (floor_log2_upper p q Hp Hq)) as Hlt.
  split; [| unfold E; lia].
  unfold lt_pow2 in Hlt.
  destruct (Z.leb_spec 0 E) as [HE0|HE0].
  - destruct (Z.leb_spec 0 (E + 53)); [| lia].
    rewrite Z.pow_add_r in Hlt by lia.
    assert (0 < 2 ^ E) by (apply Z.pow_pos_nonneg; lia).
    apply round_half_even_bounds; nia.
  - assert (0 < 2 ^ (- E)) by (apply Z.pow_pos_nonneg; lia).
    apply round_half_even_bounds; [nia | lia |].
    destruct (Z.leb_spec 0 (E + 53)).
    + assert (Hs : 2 ^ (E + 53) * 2 ^ (- E) = 2 ^ 53).
      { rewrite <- Z.pow_add_r by lia. f_equal. lia. }
      nia.
    + assert (Hs : 2 ^ (- (E + 53)) * 2 ^ 53 = 2 ^ (- E)).
      { rewrite <- Z.pow_add_r by lia. f_equal. lia. }
      nia.
Qed.

(** The integers that [int(float(s))] can produce: at most 53
    significant bits, below the overflow threshold. *)
Definition int_double (n : Z) : Prop :=
  exists M E, 0 <= M <= 2 ^ 53 /\ 0 <= E /\ Z.abs n = M * 2 ^ E /\ Z.abs n < 2 ^ 1024.

Lemma int_of_decimal_int_double neg m e10 n :
  0 <= m ->
  int_of_float (of_decimal neg m e10) = Py.Ret n -> int_double n.
Proof.
  intros Hm. unfold of_decimal.
  destruct (Z.eqb_spec m 0) as [->|Hne].
  - simpl. intros [= <-]. exists 0, 0. simpl. lia.
  - set (pq := if 0 <=? e10 then (m * 10 ^ e10, 1) else (m, 10 ^ (- e10))).
    assert (Hpq : 0 < fst pq /\ 0 < snd pq).
    { unfold pq. destruct (Z.leb_spec 0 e10); simpl.
      - assert (0 < 10 ^ e10) by (apply Z.pow_pos_nonneg; lia). nia.
      - assert (0 < 10 ^ (- e10)) by (apply Z.pow_pos_nonneg; lia). lia. }
    replace (if 0 <=? e10 then round_pos (m * 10 ^ e10) 1 else round_pos m (10 ^ (- e10)))
      with (round_pos (fst pq) (snd pq)) by (unfold pq; destruct (0 <=? e10); reflexivity).
    destruct (round_pos (fst pq) (snd pq)) as [M E] eqn:HR.
    destruct Hpq as [H1 H2].
    destruct (round_pos_bounds _ _ _ _ H1 H2 HR) as [HM HE].
    unfold overflows.
    destruct (Z.leb_spec 0 E) as [HE0|HE0]; simpl.
    + destruct (Z.leb_spec (2 ^ 1024) (M * 2 ^ E)) as [Ho|Ho]; simpl; [discriminate |].
      destruct (Z.leb_spec 0 E); [| lia]. intros [= <-].
      exists M, E. assert (0 < 2 ^ E) by (apply Z.pow_pos_nonneg; lia).
      destruct neg.
      * rewrite Z.mul_opp_l, Z.abs_opp, Z.abs_eq by nia. lia.
      * rewrite Z.abs_eq by nia. lia.
    + destruct (Z.leb_spec 0 E); [lia |]. intros [= <-].
      assert (Hp2 : 0 < 2 ^ (- E)) by (apply Z.pow_pos_nonneg; lia).
      assert (Hq : 0 <= Z.quot M (2 ^ (- E)) <= M).
      { split; [apply Z.quot_pos; lia |].
        rewrite Z.quot_div_nonneg by lia.
        apply Z.div_le_upper_bound; nia. }
      assert (Habs : Z.abs (Z.quot (if neg then - M else M) (2 ^ (- E))) = Z.quot M (2 ^ (- E))).
      { destruct neg; [rewrite Z.quot_opp_l by lia; rewrite Z.abs_opp |]; apply Z.abs_eq; lia. }
      exists (Z.quot M (2 ^ (- E))), 0. rewrite Habs. simpl (2 ^ 0).
      assert (2 ^ 53 < 2 ^ 1024) by (apply Z.pow_lt_mono_r; lia). lia.
Qed.

Lemma floor_log2_int N : 0 < N -> floor_log2 N 1 = Z.log2 N.
Proof.
  intros HN. unfold floor_log2. change (Z.log2 1) with 0. rewrite Z.sub_0_r.
  pose proof (Z.log2_nonneg N). pose proof (Z.log2_spec N HN) as [Hl _].
  destruct (Z.leb_spec 0 (Z.log2 N)); [| lia].
  destruct (Z.ltb_spec N (1 * 2 ^ Z.log2 N)); [lia | reflexivity].
Qed.

(** An integer with at most 53 significant bits is a multiple of the
    unit in the last place of its binade. *)
Lemma int_double_divide N M E :
  0 < N -> 0 <= M <= 2 ^ 53 -> 0 <= E -> N = M * 2 ^ E ->
  52 < Z.log2 N -> exists a, N = a * 2 ^ (Z.log2 N - 52).
Proof.
  intros HN HM HE -> Hk.
  assert (Hpos : 0 < 2 ^ E) by (apply Z.pow_pos_nonneg; lia).
  assert (HM0 : 0 < M) by nia.
  rewrite Z.log2_mul_pow2 in * by lia.
  destruct (Z.le_gt_cases (Z.log2 M) 52) as [Hl|Hl].
  - exists (M * 2 ^ (52 - Z.log2 M)).
    rewrite <- Z.mul_assoc, <- Z.pow_add_r by lia. do 2 f_equal. lia.
  - assert (Z.log2 M <= 53).
    { change 53 with (Z.log2 (2 ^ 53)). apply Z.log2_le_mono. lia. }
    assert (Hlm : Z.log2 M = 53) by lia.
    pose proof (Z.log2_spec M HM0) as [Hlo _]. rewrite Hlm in Hlo.
    assert (M = 2 ^ 53) as -> by lia.
    exists (2 ^ 52). rewrite <- !Z.pow_add_r by lia. f_equal. lia.
Qed.

(** Parsing back an integer that a float produced gives that integer:
    such an integer is a binary64 value. *)
Lemma int_of_decimal_exact n :
  int_double n ->
  int_of_float (of_decimal (n <? 0) (Z.abs n) 0) = Py.Ret n.
Proof.
  intros (M & E & HM & HE & Habs & Hlt). unfold of_decimal.
  destruct (Z.eqb_spec (Z.abs n) 0) as [H0|H0].
  - simpl. f_equal. lia.
  - set (N := Z.abs n) in *. assert (HN : 0 < N) by (unfold N; lia).
    change (0 <=? 0) with true. cbv iota. change (10 ^ 0) with 1. rewrite Z.mul_1_r.
    unfold round_pos. rewrite floor_log2_int by lia.
    pose proof (Z.log2_nonneg N) as Hl0.
    rewrite Z.max_l by lia.
    assert (Hsgn : (if n <? 0 then - N else N) = n).
    { unfold N. destruct (Z.ltb_spec n 0); lia. }
    destruct (Z.leb_spec 0 (Z.log2 N - 52)) as [Hk|Hk].
    + assert (Hdiv : exists a, N = a * 2 ^ (Z.log2 N - 52)).
      { destruct (Z.eq_dec (Z.log2 N) 52) as [He|He].
        - exists N. rewrite He. simpl. lia.
        - apply (int_double_divide N M E); lia. }
      destruct Hdiv as [a Ha].
      assert (Hp : 0 < 2 ^ (Z.log2 N - 52)) by (apply Z.pow_pos_nonneg; lia).
      pose proof (round_half_even_exact a _ Hp) as Hr. rewrite <- Ha in Hr.
      rewrite Z.mul_1_l, Hr.
      unfold overflows. rewrite <- Ha.
      destruct (Z.leb_spec 0 (Z.log2 N - 52)); [| lia]. simpl.
      destruct (Z.leb_spec (2 ^ 1024) N); [lia |]. simpl.
      destruct (Z.leb_spec 0 (Z.log2 N - 52)); [| lia]. f_equal.
      destruct (n <? 0); [rewrite Z.mul_opp_l |]; rewrite <- Ha; exact Hsgn.
    + assert (Hp : 0 < 2 ^ (- (Z.log2 N - 52))) by (apply Z.pow_pos_nonneg; lia).
      replace (N * 2 ^ (- (Z.log2 N - 52))) with ((N * 2 ^ (- (Z.log2 N - 52))) * 1) by lia.
      rewrite round_half_even_exact by lia.
      unfold overflows. destruct (Z.leb_spec 0 (Z.log2 N - 52)); [lia |]. simpl.
      f_equal.
      destruct (n <? 0); destruct (Z.leb_spec 0 (Z.log2 N - 52)); try lia.
      * rewrite Z.quot_opp_l by lia. rewrite Z.quot_mul by lia. exact Hsgn.
      * rewrite Z.quot_mul by lia. exact Hsgn.
Qed.

(** *** Sums of integers

    The float [x] is the integer [z]. *)
Definition vale (x : float) (z : Z) : Prop :=
  match x with
  | Fin m e => if 0 <=? e then m * 2 ^ e = z else m = z * 2 ^ (- e)
  | _ => False
  end.

Lemma floor_log2_pow2 N k :
  0 < N -> 0 <= k -> floor_log2 (N * 2 ^ k) (2 ^ k) = Z.log2 N.
Proof.
  intros HN Hk. unfold floor_log2.
  rewrite Z.log2_mul_pow2, Z.log2_pow2 by lia.
  replace (k + Z.log2 N - k) with (Z.log2 N) by lia.
  pose proof (Z.log2_nonneg N). pose proof (Z.log2_spec N HN) as [Hl _].
  destruct (Z.leb_spec 0 (Z.log2 N)); [| lia].
  assert (0 < 2 ^ k) by (apply Z.pow_pos_nonneg; lia).
  destruct (Z.ltb_spec (N * 2 ^ k) (2 ^ k * 2 ^ Z.log2 N)); [nia | reflexivity].
Qed.

(** An integer of at most 53 bits is rounded to itself. *)
Lemma round_pos_entero N k M E :
  0 < N <= 2 ^ 53 -> 0 <= k ->
  round_pos (N * 2 ^ k) (2 ^ k) = (M, E) ->
  0 < M /\ (if 0 <=? E then M * 2 ^ E = N else M = N * 2 ^ (- E)).
Proof.
  intros [HN HN53] Hk. unfold round_pos. rewrite floor_log2_pow2 by lia.
  pose proof (Z.log2_nonneg N) as Hl0.
  assert (Hl53 : Z.log2 N <= 53).
  { change 53 with (Z.log2 (2 ^ 53)). apply Z.log2_le_mono. lia. }
  rewrite Z.max_l by lia.
  assert (Hk2 : 0 < 2 ^ k) by (apply Z.pow_pos_nonneg; lia).
  destruct (Z.leb_spec 0 (Z.log2 N - 52)) as [HE|HE]; intros [= <- <-].
  - destruct (Z.eq_dec (Z.log2 N) 52) as [He|He].
    + rewrite He. change (2 ^ (52 - 52)) with 1. rewrite Z.mul_1_r.
      rewrite round_half_even_exact by lia.
      split; [lia |]. change (0 <=? 52 - 52) with true. cbv iota. lia.
    + assert (He53 : Z.log2 N = 53) by lia.
      pose proof (Z.log2_spec N HN) as [Hlo _]. rewrite He53 in Hlo.
      assert (HNe : N = 2 ^ 52 * 2) by lia.
      rewrite He53. change (2 ^ (53 - 52)) with 2. change (0 <=? 53 - 52) with true.
      cbv iota.
      assert (Hp : N * 2 ^ k = 2 ^ 52 * (2 ^ k * 2)) by lia.
      rewrite Hp, round_half_even_exact by lia. lia.
  - assert (0 < 2 ^ (- (Z.log2 N - 52))) by (apply Z.pow_pos_nonneg; lia).
    replace (N * 2 ^ k * 2 ^ (- (Z.log2 N - 52)))
      with (N * 2 ^ (- (Z.log2 N - 52)) * 2 ^ k) by ring.
    rewrite round_half_even_exact by lia. split; [nia |].
    destruct (Z.leb_spec 0 (Z.log2 N - 52)); [lia | reflexivity].
Qed.

Lemma of_scaled_vale n e z :
  (if 0 <=? e then n * 2 ^ e = z else n = z * 2 ^ (- e)) ->
  Z.abs z <= 2 ^ 53 ->
  vale (of_scaled n e) z.
Proof.
  intros Hv Hz. unfold of_scaled.
  assert (Hpe : 0 < 2 ^ Z.abs e) by (apply Z.pow_pos_nonneg; lia).
  destruct (Z.eqb_spec n 0) as [->|Hn].
  - unfold vale. change (0 <=? 0) with true. cbv iota.
    destruct (Z.leb_spec 0 e) as [He|He]; [lia |].
    rewrite Z.abs_neq in Hpe by lia. nia.
  - set (k := if 0 <=? e then 0 else - e).
    assert (Hk : 0 <= k) by (unfold k; destruct (Z.leb_spec 0 e); lia).
    assert (Hz0 : z <> 0).
    { intros ->. destruct (Z.leb_spec 0 e) as [He|He]; [| lia].
      rewrite Z.abs_eq in Hpe by lia. nia. }
    assert (Hsgn : (n <? 0) = (z <? 0)).
    { destruct (Z.leb_spec 0 e) as [He|He].
      - rewrite Z.abs_eq in Hpe by lia.
        destruct (Z.ltb_spec n 0), (Z.ltb_spec z 0); try reflexivity; nia.
      - rewrite Z.abs_neq in Hpe by lia.
        destruct (Z.ltb_spec n 0), (Z.ltb_spec z 0); try reflexivity; nia. }
    assert (Harg : (if 0 <=? e then round_pos (Z.abs n * 2 ^ e) 1
                    else round_pos (Z.abs n) (2 ^ (- e)))
                   = round_pos (Z.abs z * 2 ^ k) (2 ^ k)).
    { unfold k. destruct (Z.leb_spec 0 e) as [He|He].
      - change (2 ^ 0) with 1. rewrite Z.mul_1_r. f_equal.
        rewrite <- Hv, Z.abs_mul, (Z.abs_eq (2 ^ e)); [reflexivity |].
        apply Z.pow_nonneg. lia.
      - f_equal. rewrite Hv, Z.abs_mul, (Z.abs_eq (2 ^ (- e))); [reflexivity |].
        apply Z.pow_nonneg. lia. }
    rewrite Harg. destruct (round_pos (Z.abs z * 2 ^ k) (2 ^ k)) as [M E] eqn:HR.
    destruct (round_pos_entero (Z.abs z) k M E) as [HM HME]; [lia | lia | exact HR |].
    assert (Hov : overflows M E = false).
    { unfold overflows. destruct (Z.leb_spec 0 E) as [HE|HE]; [| reflexivity].
      simpl. apply Z.leb_gt. rewrite HME.
      assert (2 ^ 53 < 2 ^ 1024) by (apply Z.pow_lt_mono_r; lia). lia. }
    rewrite Hov, Hsgn. unfold vale.
    destruct (Z.ltb_spec z 0) as [Hneg|Hpos]; destruct (0 <=? E); lia.
Qed.

(** The value of [m * 2^e] on the scale [2^c], for [c <= e]. *)
Lemma vale_scale m e z c :
  vale (Fin m e) z -> c <= e ->
  if 0 <=? c then m * 2 ^ (e - c) * 2 ^ c = z else m * 2 ^ (e - c) = z * 2 ^ (- c).
Proof.
  unfold vale. intros Hv Hc.
  destruct (Z.leb_spec 0 c) as [Hc0|Hc0].
  - destruct (Z.leb_spec 0 e); [| lia].
    rewrite <- Z.mul_assoc, <- Z.pow_add_r by lia. replace (e - c + c) with e by lia. exact Hv.
  - destruct (Z.leb_spec 0 e) as [He|He].
    + rewrite <- Hv. replace (e - c) with (e + - c) by lia.
      rewrite Z.pow_add_r by lia. ring.
    + rewrite Hv. rewrite <- Z.mul_assoc, <- Z.pow_add_r by lia.
      do 2 f_equal. lia.
Qed.

Lemma add_vale x y a b :
  vale x a -> vale y b -> Z.abs (a + b) <= 2 ^ 53 -> vale (add x y) (a + b).
Proof.
  destruct x as [m1 e1| |], y as [m2 e2| |]; try (intros []; fail); try (intros _ []; fail).
  intros Hx Hy Hb. unfold add. apply of_scaled_vale; [| exact Hb].
  pose proof (vale_scale m1 e1 a (Z.min e1 e2) Hx ltac:(lia)) as H1.
  pose proof (vale_scale m2 e2 b (Z.min e1 e2) Hy ltac:(lia)) as H2.
  destruct (0 <=? Z.min e1 e2); lia.
Qed.

Lemma opp_vale x a : vale x a -> vale (opp x) (- a).
Proof.
  destruct x as [m e| |]; try (intros []; fail). unfold vale, opp.
  destruct (0 <=? e); lia.
Qed.

Lemma sub_vale x y a b :
  vale x a -> vale y b -> Z.abs (a - b) <= 2 ^ 53 -> vale (sub x y) (a - b).
Proof.
  intros Hx Hy Hb. unfold sub. replace (a - b) with (a + - b) by lia.
  apply add_vale; [exact Hx | apply opp_vale, Hy | replace (a + - b) with (a - b) by lia; exact Hb].
Qed.

Lemma vale_is_nan x a : vale x a -> is_nan x = false.
Proof. destruct x; [reflexivity | intros [] | intros []]. Qed.

End Float64Facts.

(** ** Facts about the decimal rendering and its parsing *)

Module PyFacts.
Import Py Float64 Float64Facts.

(** A digit string: the characters of a non-empty [uint]. *)
Definition digits (d : uint) : string := NilEmpty.string_of_uint d.

Lemma str_int_shape z :
  exists d, d <> Nil /\ Z.of_uint d = Z.abs z /\
    str_int z = if z <? 0 then String "-" (digits d) else digits d.
Proof.
  unfold str_int, digits. destruct z as [|p|p]; simpl.
  - exists (D0 Nil). split; [congruence | split; reflexivity].
  - exists (Pos.to_uint p).
    assert (Hn : Pos.to_uint p <> Nil).
    { intros E. pose proof (DecimalPos.Unsigned.of_to p) as H. rewrite E in H. discriminate. }
    split; [exact Hn | split].
    + unfold Z.of_uint. rewrite DecimalPos.Unsigned.of_to. reflexivity.
    + unfold NilZero.string_of_uint. destruct (Pos.to_uint p); congruence.
  - exists (Pos.to_uint p).
    assert (Hn : Pos.to_uint p <> Nil).
    { intros E. pose proof (DecimalPos.Unsigned.of_to p) as H. rewrite E in H. discriminate. }
    split; [exact Hn | split].
    + unfold Z.of_uint. rewrite DecimalPos.Unsigned.of_to. reflexivity.
    + unfold NilZero.string_of_uint. destruct (Pos.to_uint p); congruence.
Qed.

Lemma str_int_inj z1 z2 : str_int z1 = str_int z2 -> z1 = z2.
Proof.
  unfold str_int. intros H.
  assert (Hok : forall z, Z.to_int z <> Pos Nil /\ Z.to_int z <> Neg Nil).
  { intros [|p|p]; simpl; split; try discriminate; intros [= E];
      pose proof (DecimalPos.Unsigned.of_to p) as Hp; rewrite E in Hp; discriminate. }
  pose proof (NilZero.isi (Z.to_int z1) (proj1 (Hok z1)) (proj2 (Hok z1))) as H1.
  pose proof (NilZero.isi (Z.to_int z2) (proj1 (Hok z2)) (proj2 (Hok z2))) as H2.
  rewrite H in H1. rewrite H1 in H2. injection H2 as H2.
  rewrite <- (DecimalZ.of_to z1), <- (DecimalZ.of_to z2), H2. reflexivity.
Qed.

Lemma of_uint_D0 d : Z.of_uint (D0 d) = Z.of_uint d.
Proof. reflexivity. Qed.

(** [format_02d] yields an optional minus sign and at least one digit;
    the digits denote the absolute value. *)
Lemma format_02d_shape z :
  exists d, d <> Nil /\ Z.of_uint d = Z.abs z /\
    format_02d z = if z <? 0 then String "-" (digits d) else digits d.
Proof.
  unfold format_02d. destruct (str_int_shape z) as (d & Hd & Hv & Hs).
  rewrite Hs. destruct (z <? 0) eqn:Hz.
  - exists d. split; [assumption | split; [assumption |]].
    destruct d; [congruence | ..]; reflexivity.
  - destruct (Nat.ltb_spec (String.length (digits d)) 2).
    + exists (D0 d). split; [congruence | split; [rewrite of_uint_D0; exact Hv | reflexivity]].
    + exists d. split; [assumption | split; [assumption | reflexivity]].
Qed.

Lemma digit_of_digits_head d :
  d <> Nil -> exists c f r, digits d = String c (digits r) /\ digit_of c = Some f /\ d = f r
    /\ isspace c = false /\ Py.lower_ascii c = c /\ is_digit c = true.
Proof.
  intros Hd. destruct d; [congruence | ..];
    eexists _, _, _; simpl; (split; [reflexivity |]); repeat split; reflexivity.
Qed.

Lemma digitpart_tail_digits d : digitpart_tail (digits d) = (d, EmptyString).
Proof. induction d; simpl; try rewrite IHd; reflexivity. Qed.

Lemma digitpart_digits d : d <> Nil -> digitpart (digits d) = Some (d, EmptyString).
Proof.
  intros Hd. destruct (digit_of_digits_head d Hd) as (c & f & r & -> & Hc & -> & _).
  unfold digitpart. rewrite Hc, digitpart_tail_digits. reflexivity.
Qed.

Lemma number_digits d : d <> Nil -> number (digits d) = Some (d, Nil, EmptyString).
Proof.
  intros Hd. pose proof (digitpart_digits d Hd) as Hp.
  destruct d; [congruence | ..]; unfold number; simpl digits in *; rewrite Hp; reflexivity.
Qed.

Lemma rstrip_digits d : rstrip (digits d) = digits d.
Proof. induction d; simpl; try rewrite IHd; reflexivity. Qed.

Lemma strip_digits d : d <> Nil -> strip (digits d) = digits d.
Proof.
  intros Hd. unfold strip.
  destruct (digit_of_digits_head d Hd) as (c & f & r & E & _ & _ & Hs & _).
  rewrite E. simpl. rewrite Hs. rewrite <- E. apply rstrip_digits.
Qed.

Lemma strip_minus_digits d : strip (String "-" (digits d)) = String "-" (digits d).
Proof. unfold strip. simpl. rewrite rstrip_digits. reflexivity. Qed.

(** [float] of a rendered integer is the rounding of that integer. *)
Lemma float_of_str_digits (neg : bool) d :
  d <> Nil ->
  float_of_str (if neg then String "-" (digits d) else digits d)
  = Ret (of_decimal neg (Z.of_uint d) 0).
Proof.
  intros Hd. unfold float_of_str.
  assert (Hs : sign (strip (if neg then String "-" (digits d) else digits d)) = (neg, digits d)).
  { destruct neg.
    - rewrite strip_minus_digits. reflexivity.
    - rewrite strip_digits by assumption.
      destruct d; [congruence | ..]; reflexivity. }
  rewrite Hs.
  assert (Hw : (String.eqb (lower (digits d)) "inf" || String.eqb (lower (digits d)) "infinity") = false
               /\ String.eqb (lower (digits d)) "nan" = false).
  { destruct d; [congruence | ..]; split; reflexivity. }
  destruct Hw as [-> ->].
  rewrite number_digits by assumption. simpl exponent. cbv iota.
  rewrite DecimalFacts.app_nil_r. reflexivity.
Qed.


Lemma float_of_str_cases s x :
  float_of_str s = Ret x ->
  (exists neg, x = Inf neg) \/ x = NaN \/ exists neg m e10, 0 <= m /\ x = of_decimal neg m e10.
Proof.
  unfold float_of_str. destruct (sign (strip s)) as [neg body].
  destruct (_ || _); [intros [= <-]; eauto |].
  destruct (String.eqb _ "nan"); [intros [= <-]; eauto |].
  destruct (number body) as [[[i f] r]|]; [| discriminate].
  destruct (exponent r); [| discriminate].
  intros [= <-]. right. right. eexists _, _, _. split; [| reflexivity].
  unfold Z.of_uint. apply N2Z.is_nonneg.
Qed.

Lemma float_of_str_raises s e : float_of_str s = Raise e -> e = ValueError.
Proof.
  unfold float_of_str. destruct (sign (strip s)) as [neg body].
  destruct (_ || _); [discriminate |].
  destruct (String.eqb _ "nan"); [discriminate |].
  destruct (number body) as [[[i f] r]|]; [| congruence].
  destruct (exponent r); congruence.
Qed.

End PyFacts.

(** ** Properties of [_normalizar_departamento] *)

Module TransformIcfesFacts.
Import Py Float64 Float64Facts PyFacts TransformIcfes.

Fixpoint all_digits (s : string) : bool :=
  match s with
  | String c s' => is_digit c && all_digits s'
  | EmptyString => true
  end.

(** What the function computes on a non-blank string. *)
Lemma normalizar_unfold s :
  strip s <> "" ->
  _normalizar_departamento (Some s) =
    match float_of_str (strip s) with
    | Ret (Fin m e) =>
        Ret (Some (format_02d (if 0 <=? e then m * 2 ^ e else Z.quot m (2 ^ (- e)))))
    | Ret (Inf _) => Raise OverflowError
    | Ret NaN => Ret None
    | Raise _ => Ret None
    end.
Proof.
  intros Hs. unfold _normalizar_departamento.
  destruct (String.eqb_spec (strip s) ""); [contradiction |].
  destruct (float_of_str (strip s)) as [[m e| |]|e] eqn:Hf; simpl; try reflexivity.
  apply float_of_str_raises in Hf. subst. reflexivity.
Qed.

(** A non-null result is the rendering of an integer that a binary64
    value truncates to. *)
Lemma normalizar_some x r :
  _normalizar_departamento x = Ret (Some r) ->
  exists codigo, int_double codigo /\ r = format_02d codigo.
Proof.
  destruct x as [s|]; [| discriminate]. unfold _normalizar_departamento.
  destruct (String.eqb (strip s) ""); [discriminate |].
  destruct (float_of_str (strip s)) as [x|e] eqn:Hf; simpl.
  - destruct (int_of_float x) as [c|e] eqn:Hi.
    + intros [= <-]. exists c. split; [| reflexivity].
      destruct (float_of_str_cases _ _ Hf) as [[neg ->]|[->|(neg & m & e10 & Hm & ->)]];
        try discriminate.
      eapply int_of_decimal_int_double; eauto.
    + destruct e; discriminate.
  - destruct e; discriminate.
Qed.

Lemma normalizar_raises x e : _normalizar_departamento x = Raise e -> e = OverflowError.
Proof.
  destruct x as [s|]; [| discriminate]. unfold _normalizar_departamento.
  destruct (String.eqb (strip s) ""); [discriminate |].
  destruct (float_of_str (strip s)) as [x|e'] eqn:Hf; simpl.
  - destruct x; simpl; congruence.
  - apply float_of_str_raises in Hf. subst. discriminate.
Qed.

(** Normalizing a rendered code gives it back. *)
Lemma normalizar_format codigo :
  int_double codigo ->
  _normalizar_departamento (Some (format_02d codigo)) = Ret (Some (format_02d codigo)).
Proof.
  intros Hc. destruct (format_02d_shape codigo) as (d & Hd & Hv & Hs).
  assert (Hstrip : strip (format_02d codigo) = format_02d codigo).
  { rewrite Hs. destruct (codigo <? 0); [apply strip_minus_digits | apply strip_digits, Hd]. }
  assert (Hne : format_02d codigo <> "").
  { rewrite Hs. destruct (codigo <? 0); [discriminate |].
    destruct d; [congruence | ..]; discriminate. }
  unfold _normalizar_departamento. rewrite Hstrip.
  destruct (String.eqb_spec (format_02d codigo) ""); [contradiction |].
  rewrite Hs at 1. rewrite float_of_str_digits by assumption. simpl.
  rewrite Hv, (int_of_decimal_exact codigo Hc). reflexivity.
Qed.


Lemma format_02d_small_check :
  forallb (fun n => let r := format_02d (Z.of_nat n) in
                    Nat.eqb (String.length r) 2 && all_digits r) (seq 0 100) = true.
Proof. vm_compute. reflexivity. Qed.

Lemma format_02d_small codigo :
  0 <= codigo <= 99 ->
  String.length (format_02d codigo) = 2%nat /\ all_digits (format_02d codigo) = true.
Proof.
  intros Hc. pose proof format_02d_small_check as H.
  rewrite forallb_forall in H. specialize (H (Z.to_nat codigo)).
  rewrite Z2Nat.id in H by lia.
  assert (Hin : In (Z.to_nat codigo) (seq 0 100)) by (apply in_seq; lia).
  apply H in Hin. apply andb_prop in Hin as [H1 H2].
  apply Nat.eqb_eq in H1. split; assumption.
Qed.

Lemma digits_two_bound d :
  String.length (digits d) = 2%nat -> 0 <= Z.of_uint d <= 99.
Proof.
  destruct d as [|d|d|d|d|d|d|d|d|d|d]; try discriminate;
    (destruct d as [|d|d|d|d|d|d|d|d|d|d]; try discriminate;
     (destruct d; try discriminate; intros _; vm_compute; split; discriminate)).
Qed.

Lemma format_02d_length codigo : (2 <= String.length (format_02d codigo))%nat.
Proof.
  unfold format_02d. destruct (str_int_shape codigo) as (d & Hd & _ & Hs).
  destruct (Nat.ltb_spec (String.length (str_int codigo)) 2); [| assumption].
  rewrite Hs. destruct (codigo <? 0); destruct d; try congruence; simpl; lia.
Qed.

Lemma format_02d_two_digits codigo :
  String.length (format_02d codigo) = 2%nat /\ all_digits (format_02d codigo) = true
  <-> 0 <= codigo <= 99.
Proof.
  split; [| apply format_02d_small].
  intros [Hl Hd]. destruct (format_02d_shape codigo) as (d & Hn & Hv & Hs).
  rewrite Hs in Hl, Hd. destruct (Z.ltb_spec codigo 0) as [Hneg|Hpos].
  - simpl in Hd. discriminate.
  - apply digits_two_bound in Hl. lia.
Qed.

(** C3: region-code normalization is idempotent. Whenever
    [_normalizar_departamento] returns a result, normalizing that result
    returns it unchanged (the only way not to return is the
    [OverflowError] of [int] on an infinity, which the [except] clause
    does not catch); ["5"] and ["05"] both map to ["05"], and the empty
    string maps to null. *)
Theorem normalizar_departamento_idempotent :
  (forall x,
     match _normalizar_departamento x with
     | Ret r => _normalizar_departamento r = Ret r
     | Raise e => e = OverflowError
     end)
  /\ _normalizar_departamento (Some "5") = Ret (Some "05")
  /\ _normalizar_departamento (Some "05") = Ret (Some "05")
  /\ _normalizar_departamento (Some "") = Ret None.
Proof.
  split; [| repeat split; vm_compute; reflexivity].
  intros x. destruct (_normalizar_departamento x) as [[r|]|e] eqn:Hx.
  - destruct (normalizar_some _ _ Hx) as (c & Hc & ->). apply normalizar_format, Hc.
  - reflexivity.
  - eapply normalizar_raises, Hx.
Qed.

(** What the function returns, on every cell: null, or the decimal
    rendering of the truncated integer zero-padded to at least two
    characters; the result has exactly two characters, both digits,
    exactly when that integer lies in 0..99. On a blank or missing
    value the result is null. *)
Lemma normalizar_departamento_result :
  (forall x,
     match _normalizar_departamento x with
     | Ret (Some r) =>
         exists codigo, r = format_02d codigo /\ (2 <= String.length r)%nat /\
           (String.length r = 2%nat /\ all_digits r = true <-> 0 <= codigo <= 99)
     | Ret None => True
     | Raise e => e = OverflowError
     end)
  /\ _normalizar_departamento None = Ret None
  /\ (forall s, strip s = "" -> _normalizar_departamento (Some s) = Ret None).
Proof.
  split; [| split].
  - intros x. destruct (_normalizar_departamento x) as [[r|]|e] eqn:Hx.
    + destruct (normalizar_some _ _ Hx) as (c & Hc & ->). exists c.
      split; [reflexivity | split; [apply format_02d_length | apply format_02d_two_digits]].
    + exact I.
    + eapply normalizar_raises, Hx.
  - reflexivity.
  - intros s Hs. unfold _normalizar_departamento. rewrite Hs. reflexivity.
Qed.

(** C4: the code at inputs outside 0..99. The docstring promises a
    two-digit format; a three-digit code comes back with three digits,
    a negative one with its sign, and an infinity leaves the function
    as an [OverflowError] that the [except] clause does not catch. *)
Theorem normalizar_departamento_fuera_de_rango :
  _normalizar_departamento (Some "123") = Ret (Some "123")
  /\ String.length "123" = 3%nat
  /\ _normalizar_departamento (Some "-5") = Ret (Some "-5")
  /\ all_digits "-5" = false
  /\ _normalizar_departamento (Some "inf") = Raise OverflowError.
Proof. repeat split; vm_compute; reflexivity. Qed.

End TransformIcfesFacts.

(** ** Properties of the Consolidator's [run] *)

Module ConsolidatorFacts.
Import Py ResFacts Pandas TransformIcfes TransformIcfesFacts.

Lemma insert_by_anio_perm x l : insert_by_anio x l ≡ₚ x :: l.
Proof.
  induction l as [|y l IH]; simpl; [reflexivity |].
  destruct (x.2 <=? y.2); [reflexivity |].
  rewrite IH. apply Permutation_swap.
Qed.

Lemma sort_by_anio_perm l : sort_by_anio l ≡ₚ l.
Proof.
  induction l as [|x l IH]; simpl; [reflexivity |].
  rewrite insert_by_anio_perm, IH. reflexivity.
Qed.

Definition por_anio (x y : archivo * Z) : Prop := x.2 <= y.2.

Lemma insert_by_anio_sorted x l :
  StronglySorted por_anio l -> StronglySorted por_anio (insert_by_anio x l).
Proof.
  induction 1 as [|y l Hs IH Hy]; simpl.
  - repeat constructor.
  - destruct (Z.leb_spec x.2 y.2) as [Hle|Hgt].
    + constructor; [constructor; assumption |].
      constructor; [exact Hle |].
      eapply Forall_impl; [exact Hy |]. unfold por_anio. intros z Hz. lia.
    + constructor; [exact IH |].
      rewrite insert_by_anio_perm. constructor; [unfold por_anio; lia | exact Hy].
Qed.

Lemma sort_by_anio_sorted l : StronglySorted por_anio (sort_by_anio l).
Proof.
  induction l as [|x l IH]; simpl; [constructor | apply insert_by_anio_sorted, IH].
Qed.

Lemma elem_of_seleccionar csvs p a :
  (p, a) ∈ seleccionar csvs <->
  p ∈ csvs /\ a = _extraer_anio_de_nombre (stem p) /\ 2015 <= a <= 2023.
Proof.
  unfold seleccionar. rewrite sort_by_anio_perm.
  rewrite list_elem_of_In, filter_In, <- list_elem_of_In, list_elem_of_fmap.
  unfold en_ventana. simpl. rewrite andb_true_iff, !Z.leb_le. split.
  - intros [(q & [= -> ->] & Hq) Hw]. auto.
  - intros (Hp & -> & Hw). split; [exists p; auto | exact Hw].
Qed.

Lemma seleccionar_nil csvs :
  seleccionar csvs = [] <->
  forall p, p ∈ csvs -> en_ventana (_extraer_anio_de_nombre (stem p)) = false.
Proof.
  split.
  - intros Hnil p Hp. destruct (en_ventana _) eqn:Hw; [| reflexivity].
    assert (Hin : (p, _extraer_anio_de_nombre (stem p)) ∈ seleccionar csvs).
    { apply elem_of_seleccionar. unfold en_ventana in Hw.
      apply andb_true_iff in Hw as [H1 H2]. apply Z.leb_le in H1, H2. auto. }
    rewrite Hnil in Hin. inversion Hin.
  - intros H. destruct (seleccionar csvs) as [|[p a] l] eqn:Hs; [reflexivity |].
    assert (Hin : (p, a) ∈ seleccionar csvs) by (rewrite Hs; left).
    apply elem_of_seleccionar in Hin as (Hp & -> & Hw).
    specialize (H p Hp). unfold en_ventana in H.
    apply andb_false_iff in H as [H|H]; apply Z.leb_gt in H; lia.
Qed.

(** A file whose name gives a year outside the window is left out
    entirely: the selection is what it would be without the file. *)
Lemma seleccionar_excluido (l1 l2 : list archivo) p :
  en_ventana (_extraer_anio_de_nombre (stem p)) = false ->
  seleccionar (l1 ++ p :: l2)%list = seleccionar (l1 ++ l2)%list.
Proof.
  intros Hp. unfold seleccionar. f_equal.
  rewrite !map_app, !List.filter_app. simpl. rewrite Hp. reflexivity.
Qed.

Lemma poner_depto_raises df e : poner_depto df = Raise e -> e = OverflowError.
Proof.
  unfold poner_depto. destruct (first_col _ df) as [c|]; [| discriminate].
  destruct (mapM _ (filas df)) as [vals|e'] eqn:Hm; simpl; [discriminate |].
  intros [= ->]. apply mapM_res_raise in Hm as (r & _ & Hr).
  eapply normalizar_raises, Hr.
Qed.

(** A file that is read and has one year column goes through lines
    155-201. *)
Lemma procesar_leido p anio :
  error_lectura p = None -> anio_duplicado (contenido p) = false ->
  procesar p anio =
    (df ← poner_depto (lower_columns (poner_anio anio (contenido p)));
     mret (dropna ("año" :: (if has_col (select (columnas_seleccionadas df) df) "depto_normalizado"
                             then ["depto_normalizado"] else []))
                  (select (columnas_seleccionadas df) df))).
Proof.
  intros He Hd. unfold procesar, leer. rewrite He. cbn [mbind res_bind bind].
  rewrite Hd. reflexivity.
Qed.

Lemma procesar_Ret p anio df :
  procesar p anio = Ret df ->
  error_lectura p = None /\ anio_duplicado (contenido p) = false.
Proof.
  unfold procesar, leer. destruct (error_lectura p); [discriminate |].
  cbn [mbind res_bind bind]. destruct (anio_duplicado (contenido p)); [discriminate |].
  intros _. split; reflexivity.
Qed.

Lemma poner_depto_returns df :
  returns (poner_depto df) <->
  forall depto_col r,
    first_col ["cole_cod_depto_ubicacion"; "estu_cod_depto_presentacion";
               "estu_cod_reside_depto"] df = Some depto_col ->
    r ∈ filas df ->
    returns (_normalizar_departamento (celda r depto_col)).
Proof.
  unfold poner_depto. destruct (first_col _ df) as [c|]; split.
  - intros [df' H] c' r [= <-] Hr.
    destruct (mapM _ (filas df)) as [vals|e] eqn:Hm; simpl in H; [| discriminate].
    apply mapM_res_Forall2 in Hm. apply list_elem_of_lookup in Hr as [i Hi].
    destruct (Forall2_lookup_l _ _ _ _ _ Hm Hi) as (v & _ & Hv). exists v. exact Hv.
  - intros H.
    destruct (mapM_res_returns (fun r => _normalizar_departamento (celda r c)) (filas df))
      as [vals ->]; [intros r Hr; exact (H c r eq_refl Hr) |].
    simpl. eexists. reflexivity.
  - intros _ c r [=].
  - intros _. eexists. reflexivity.
Qed.

(** A file goes through the loop exactly when it is read, has one year
    column, and no cell of its department-code column is infinite. *)
Lemma procesar_returns p anio :
  returns (procesar p anio) <->
  error_lectura p = None /\ anio_duplicado (contenido p) = false
  /\ returns (poner_depto (lower_columns (poner_anio anio (contenido p)))).
Proof.
  split.
  - intros [df Hp]. destruct (procesar_Ret _ _ _ Hp) as [He Hd].
    split; [exact He |]. split; [exact Hd |].
    rewrite (procesar_leido _ _ He Hd) in Hp.
    destruct (poner_depto _) as [df1|e]; [eexists; reflexivity | discriminate].
  - intros (He & Hd & [df1 H1]). rewrite (procesar_leido _ _ He Hd), H1.
    simpl. eexists. reflexivity.
Qed.

(** What one file of the loop can raise: the exception of its reading,
    [AttributeError] at line 152, or the [OverflowError] that escapes
    [_normalizar_departamento]. *)
Definition error_de (p : archivo) (e : exn) : Prop :=
  error_lectura p = Some e
  \/ (error_lectura p = None /\ anio_duplicado (contenido p) = true /\ e = AttributeError)
  \/ (error_lectura p = None /\ anio_duplicado (contenido p) = false /\ e = OverflowError).

Lemma procesar_raises p anio e : procesar p anio = Raise e -> error_de p e.
Proof.
  unfold procesar, leer, error_de. destruct (error_lectura p) as [e'|].
  - intros [= ->]. left. reflexivity.
  - cbn [mbind res_bind bind]. destruct (anio_duplicado (contenido p)).
    + intros [= <-]. right. left. auto.
    + destruct (poner_depto _) as [df|e'] eqn:Hd; simpl; [discriminate |].
      intros [= ->]. right. right. split; [reflexivity |]. split; [reflexivity |].
      eapply poner_depto_raises, Hd.
Qed.


Lemma run_unfold csvs :
  seleccionar csvs <> [] ->
  run csvs =
    dfs ← mapM (fun pa => procesar pa.1 pa.2) (seleccionar csvs);
    mret {| header := from_option columns [] (head dfs);
            records := concat (map (fun df => map (to_record (columns df)) (filas df)) dfs);
            rows := Z.of_nat (length (concat (map filas dfs)));
            n_columns := from_option (fun df => Z.of_nat (length (columns df))) 0 (last dfs);
            archivos_procesados := Z.of_nat (length (seleccionar csvs));
            anios := map snd (seleccionar csvs) |}.
Proof.
  intros Hs. unfold run.
  destruct (bool_decide_reflect (csvs = [])) as [->|Hne]; [exfalso; apply Hs; reflexivity |].
  destruct (bool_decide_reflect (seleccionar csvs = [])); [contradiction | reflexivity].
Qed.

(** Lines 104-113: without a file in the window the run stops before
    any file is read. *)
Lemma run_sin_seleccion csvs :
  seleccionar csvs = [] ->
  run csvs = Raise (FileNotFoundError
                      (if bool_decide (csvs = []) then "No encontré CSV de ICFES"
                       else "No encontré CSV de ICFES para años 2015-2023")).
Proof.
  intros Hs. unfold run.
  destruct (bool_decide (csvs = [])); [reflexivity |].
  rewrite Hs. reflexivity.
Qed.

Lemma run_file_not_found csvs :
  seleccionar csvs = [] -> exists m, run csvs = Raise (FileNotFoundError m).
Proof. intros Hs. rewrite (run_sin_seleccion _ Hs). eauto. Qed.

(** With a file in the window, what the run raises is what one of
    those files raises. *)
Lemma run_raises csvs e :
  seleccionar csvs <> [] -> run csvs = Raise e ->
  exists l1 pa l2,
    seleccionar csvs = l1 ++ pa :: l2
    /\ Forall (fun pb => returns (procesar pb.1 pb.2)) l1
    /\ error_de pa.1 e.
Proof.
  intros Hs He. rewrite run_unfold in He by assumption.
  destruct (mapM _ (seleccionar csvs)) as [dfs|e'] eqn:HM; simpl in He; [discriminate |].
  injection He as <-.
  apply mapM_res_raise_first in HM as (l1 & pa & l2 & Hl & Hl1 & Hpa).
  exists l1, pa, l2. split; [exact Hl |]. split; [exact Hl1 |].
  eapply procesar_raises, Hpa.
Qed.

Lemma run_returns csvs :
  seleccionar csvs <> [] ->
  (forall pa, pa ∈ seleccionar csvs -> returns (procesar pa.1 pa.2)) ->
  returns (run csvs).
Proof.
  intros Hs Hp. rewrite run_unfold by assumption.
  destruct (mapM_res_returns (fun pa => procesar pa.1 pa.2) _ Hp) as [dfs ->].
  simpl. eexists. reflexivity.
Qed.

Lemma run_returns_inv csvs :
  returns (run csvs) ->
  seleccionar csvs <> [] /\ forall pa, pa ∈ seleccionar csvs -> returns (procesar pa.1 pa.2).
Proof.
  intros [r Hr].
  assert (Hs : seleccionar csvs <> []).
  { intros Hs. rewrite (run_sin_seleccion _ Hs) in Hr. discriminate. }
  split; [exact Hs |]. rewrite run_unfold in Hr by assumption.
  destruct (mapM _ (seleccionar csvs)) as [dfs|e] eqn:HM; simpl in Hr; [| discriminate].
  apply mapM_res_Forall2 in HM. intros pa Hpa.
  apply list_elem_of_lookup in Hpa as [i Hi].
  destruct (Forall2_lookup_l _ _ _ _ _ HM Hi) as (df & _ & Hdf). exists df. exact Hdf.
Qed.

Lemma run_excluido (l1 l2 : list archivo) p :
  (l1 ++ l2)%list <> [] ->
  en_ventana (_extraer_anio_de_nombre (stem p)) = false ->
  run (l1 ++ p :: l2)%list = run (l1 ++ l2)%list.
Proof.
  intros Hne Hp. unfold run. rewrite (seleccionar_excluido _ _ _ Hp).
  destruct (bool_decide_reflect ((l1 ++ p :: l2)%list = [])) as [E|_];
    [destruct l1; discriminate |].
  destruct (bool_decide_reflect ((l1 ++ l2)%list = [])); [contradiction | reflexivity].
Qed.

(** The rows of a frame after the year column is set. *)
Lemma poner_anio_de_columna anio df year_col :
  first_col ["periodo"; "PERIODO"; "estu_anoterminobachiller"] df = Some year_col ->
  Forall2 (fun r0 r => forall v, r0 !! year_col = Some v ->
             r !! "año" = Some (Some (String.substring 0 4 (astype_str v))))
          (filas df) (filas (poner_anio anio df)).
Proof.
  intros Hc. unfold poner_anio. rewrite Hc. simpl.
  rewrite map_map. apply Forall2_fmap_r, Forall_Forall2_diag, Forall_forall.
  intros r _ v Hv. rewrite Hv.
  rewrite lookup_insert_eq. unfold celda. rewrite lookup_insert_eq. reflexivity.
Qed.

Lemma str_int_anio_4 a : 2015 <= a <= 2023 -> String.substring 0 4 (str_int a) = str_int a.
Proof.
  intros H.
  assert (Hc : a = 2015 \/ a = 2016 \/ a = 2017 \/ a = 2018 \/ a = 2019 \/ a = 2020
               \/ a = 2021 \/ a = 2022 \/ a = 2023) by lia.
  repeat (destruct Hc as [->|Hc]; [reflexivity |]). subst. reflexivity.
Qed.

Lemma poner_anio_de_nombre anio df r :
  2015 <= anio <= 2023 ->
  first_col ["periodo"; "PERIODO"; "estu_anoterminobachiller"] df = None ->
  r ∈ filas (poner_anio anio df) ->
  r !! "año" = Some (Some (str_int anio)).
Proof.
  intros Ha Hc. unfold poner_anio. rewrite Hc. simpl. rewrite map_map.
  rewrite list_elem_of_fmap. intros (r0 & -> & _).
  rewrite lookup_insert_eq. unfold celda. rewrite lookup_insert_eq. simpl.
  rewrite str_int_anio_4 by assumption. reflexivity.
Qed.


(** [int(s)] on a decimal string, for the spec-side reading below. *)
Definition int_of_str (s : string) : option Z :=
  option_map Z.of_int (NilZero.int_of_string s).

(** The year of a file in the words of the specification: read from the
    "period" column when the file has one, otherwise from the file
    name. (The code never computes this.) *)
Definition anio_segun_spec (p : archivo) : Z :=
  match first_col ["periodo"; "PERIODO"] (contenido p), filas (contenido p) with
  | Some c, r :: _ =>
      from_option id (_extraer_anio_de_nombre (stem p))
        (int_of_str (String.substring 0 4 (astype_str (celda r c))))
  | _, _ => _extraer_anio_de_nombre (stem p)
  end.

(** A file named for 2010 whose period column says 2019. *)
Definition archivo_2010_periodo_2019 : archivo :=
  {| stem := "Examen_Saber_11_2010";
     contenido :=
       {| columns := ["periodo"; "punt_global"];
          filas := [ {[ "periodo" := Some "20194"; "punt_global" := Some "300" ]} ] |};
     error_lectura := None |}.

(** A file named for 2019 whose period column says 2010. *)
Definition archivo_2019_periodo_2010 : archivo :=
  {| stem := "Examen_Saber_11_2019";
     contenido :=
       {| columns := ["periodo"; "punt_global"];
          filas := [ {[ "periodo" := Some "20101"; "punt_global" := Some "250" ]} ] |};
     error_lectura := None |}.

(** A file with no year in its name and no recognized year column. *)
Definition archivo_sin_anio : archivo :=
  {| stem := "datos";
     contenido :=
       {| columns := ["punt_global"];
          filas := [ {[ "punt_global" := Some "280" ]} ] |};
     error_lectura := None |}.

(** C5, as stated, fails: the period column does not decide whether a
    file is accepted. A file whose period column says 2019 is excluded
    because its name says 2010, and a file whose period column says 2010
    is processed because its name says 2019. *)
Lemma aceptacion_ignora_periodo :
  (en_ventana (anio_segun_spec archivo_2010_periodo_2019) = true /\
   run [archivo_2010_periodo_2019] =
     Raise (FileNotFoundError "No encontré CSV de ICFES para años 2015-2023"))
  /\
  (en_ventana (anio_segun_spec archivo_2019_periodo_2010) = false /\
   exists r, run [archivo_2019_periodo_2010] = Ret r /\
             archivos_procesados r = 1 /\ anios r = [2019] /\
             records r = [[Some "2010"; Some "250"]]).
Proof.
  split; split; try (vm_compute; reflexivity).
  eexists. split; [vm_compute; reflexivity |]. repeat split.
Qed.

(** C5, amended: the year that accepts, excludes and orders a file is
    always the one inferred from the file name; the period column, when
    present, only supplies the year written in the rows. A file is
    processed exactly when the year of its name lies in 2015..2023; the
    processed files are in ascending order of that year; a file outside
    the window is excluded entirely (the run is the one without it). *)
Theorem seleccion_por_nombre_de_archivo (csvs : list archivo) :
  (forall p a, (p, a) ∈ seleccionar csvs <->
     p ∈ csvs /\ a = _extraer_anio_de_nombre (stem p) /\ 2015 <= a <= 2023)
  /\ StronglySorted por_anio (seleccionar csvs)
  /\ (forall r, run csvs = Ret r ->
        anios r = map snd (seleccionar csvs) /\
        archivos_procesados r = Z.of_nat (length (seleccionar csvs)))
  /\ (forall (l1 l2 : list archivo) p,
        csvs = (l1 ++ p :: l2)%list -> (l1 ++ l2)%list <> [] ->
        en_ventana (_extraer_anio_de_nombre (stem p)) = false ->
        run csvs = run (l1 ++ l2)%list)
  /\ (forall pa year_col,
        pa ∈ seleccionar csvs ->
        first_col ["periodo"; "PERIODO"; "estu_anoterminobachiller"] (contenido pa.1)
          = Some year_col ->
        Forall2 (fun r0 r => forall v, r0 !! year_col = Some v ->
                   r !! "año" = Some (Some (String.substring 0 4 (astype_str v))))
                (filas (contenido pa.1)) (filas (poner_anio pa.2 (contenido pa.1)))).
Proof.
  split; [apply elem_of_seleccionar |].
  split; [apply sort_by_anio_sorted |].
  split; [| split].
  - intros r Hr. destruct (decide (seleccionar csvs = [])) as [Hs|Hs].
    + apply run_file_not_found in Hs as [m Hm]. congruence.
    + rewrite run_unfold in Hr by assumption.
      destruct (mapM _ (seleccionar csvs)) as [dfs|e]; simpl in Hr; [| discriminate].
      injection Hr as <-. split; reflexivity.
  - intros l1 l2 p -> Hne Hp. apply run_excluido; assumption.
  - intros pa year_col _ Hc. apply poner_anio_de_columna, Hc.
Qed.

Lemma seleccion_por_nombre_de_archivo_witness :
  run [archivo_2010_periodo_2019; archivo_2019_periodo_2010] = run [archivo_2019_periodo_2010].
Proof.
  apply (proj1 (proj2 (proj2 (proj2
           (seleccion_por_nombre_de_archivo
              [archivo_2010_periodo_2019; archivo_2019_periodo_2010]))))
           [] [archivo_2019_periodo_2010] archivo_2010_periodo_2019).
  - reflexivity.
  - discriminate.
  - vm_compute. reflexivity.
Defined.

(** C6, as stated, fails: with a file that has neither a recognized
    year column nor a year in its name among the inputs, the run raises
    nothing; the file is skipped and the run completes. *)
Lemma sin_anio_no_falla :
  first_col ["periodo"; "PERIODO"; "estu_anoterminobachiller"] (contenido archivo_sin_anio) = None
  /\ _extraer_anio_de_nombre (stem archivo_sin_anio) = 9999
  /\ exists r, run [archivo_sin_anio; archivo_2019_periodo_2010] = Ret r
               /\ archivos_procesados r = 1.
Proof.
  split; [vm_compute; reflexivity |]. split; [vm_compute; reflexivity |].
  eexists. split; [vm_compute; reflexivity | reflexivity].
Qed.

(** The column names of a file stay distinct once the year column is
    set and the names are lower-cased: the frames on which the model of
    pandas follows the library. *)
Definition nombres_distintos (pa : archivo * Z) : Prop :=
  NoDup (map lower (columns (poner_anio pa.2 (contenido pa.1)))).

(** C6, amended: the Consolidator has no missing-year-column error; a
    file without a recognized year column gets the year of its name in
    every row. When no input file has a year of its name inside
    2015..2023 the run raises the [FileNotFoundError] of lines 105 and
    113, whatever the files hold and whether they are there or not.
    When some file has, those two lines are not reached: the run
    raises only what the first file of the window to fail raises, in
    the order of the years. That is the exception of its reading (the
    [FileNotFoundError] of [open] for a listed path that is not
    there), the [AttributeError] of line 152 for a file with a year
    column beside a column [año], or the [OverflowError] that escapes
    [_normalizar_departamento]. The run completes exactly when every
    file of the window is processed without any of these, and it
    raises no [FileNotFoundError] unless the reading of one of those
    files does. A file is processed without them exactly when it is
    read, has one year column, and [_normalizar_departamento] returns
    on every cell of its department-code column. The files are ones
    whose column names stay distinct once lower-cased. *)
Theorem run_errores (csvs : list archivo) :
  ((forall p, p ∈ csvs -> en_ventana (_extraer_anio_de_nombre (stem p)) = false) ->
   run csvs = Raise (FileNotFoundError
                       (if bool_decide (csvs = []) then "No encontré CSV de ICFES"
                        else "No encontré CSV de ICFES para años 2015-2023")))
  /\ ((exists p, p ∈ csvs /\ en_ventana (_extraer_anio_de_nombre (stem p)) = true) ->
      (forall pa, pa ∈ seleccionar csvs -> error_lectura pa.1 = None ->
         anio_duplicado (contenido pa.1) = false -> nombres_distintos pa) ->
      (forall e, run csvs = Raise e ->
         exists l1 pa l2,
           seleccionar csvs = l1 ++ pa :: l2
           /\ Forall (fun pb => returns (procesar pb.1 pb.2)) l1
           /\ (error_lectura pa.1 = Some e
               \/ (error_lectura pa.1 = None /\ anio_duplicado (contenido pa.1) = true
                   /\ e = AttributeError)
               \/ (error_lectura pa.1 = None /\ anio_duplicado (contenido pa.1) = false
                   /\ e = OverflowError)))
      /\ (returns (run csvs) <->
          forall pa, pa ∈ seleccionar csvs -> returns (procesar pa.1 pa.2))
      /\ ((forall pa m, pa ∈ seleccionar csvs ->
             error_lectura pa.1 <> Some (FileNotFoundError m)) ->
          forall m, run csvs <> Raise (FileNotFoundError m)))
  /\ (forall p anio,
        returns (procesar p anio) <->
        error_lectura p = None /\ anio_duplicado (contenido p) = false
        /\ forall depto_col r,
             first_col ["cole_cod_depto_ubicacion"; "estu_cod_depto_presentacion";
                        "estu_cod_reside_depto"]
               (lower_columns (poner_anio anio (contenido p))) = Some depto_col ->
             r ∈ filas (lower_columns (poner_anio anio (contenido p))) ->
             returns (_normalizar_departamento (celda r depto_col)))
  /\ (forall pa r,
        pa ∈ seleccionar csvs ->
        first_col ["periodo"; "PERIODO"; "estu_anoterminobachiller"] (contenido pa.1) = None ->
        anio_duplicado (contenido pa.1) = false
        /\ (r ∈ filas (poner_anio pa.2 (contenido pa.1)) ->
            r !! "año" = Some (Some (str_int pa.2)))).
Proof.
  split; [| split; [| split]].
  - intros Hout. apply run_sin_seleccion, seleccionar_nil, Hout.
  - intros (p & Hp & Hw) _.
    assert (Hs : seleccionar csvs <> []).
    { intros Hs. rewrite seleccionar_nil in Hs. rewrite (Hs p Hp) in Hw. discriminate. }
    split; [| split].
    + intros e He. exact (run_raises csvs e Hs He).
    + split; [intros Hr; apply run_returns_inv, Hr | apply run_returns, Hs].
    + intros Hno m Hm.
      destruct (run_raises csvs _ Hs Hm) as (l1 & pa & l2 & Hl & _ & [H|[H|H]]).
      * apply (Hno pa m); [| exact H]. rewrite Hl. apply elem_of_app. right. left.
      * destruct H as (_ & _ & H). discriminate.
      * destruct H as (_ & _ & H). discriminate.
  - intros p anio. rewrite procesar_returns, poner_depto_returns. reflexivity.
  - intros [p a] r Hpa Hc. cbn [fst snd] in *. split.
    + unfold anio_duplicado. rewrite Hc. reflexivity.
    + intros Hr. apply elem_of_seleccionar in Hpa as (_ & _ & Ha).
      exact (poner_anio_de_nombre a (contenido p) r Ha Hc Hr).
Qed.

Lemma run_errores_witness :
  returns (run [archivo_sin_anio; archivo_2019_periodo_2010]).
Proof.
  assert (Hs : seleccionar [archivo_sin_anio; archivo_2019_periodo_2010]
               = [(archivo_2019_periodo_2010, 2019)]) by (vm_compute; reflexivity).
  destruct (proj1 (proj2 (run_errores [archivo_sin_anio; archivo_2019_periodo_2010])))
    as (_ & Hret & _).
  - exists archivo_2019_periodo_2010. split; [right; left | vm_compute; reflexivity].
  - intros pa Hpa _ _. rewrite Hs in Hpa. apply list_elem_of_singleton in Hpa as ->.
    apply (bool_decide_unpack _). vm_compute. exact I.
  - apply Hret. intros pa Hpa. rewrite Hs in Hpa. apply list_elem_of_singleton in Hpa as ->.
    eexists. vm_compute. reflexivity.
Defined.

(** A path of [raw_csvs] named for 2019 that names no file. *)
Definition archivo_ausente : archivo :=
  {| stem := "Examen_Saber_11_2019";
     contenido := {| columns := []; filas := [] |};
     error_lectura :=
       Some (FileNotFoundError
               "[Errno 2] No such file or directory: 'data/Examen_Saber_11_2019.csv'") |}.

(** A file named for 2019 with a period column beside a column [año]. *)
Definition archivo_2019_periodo_y_anio : archivo :=
  {| stem := "Examen_Saber_11_2019";
     contenido :=
       {| columns := ["periodo"; "año"; "punt_global"];
          filas := [ {[ "periodo" := Some "20191"; "año" := Some "2019";
                        "punt_global" := Some "250" ]} ] |};
     error_lectura := None |}.

(** A listed path that is not there stops the run with the exception
    of [open], also next to a file that is there; a file with both
    columns stops it at line 152. *)
Example run_archivo_ausente :
  run [archivo_2019_periodo_2010; archivo_ausente]
  = Raise (FileNotFoundError
             "[Errno 2] No such file or directory: 'data/Examen_Saber_11_2019.csv'")
  /\ run [archivo_2019_periodo_y_anio] = Raise AttributeError.
Proof. split; vm_compute; reflexivity. Qed.

End ConsolidatorFacts.

(** ** Properties of the Lookup Normalizer *)

Module TransformApiFacts.
Import Py Float64 Float64Facts TransformApi.

Section Groups.

Context {V : Type}.

(** The rows of [l] with key [k], in frame order. *)
Definition con_clave (k : Z * Z) (l : list (limpia V)) : list (limpia V) :=
  filter (fun r => clave r = k) l.

(** The rows that [gs] holds for key [k]. *)
Definition grupo (k : Z * Z) (gs : list ((Z * Z) * list (limpia V))) : list (limpia V) :=
  match List.find (fun g => bool_decide (g.1 = k)) gs with
  | Some g => g.2
  | None => []
  end.

Lemma grupo_add (r : limpia V) gs k :
  grupo k (add_to_group r gs) =
    if decide (clave r = k) then grupo k gs ++ [r] else grupo k gs.
Proof.
  unfold grupo. induction gs as [|[k' rs] gs IH]; simpl.
  - destruct (decide (clave r = k)) as [E|E].
    + rewrite bool_decide_true by assumption. reflexivity.
    + rewrite bool_decide_false by assumption. reflexivity.
  - destruct (decide (clave r = k')) as [E1|E1]; simpl.
    + destruct (bool_decide_reflect (k' = k)) as [E2|E2]; simpl.
      * destruct (decide (clave r = k)); [reflexivity | congruence].
      * destruct (decide (clave r = k)); [congruence | reflexivity].
    + destruct (bool_decide_reflect (k' = k)) as [E2|E2]; simpl.
      * destruct (decide (clave r = k)); [congruence | reflexivity].
      * exact IH.
Qed.

Lemma add_to_group_keys (r : limpia V) gs k :
  k ∈ map fst (add_to_group r gs) <-> k = clave r \/ k ∈ map fst gs.
Proof.
  induction gs as [|[k' rs] gs IH]; simpl.
  - rewrite list_elem_of_singleton. split; [auto | intros [H|H]; [auto | inversion H]].
  - destruct (decide (clave r = k')) as [E|E]; simpl.
    + rewrite !elem_of_cons. split; [auto | intros [->|H]; auto].
    + rewrite !elem_of_cons, IH. tauto.
Qed.

Lemma add_to_group_NoDup (r : limpia V) gs :
  NoDup (map fst gs) -> NoDup (map fst (add_to_group r gs)).
Proof.
  induction gs as [|[k' rs] gs IH]; simpl; intros Hnd.
  - apply NoDup_singleton.
  - apply NoDup_cons in Hnd as [Hk Hnd].
    destruct (decide (clave r = k')) as [E|E]; simpl.
    + apply NoDup_cons. auto.
    + apply NoDup_cons. split; [| auto].
      rewrite add_to_group_keys. intros [->|H]; [congruence | contradiction].
Qed.

Lemma fold_add_grupo (l : list (limpia V)) gs k :
  grupo k (fold_left (fun gs r => add_to_group r gs) l gs) = grupo k gs ++ con_clave k l.
Proof.
  revert gs. induction l as [|r l IH]; intros gs; simpl.
  - rewrite app_nil_r. reflexivity.
  - rewrite IH, grupo_add. unfold con_clave. rewrite filter_cons.
    destruct (decide (clave r = k)); [rewrite <- app_assoc |]; reflexivity.
Qed.

Lemma fold_add_keys (l : list (limpia V)) gs k :
  k ∈ map fst (fold_left (fun gs r => add_to_group r gs) l gs) <->
  k ∈ map fst gs \/ exists r, r ∈ l /\ clave r = k.
Proof.
  revert gs. induction l as [|r l IH]; intros gs; simpl.
  - split; [auto | intros [H|(r & Hr & _)]; [assumption | inversion Hr]].
  - rewrite IH, add_to_group_keys. split.
    + intros [[->|H]|(r' & Hr' & E)]; [right; exists r; split; [left | reflexivity] | auto |].
      right. exists r'. split; [right; assumption | assumption].
    + intros [H|(r' & Hr' & E)]; [auto |].
      apply elem_of_cons in Hr' as [->|Hr']; [left; left; congruence |].
      right. exists r'. auto.
Qed.

Lemma fold_add_NoDup (l : list (limpia V)) gs :
  NoDup (map fst gs) -> NoDup (map fst (fold_left (fun gs r => add_to_group r gs) l gs)).
Proof.
  revert gs. induction l as [|r l IH]; intros gs Hnd; simpl; [assumption |].
  apply IH, add_to_group_NoDup, Hnd.
Qed.

Lemma grupo_elem_of k rs (gs : list ((Z * Z) * list (limpia V))) :
  NoDup (map fst gs) -> (k, rs) ∈ gs -> grupo k gs = rs.
Proof.
  unfold grupo. induction gs as [|[k' rs'] gs IH]; simpl; intros Hnd Hin.
  - inversion Hin.
  - apply NoDup_cons in Hnd as [Hk Hnd].
    apply elem_of_cons in Hin as [[= <- <-]|Hin].
    + rewrite bool_decide_true by reflexivity. reflexivity.
    + destruct (bool_decide_reflect (k' = k)) as [->|E]; simpl.
      * exfalso. apply Hk. apply list_elem_of_fmap. exists (k, rs). auto.
      * apply IH; assumption.
Qed.

Lemma insert_group_perm (g : (Z * Z) * list (limpia V)) gs : insert_group g gs ≡ₚ g :: gs.
Proof.
  induction gs as [|g' gs IH]; simpl; [reflexivity |].
  destruct (clave_leb g.1 g'.1); [reflexivity |].
  rewrite IH. apply Permutation_swap.
Qed.

Lemma groupby_perm (df : list (limpia V)) : groupby df ≡ₚ split_groups df.
Proof.
  unfold groupby. induction (split_groups df) as [|g gs IH]; simpl; [reflexivity |].
  rewrite insert_group_perm, IH. reflexivity.
Qed.

(** The groups: one per key that occurs, holding the rows of that key
    in frame order. *)
Lemma groupby_spec (df : list (limpia V)) :
  NoDup (map fst (groupby df))
  /\ (forall k, k ∈ map fst (groupby df) <-> exists r, r ∈ df /\ clave r = k)
  /\ (forall k rs, (k, rs) ∈ groupby df -> rs = con_clave k df).
Proof.
  assert (Hnd : NoDup (map fst (split_groups df))).
  { apply fold_add_NoDup. constructor. }
  split; [| split].
  - rewrite groupby_perm. exact Hnd.
  - intros k. rewrite groupby_perm. unfold split_groups. rewrite fold_add_keys.
    split; [intros [H|H]; [inversion H | exact H] | auto].
  - intros k rs Hin. rewrite groupby_perm in Hin.
    rewrite <- (grupo_elem_of k rs _ Hnd Hin).
    unfold split_groups. rewrite fold_add_grupo. reflexivity.
Qed.

(** [x] is the first name of [names] that is not blank, or the empty
    string when every name is blank. *)
Definition es_primero_no_vacio (names : list string) (x : string) : Prop :=
  (exists s1 s2, names = s1 ++ x :: s2 /\ Forall (fun y => strip y = "") s1 /\ strip x <> "")
  \/ (Forall (fun y => strip y = "") names /\ x = "").

Lemma primero_no_vacio_spec names : es_primero_no_vacio names (primero_no_vacio names).
Proof.
  unfold primero_no_vacio. induction names as [|y names IH]; simpl.
  - right. split; [constructor | reflexivity].
  - destruct (String.eqb_spec (strip y) "") as [E|E]; simpl.
    + remember (from_option id "" (List.find _ names)) as x eqn:Hx. clear Hx.
      destruct IH as [(s1 & s2 & Hn & H1 & H2)|[H1 H2]].
      * left. exists (y :: s1), s2. split; [rewrite Hn; reflexivity |].
        split; [constructor; assumption | assumption].
      * right. split; [constructor; assumption | assumption].
    + left. exists [], names. split; [reflexivity |]. split; [constructor | assumption].
Qed.

End Groups.

(** *** The sum of line 93 *)

(** The sum and the sum of the absolute values of a list of integers. *)
Definition suma_exacta (zs : list Z) : Z := fold_right Z.add 0 zs.
Definition suma_abs (zs : list Z) : Z := fold_right (fun z s => Z.abs z + s) 0 zs.

Lemma suma_abs_nonneg zs : 0 <= suma_abs zs.
Proof. induction zs as [|z zs IH]; simpl; lia. Qed.

Lemma suma_exacta_abs zs : Z.abs (suma_exacta zs) <= suma_abs zs.
Proof. induction zs as [|z zs IH]; simpl; lia. Qed.

Lemma suma_paso_vale sumx comp val S z :
  vale sumx S -> vale comp 0 -> vale val z ->
  Z.abs S <= 2 ^ 53 -> Z.abs z <= 2 ^ 53 -> Z.abs (S + z) <= 2 ^ 53 ->
  vale (suma_paso (sumx, comp) val).1 (S + z) /\ vale (suma_paso (sumx, comp) val).2 0.
Proof.
  intros Hs Hc Hv HS Hz HSz. unfold suma_paso. cbn [fst snd].
  assert (Hy : vale (sub val comp) (z - 0)).
  { apply sub_vale; [exact Hv | exact Hc |]. replace (z - 0) with z by lia. exact Hz. }
  replace (z - 0) with z in Hy by lia.
  assert (Ht : vale (add sumx (sub val comp)) (S + z)) by (apply add_vale; assumption).
  assert (Hd : vale (sub (add sumx (sub val comp)) sumx) (S + z - S)).
  { apply sub_vale; [exact Ht | exact Hs |]. replace (S + z - S) with z by lia. exact Hz. }
  replace (S + z - S) with z in Hd by lia.
  assert (Hc' : vale (sub (sub (add sumx (sub val comp)) sumx) (sub val comp)) (z - z)).
  { apply sub_vale; [exact Hd | exact Hy |]. replace (z - z) with 0 by lia. simpl. lia. }
  replace (z - z) with 0 in Hc' by lia.
  split; [exact Ht |]. rewrite (vale_is_nan _ _ Hc'). exact Hc'.
Qed.

Lemma fold_suma_paso_vale vs zs sumx comp S :
  Forall2 vale vs zs -> vale sumx S -> vale comp 0 ->
  Z.abs S + suma_abs zs <= 2 ^ 53 ->
  vale (fold_left suma_paso vs (sumx, comp)).1 (S + suma_exacta zs).
Proof.
  intros HF. revert sumx comp S. induction HF as [|v z vs zs Hv HF IH]; intros sumx comp S Hs Hc Hb.
  - simpl. replace (S + 0) with S by lia. exact Hs.
  - cbn [fold_left suma_exacta suma_abs fold_right] in *.
    fold (suma_exacta zs). fold (suma_abs zs) in Hb.
    pose proof (suma_abs_nonneg zs) as Hn.
    destruct (suma_paso_vale sumx comp v S z Hs Hc Hv) as [Ht Hc']; [lia | lia | lia |].
    destruct (suma_paso (sumx, comp) v) as [t c]. cbn [fst snd] in *.
    replace (S + (z + suma_exacta zs)) with ((S + z) + suma_exacta zs) by lia.
    apply IH; [exact Ht | exact Hc' | lia].
Qed.

(** On integers whose absolute values add up to at most 2^53, the sum
    of pandas is the sum. *)
Lemma suma_vale vs zs :
  Forall2 vale vs zs -> suma_abs zs <= 2 ^ 53 -> vale (suma vs) (suma_exacta zs).
Proof.
  intros HF Hb. unfold suma.
  replace (suma_exacta zs) with (0 + suma_exacta zs) by lia.
  apply fold_suma_paso_vale; [exact HF | simpl; lia | simpl; lia | simpl; lia].
Qed.

(** C7: when some row survives cleaning, the Lookup Normalizer returns
    exactly one row per (year, region_divcode) key of the surviving
    rows. The value of that row is the sum of the values of the
    surviving rows with that key: the binary64 sum that pandas computes
    over them in row order, which is the exact sum whenever the values
    are integers whose absolute values add up to at most 2^53 (in
    general each addition is rounded). Its region name is the first
    non-blank name among those rows in row order (the empty string when
    all are blank). *)
Theorem lookup_normalizer_aggregates (df : list (fila Float64.float)) :
  dropna df <> [] ->
  exists out, run suma df = Ret out
    /\ NoDup (map (fun o => (g_anio o, g_depto o)) out)
    /\ (forall k, k ∈ map (fun o => (g_anio o, g_depto o)) out <->
                  exists r, r ∈ dropna df /\ clave r = k)
    /\ (forall o, o ∈ out ->
          let rs := con_clave (g_anio o, g_depto o) (dropna df) in
          g_valor o = suma (map l_valor rs)
          /\ (forall zs, Forall2 vale (map l_valor rs) zs -> suma_abs zs <= 2 ^ 53 ->
                vale (g_valor o) (suma_exacta zs))
          /\ es_primero_no_vacio (map l_departamento rs) (g_departamento o)).
Proof.
  intros Hne. unfold run.
  destruct (Nat.eqb_spec (length (dropna df)) 0) as [E|_].
  { destruct (dropna df); [congruence | discriminate]. }
  eexists. split; [reflexivity |].
  destruct (groupby_spec (dropna df)) as (Hnd & Hk & Hg).
  assert (Hmap : map (fun o => (g_anio o, g_depto o)) (map (agg suma) (groupby (dropna df)))
                 = map fst (groupby (dropna df))).
  { rewrite map_map. apply map_ext. intros [[a d] rs]. reflexivity. }
  rewrite Hmap. split; [exact Hnd |]. split; [exact Hk |].
  intros o Ho. apply list_elem_of_fmap in Ho as ([[a d] rs] & -> & Hin). simpl.
  rewrite <- (Hg _ _ Hin). split; [reflexivity |]. split; [| apply primero_no_vacio_spec].
  intros zs Hzs Hb. apply suma_vale; assumption.
Qed.

(** A raw table of four rows, one of them without a value; the values
    are 70.5, 200 and 50. *)
Definition pib_crudo_f64 : list (fila Float64.float) :=
  [ mkFila (Some 2019) (Some 5) (Some (Float64.of_decimal false 705 (-1))) "  ";
    mkFila (Some 2019) (Some 11) (Some (Float64.of_decimal false 200 0)) "Bogotá";
    mkFila (Some 2019) (Some 5) (Some (Float64.of_decimal false 50 0)) "Antioquia";
    mkFila (Some 2019) (Some 8) None "Atlántico" ].

Lemma lookup_normalizer_aggregates_witness :
  exists out, run suma pib_crudo_f64 = Ret out
    /\ NoDup (map (fun o => (g_anio o, g_depto o)) out)
    /\ (forall k, k ∈ map (fun o => (g_anio o, g_depto o)) out <->
                  exists r, r ∈ dropna pib_crudo_f64 /\ clave r = k)
    /\ (forall o, o ∈ out ->
          let rs := con_clave (g_anio o, g_depto o) (dropna pib_crudo_f64) in
          g_valor o = suma (map l_valor rs)
          /\ (forall zs, Forall2 vale (map l_valor rs) zs -> suma_abs zs <= 2 ^ 53 ->
                vale (g_valor o) (suma_exacta zs))
          /\ es_primero_no_vacio (map l_departamento rs) (g_departamento o)).
Proof.
  apply (lookup_normalizer_aggregates pib_crudo_f64). discriminate.
Defined.

(** The table written for it: 120.5 for department 5, the name taken
    from the second of its rows; and sums that show the rounding and
    the compensation (0.1 + 0.2, and 10^16 + 1 + 1). *)
Example run_pib_crudo_f64 :
  run suma pib_crudo_f64 =
    Ret [ mkAgregada 2019 5 "Antioquia" (Float64.of_decimal false 1205 (-1));
          mkAgregada 2019 11 "Bogotá" (Float64.of_decimal false 200 0) ]
  /\ suma [Float64.of_decimal false 1 (-1); Float64.of_decimal false 2 (-1)]
     = Float64.of_decimal false 30000000000000004 (-17)
  /\ suma [Float64.of_decimal false 1 16; Float64.of_decimal false 1 0;
           Float64.of_decimal false 1 0]
     = Float64.of_decimal false 10000000000000002 0.
Proof. repeat split; vm_compute; reflexivity. Qed.

(** The same table with integer values and their sum, for the
    properties that take the values and their aggregation as given. *)
Definition pib_crudo : list (fila Z) :=
  [ mkFila (Some 2019) (Some 5) (Some 70) "  ";
    mkFila (Some 2019) (Some 11) (Some 200) "Bogotá";
    mkFila (Some 2019) (Some 5) (Some 50) "Antioquia";
    mkFila (Some 2019) (Some 8) None "Atlántico" ].

Definition zsum (l : list Z) : Z := fold_left Z.add l 0.

Example run_pib_crudo :
  run zsum pib_crudo =
    Ret [ mkAgregada 2019 5 "Antioquia" 120; mkAgregada 2019 11 "Bogotá" 200 ].
Proof. vm_compute. reflexivity. Qed.

End TransformApiFacts.

(** ** Properties of the Join and Imputation Engine *)

Module MergeFacts.
Import Py ResFacts Pandas Merge.

Section Engine.

Context {V : Type}.
Variable fmean : V -> list V -> option V.

(** The (year, region) key of a lookup row. *)
Definition clave_pib (p : pib_row V) : cell * cell := (anio_pib p, depto_codigo p).

Lemma coincidencias_unique (df_pib : list (pib_row V)) k :
  NoDup (map clave_pib df_pib) -> (length (coincidencias df_pib k) <= 1)%nat.
Proof.
  unfold coincidencias. induction df_pib as [|p l IH]; simpl; intros Hnd; [lia |].
  apply NoDup_cons in Hnd as [Hp Hnd]. specialize (IH Hnd).
  destruct (bool_decide_reflect (anio_pib p = Some k.1 /\ depto_codigo p = Some k.2))
    as [[H1 H2]|_]; [| exact IH].
  simpl. destruct (List.filter _ l) as [|q l'] eqn:Hf; [simpl; lia |].
  exfalso. apply Hp.
  assert (Hq : In q (List.filter
                       (fun p => bool_decide (anio_pib p = Some k.1 /\ depto_codigo p = Some k.2)) l))
    by (rewrite Hf; left; reflexivity).
  apply filter_In in Hq as [Hq1 Hq2]. apply bool_decide_eq_true in Hq2 as [H3 H4].
  apply list_elem_of_fmap. exists q. split; [| apply list_elem_of_In, Hq1].
  unfold clave_pib. congruence.
Qed.

(** The table that the Lookup Normalizer produces has a unique key
    when read back. *)
Lemma leer_pib_NoDup (out : list (TransformApi.agregada V)) :
  NoDup (map (fun o => (TransformApi.g_anio o, TransformApi.g_depto o)) out) ->
  NoDup (map clave_pib (leer_pib out)).
Proof.
  unfold leer_pib. rewrite map_map. unfold clave_pib. simpl.
  induction out as [|o l IH]; simpl; intros Hnd; [constructor |].
  apply NoDup_cons in Hnd as [Ho Hnd]. apply NoDup_cons. split; [| auto].
  intros Hin. apply Ho. apply list_elem_of_fmap in Hin as (o' & [= H1 H2] & Hin).
  apply PyFacts.str_int_inj in H1, H2. apply list_elem_of_fmap. exists o'.
  split; [congruence | exact Hin].
Qed.

(** The single output row of an input row when the lookup key is unique. *)
Definition enriquecer (df_pib : list (pib_row V)) (depto_col : string)
    (tiene_departamento : bool) (r : gmap string cell) : fila_merged V :=
  match coincidencias df_pib (clave_merge depto_col r) with
  | [] => mkMerged (campos_salida tiene_departamento r None) None
  | p :: _ => mkMerged (campos_salida tiene_departamento r (departamento p)) (valor_api_mm p)
  end.

Lemma merge_fila_unique df_pib depto_col tiene r :
  NoDup (map clave_pib df_pib) ->
  merge_fila df_pib depto_col tiene r = [enriquecer df_pib depto_col tiene r].
Proof.
  intros Hnd. unfold merge_fila, enriquecer.
  pose proof (coincidencias_unique df_pib (clave_merge depto_col r) Hnd) as Hl.
  destruct (coincidencias df_pib (clave_merge depto_col r)) as [|p [|q l]]; simpl in *;
    [reflexivity | reflexivity | lia].
Qed.

Lemma left_join_unique df_pib depto_col chunk :
  NoDup (map clave_pib df_pib) ->
  m_filas (left_join df_pib depto_col chunk) =
    map (enriquecer df_pib depto_col (has_col chunk "departamento")) (filas chunk).
Proof.
  intros Hnd. unfold left_join. simpl.
  induction (filas chunk) as [|r l IH]; simpl; [reflexivity |].
  rewrite merge_fila_unique by assumption. simpl. f_equal. exact IH.
Qed.

(** The left join never drops a row. *)
Lemma merge_fila_nonempty (df_pib : list (pib_row V)) depto_col tiene r :
  (1 <= length (merge_fila df_pib depto_col tiene r))%nat.
Proof.
  unfold merge_fila. destruct (coincidencias _ _); simpl; lia.
Qed.

Lemma celda_campos_salida tiene r dep c :
  c <> "departamento" -> c <> "departamento_x" -> c <> "departamento_y" ->
  c <> "año_merge" -> c <> "depto_merge" ->
  celda (campos_salida tiene r dep) c = celda r c.
Proof.
  intros H1 H2 H3 H4 H5. unfold campos_salida, celda. destruct tiene.
  - rewrite lookup_insert_ne by congruence. rewrite lookup_insert_ne by congruence.
    rewrite !lookup_delete_ne by congruence. reflexivity.
  - rewrite lookup_insert_ne by congruence.
    rewrite !lookup_delete_ne by congruence. reflexivity.
Qed.

(** With the region key taken from [depto_normalizado], a row that is
    in a group has the group key as its join key. *)
Lemma clave_grupo_enriquecer df_pib tiene r k :
  clave_grupo (enriquecer df_pib "depto_normalizado" tiene r) = Some k ->
  clave_merge "depto_normalizado" r = k.
Proof.
  unfold clave_grupo, clave_merge.
  assert (Hc : forall c, c = "año" \/ c = "depto_normalizado" ->
            celda (campos (enriquecer df_pib "depto_normalizado" tiene r)) c = celda r c).
  { intros c Hc. unfold enriquecer.
    destruct (coincidencias _ _); simpl;
      apply celda_campos_salida; destruct Hc as [-> | ->]; discriminate. }
  rewrite !Hc by auto.
  destruct (celda r "año"), (celda r "depto_normalizado"); try discriminate.
  intros [= <-]. reflexivity.
Qed.

Lemma pib_enriquecer df_pib depto_col tiene r :
  pib_departamental_mm (enriquecer df_pib depto_col tiene r) =
    match coincidencias df_pib (clave_merge depto_col r) with
    | [] => None
    | p :: _ => valor_api_mm p
    end.
Proof. unfold enriquecer. destruct (coincidencias _ _); reflexivity. Qed.

(** Rows of one group carry the same value: the match against a unique
    lookup key is decided by the (year, region) pair. *)
Lemma grupo_mismo_valor df_pib tiene r r' key :
  clave_grupo (enriquecer df_pib "depto_normalizado" tiene r) = Some key ->
  clave_grupo (enriquecer df_pib "depto_normalizado" tiene r') = Some key ->
  pib_departamental_mm (enriquecer df_pib "depto_normalizado" tiene r')
  = pib_departamental_mm (enriquecer df_pib "depto_normalizado" tiene r).
Proof.
  intros Hk Hk'. apply clave_grupo_enriquecer in Hk, Hk'.
  rewrite !pib_enriquecer, Hk, Hk'. reflexivity.
Qed.

(** The core of the identity of the imputation pass: a row without a
    value is in a group without values, whose mean is missing. *)
Lemma imputar_pib_unique df_pib tiene (rows : list (gmap string cell)) r :
  let ms := map (enriquecer df_pib "depto_normalizado" tiene) rows in
  imputar_pib fmean ms (enriquecer df_pib "depto_normalizado" tiene r) =
    pib_departamental_mm (enriquecer df_pib "depto_normalizado" tiene r).
Proof.
  intros ms. unfold imputar_pib.
  destruct (pib_departamental_mm (enriquecer df_pib "depto_normalizado" tiene r)) eqn:Hv;
    [reflexivity |].
  destruct (clave_grupo (enriquecer df_pib "depto_normalizado" tiene r)) as [key|] eqn:Hk;
    [| reflexivity].
  unfold promedios.
  destruct (List.filter _ ms) as [|m0 g] eqn:Hg; [reflexivity |].
  f_equal. unfold mean_skipna.
  assert (Hall : Forall (fun m => pib_departamental_mm m = None) (m0 :: g)).
  { rewrite <- Hg. apply Forall_forall. intros m Hm.
    apply list_elem_of_In, filter_In in Hm as [Hm Hkm].
    apply bool_decide_eq_true in Hkm.
    apply in_map_iff in Hm as (r' & <- & _).
    rewrite (grupo_mismo_valor _ _ r r' key Hk Hkm). exact Hv. }
  assert (Hnone : omap id (map pib_departamental_mm (m0 :: g)) = []).
  { clear Hg. induction Hall as [|m l Hm _ IH]; [reflexivity |].
    simpl. rewrite Hm. simpl. exact IH. }
  rewrite Hnone. reflexivity.
Qed.

Lemma imputar_identidad df_pib chunk :
  NoDup (map clave_pib df_pib) ->
  imputar fmean (left_join df_pib "depto_normalizado" chunk)
  = left_join df_pib "depto_normalizado" chunk.
Proof.
  intros Hnd. unfold imputar.
  destruct (_ && _); [| reflexivity].
  pose proof (left_join_unique df_pib "depto_normalizado" chunk Hnd) as Hrows.
  destruct (left_join df_pib "depto_normalizado" chunk) as [cols ms]. simpl in *.
  f_equal. subst ms. rewrite map_map.
  apply map_ext. intros r.
  rewrite imputar_pib_unique.
  destruct (enriquecer _ _ _ r). reflexivity.
Qed.

(** *** The key columns of a batch *)

Definition candidatos_anio : list string :=
  ["año"; "periodo"; "estu_anoterminobachiller"; "anio_origen"].

Definition candidatos_depto : list string :=
  ["depto_normalizado"; "cole_cod_depto_ubicacion"; "estu_cod_depto_presentacion";
   "cole_depto_ubicacion"].

(** Some name of [candidatos] is a column of the batch once the column
    names are lower-cased. *)
Definition tiene_alguna (candidatos : list string) (chunk : DataFrame) : bool :=
  existsb (fun c => bool_decide (c ∈ map Py.lower (columns chunk))) candidatos.

(** The batch has a year column and a region column, fallback names
    included. *)
Definition tiene_claves (chunk : DataFrame) : bool :=
  tiene_alguna candidatos_anio chunk && tiene_alguna candidatos_depto chunk.

Lemma first_col_Some cands df c :
  first_col cands df = Some c -> c ∈ cands /\ c ∈ columns df.
Proof.
  unfold first_col. intros H. apply find_some in H as [H1 H2].
  apply bool_decide_eq_true in H2. split; [apply list_elem_of_In, H1 | exact H2].
Qed.

Lemma first_col_None cands df :
  first_col cands df = None <-> existsb (has_col df) cands = false.
Proof.
  unfold first_col. induction cands as [|c l IH]; simpl; [tauto |].
  destruct (has_col df c); simpl; [split; discriminate | exact IH].
Qed.

Lemma rename_columns_elem old new df c :
  c <> old -> c <> new -> (c ∈ columns (rename old new df) <-> c ∈ columns df).
Proof.
  intros H1 H2. simpl. rewrite list_elem_of_fmap. split.
  - intros (x & Hx & Hin). destruct (String.eqb_spec x old); congruence.
  - intros Hin. exists c. destruct (String.eqb_spec c old); [congruence | auto].
Qed.

Lemma rename_columns_new old new df :
  old ∈ columns df -> new ∈ columns (rename old new df).
Proof.
  intros Hin. simpl. apply list_elem_of_fmap. exists old.
  rewrite String.eqb_refl. auto.
Qed.

Lemma tiene_alguna_cons c cands chunk :
  tiene_alguna (c :: cands) chunk
  = has_col (lower_columns chunk) c || existsb (has_col (lower_columns chunk)) cands.
Proof. reflexivity. Qed.

Lemma candidatos_disjuntos c c' :
  c ∈ ["periodo"; "estu_anoterminobachiller"; "anio_origen"] ->
  c' ∈ candidatos_depto -> c' <> c /\ c' <> "año".
Proof.
  intros Hc Hc'. unfold candidatos_depto in Hc'.
  repeat (apply elem_of_cons in Hc as [->|Hc];
          [repeat (apply elem_of_cons in Hc' as [->|Hc']; [split; discriminate |]);
           inversion Hc' |]).
  inversion Hc.
Qed.

Lemma preparar_anio_spec chunk :
  if tiene_alguna candidatos_anio chunk then
    exists chunk', preparar_anio (lower_columns chunk) = Ret chunk'
      /\ length (filas chunk') = length (filas chunk)
      /\ (forall c, c ∈ candidatos_depto ->
            (c ∈ columns chunk' <-> c ∈ map Py.lower (columns chunk)))
  else exists msg, preparar_anio (lower_columns chunk) = Raise (RuntimeError msg).
Proof.
  unfold candidatos_anio. rewrite tiene_alguna_cons. unfold preparar_anio.
  set (df := lower_columns chunk).
  assert (Hlen : length (filas df) = length (filas chunk)) by (apply length_map).
  destruct (has_col df "año") eqn:Ha.
  { cbn [orb]. exists df. rewrite Ha. repeat split; auto. }
  cbn [orb].
  destruct (first_col ["periodo"; "estu_anoterminobachiller"; "anio_origen"] df) as [c|] eqn:Hc.
  - pose proof (first_col_Some _ _ _ Hc) as [Hc1 Hc2].
    assert (Hex : existsb (has_col df) ["periodo"; "estu_anoterminobachiller"; "anio_origen"]
                  = true).
    { destruct (existsb _ _) eqn:E; [reflexivity |].
      apply first_col_None in E. congruence. }
    rewrite Hex.
    exists (rename c "año" df).
    assert (Hn : has_col (rename c "año" df) "año" = true).
    { apply bool_decide_eq_true, rename_columns_new, Hc2. }
    rewrite Hn. split; [reflexivity |].
    split; [unfold rename; cbn [filas]; rewrite length_map; exact Hlen |].
    intros c' Hc'. destruct (candidatos_disjuntos c c' Hc1 Hc') as [N1 N2].
    apply rename_columns_elem; assumption.
  - apply first_col_None in Hc. rewrite Hc, Ha. eauto.
Qed.

Lemma elegir_depto_spec chunk' (cols : list string) :
  (forall c, c ∈ candidatos_depto -> (c ∈ columns chunk' <-> c ∈ cols)) ->
  if existsb (fun c => bool_decide (c ∈ cols)) candidatos_depto then
    exists depto_col, elegir_depto chunk' = Ret depto_col
      /\ ("depto_normalizado" ∈ cols -> depto_col = "depto_normalizado")
      /\ ("depto_normalizado" ∈ columns chunk' <-> "depto_normalizado" ∈ cols)
  else exists msg, elegir_depto chunk' = Raise (RuntimeError msg).
Proof.
  intros Hcols.
  assert (Hb : forall c, c ∈ candidatos_depto ->
                 has_col chunk' c = bool_decide (c ∈ cols)).
  { intros c Hc. unfold has_col. apply bool_decide_ext, Hcols, Hc. }
  assert (Hdn : "depto_normalizado" ∈ candidatos_depto) by left.
  unfold candidatos_depto in *. cbn [existsb]. unfold elegir_depto.
  rewrite (Hb _ Hdn).
  destruct (bool_decide_reflect ("depto_normalizado" ∈ cols)) as [Hin|Hnin]; cbn [orb].
  { eexists. split; [reflexivity |]. split; [auto | apply Hcols, Hdn]. }
  destruct (first_col _ chunk') as [c|] eqn:Hc.
  - assert (Hex : existsb (has_col chunk')
                    ["cole_cod_depto_ubicacion"; "estu_cod_depto_presentacion";
                     "cole_depto_ubicacion"] = true).
    { destruct (existsb _ _) eqn:E; [reflexivity |].
      apply first_col_None in E. congruence. }
    cbn [existsb] in Hex.
    rewrite <- !Hb by (repeat ((left; fail) || right)).
    rewrite Hex. eexists. split; [reflexivity |]. split; [contradiction | apply Hcols, Hdn].
  - apply first_col_None in Hc. cbn [existsb] in Hc.
    rewrite <- !Hb by (repeat ((left; fail) || right)).
    rewrite Hc. eauto.
Qed.

(** A chunk is joined exactly when it has both key columns; otherwise
    the descriptive [RuntimeError] is raised. *)
Lemma unir_spec (df_pib : list (pib_row V)) chunk :
  if tiene_claves chunk then
    exists chunk' depto_col,
      unir df_pib chunk = Ret (left_join df_pib depto_col chunk')
      /\ length (filas chunk') = length (filas chunk)
      /\ ("depto_normalizado" ∈ map Py.lower (columns chunk) -> depto_col = "depto_normalizado")
      /\ ("depto_normalizado" ∈ columns chunk' <-> "depto_normalizado" ∈ map Py.lower (columns chunk))
  else exists msg, unir df_pib chunk = Raise (RuntimeError msg).
Proof.
  unfold tiene_claves, unir.
  pose proof (preparar_anio_spec chunk) as Ha.
  destruct (tiene_alguna candidatos_anio chunk); cbn [andb].
  - destruct Ha as (chunk' & -> & Hlen & Hcols). cbn [mbind res_bind bind].
    pose proof (elegir_depto_spec chunk' _ Hcols) as Hd.
    unfold tiene_alguna.
    destruct (existsb _ candidatos_depto).
    + destruct Hd as (depto_col & -> & Hdn & Hdn'). exists chunk', depto_col.
      split; [reflexivity | auto].
    + destruct Hd as (msg & ->). eauto.
  - destruct Ha as (msg & ->). eauto.
Qed.

(** *** The loop and the statistics *)

Definition suma (l : list Z) : Z := foldr Z.add 0 l.

Lemma loop_mapM (df_pib : list (pib_row V)) chunks st :
  loop fmean df_pib chunks st =
    rs ← mapM (procesar_chunk fmean df_pib) chunks; mret (fold_left acumular rs st).
Proof.
  revert st. induction chunks as [|chunk rest IH]; intros st; simpl; [reflexivity |].
  destruct (procesar_chunk fmean df_pib chunk) as [r|e]; simpl; [| reflexivity].
  rewrite IH. destruct (mapM _ rest); reflexivity.
Qed.

Lemma fold_acumular (rs : list (frame_merged V * Z)) st :
  salida_filas (fold_left acumular rs st)
    = salida_filas st ++ concat (map (fun r => m_filas r.1) rs)
  /\ total_procesado (fold_left acumular rs st)
    = total_procesado st + Z.of_nat (length (concat (map (fun r => m_filas r.1) rs)))
  /\ num_val (total_con_pib (fold_left acumular rs st))
    = num_val (total_con_pib st) + suma (map snd rs)
  /\ (rs <> [] -> exists z, total_con_pib (fold_left acumular rs st) = NpInt64 z).
Proof.
  revert st. induction rs as [|r rs IH]; intros st; simpl.
  - rewrite app_nil_r. repeat split; [lia | lia | congruence].
  - destruct (IH (acumular st r)) as (H1 & H2 & H3 & H4).
    rewrite H1, H2, H3. simpl. rewrite length_app, <- app_assoc.
    repeat split; [lia | lia |]. intros _.
    destruct rs as [|r' rs]; [simpl; eauto | apply H4; discriminate].
Qed.

Lemma run_nil (df_pib : list (pib_row V)) : run fmean df_pib [] = Raise ZeroDivisionError.
Proof. reflexivity. Qed.

Lemma run_raise (df_pib : list (pib_row V)) chunks e :
  mapM (procesar_chunk fmean df_pib) chunks = Raise e -> run fmean df_pib chunks = Raise e.
Proof. intros H. unfold run. rewrite loop_mapM, H. reflexivity. Qed.

Lemma run_ret (df_pib : list (pib_row V)) chunks rs :
  mapM (procesar_chunk fmean df_pib) chunks = Ret rs -> rs <> [] ->
  exists st, run fmean df_pib chunks = Ret st
    /\ ddm_filas st = concat (map (fun r => m_filas r.1) rs)
    /\ total_rows st = Z.of_nat (length (ddm_filas st))
    /\ rows_with_pib st = suma (map snd rs)
    /\ rows_without_pib st = total_rows st - rows_with_pib st
    /\ pib_coverage st =
         if 0 <? total_rows st
         then (inject_Z (rows_with_pib st) / inject_Z (total_rows st))%Q else 0%Q.
Proof.
  intros H Hne. unfold run. rewrite loop_mapM, H. cbn [mbind res_bind bind mret res_ret].
  destruct (fold_acumular rs estado_inicial) as (H1 & H2 & H3 & H4).
  destruct (H4 Hne) as [z Hz]. rewrite Hz. cbn [truediv].
  eexists. split; [reflexivity |]. cbn [ddm_filas total_rows rows_with_pib rows_without_pib pib_coverage].
  rewrite <- Hz, H1, H2, H3. simpl. repeat split.
Qed.

Lemma procesar_chunk_unir (df_pib : list (pib_row V)) chunk :
  procesar_chunk fmean df_pib chunk =
    cm ← unir df_pib chunk; mret (imputar fmean cm, notna_sum (m_filas cm)).
Proof. reflexivity. Qed.

Lemma procesar_chunk_raises (df_pib : list (pib_row V)) chunk e :
  procesar_chunk fmean df_pib chunk = Raise e ->
  tiene_claves chunk = false /\ exists msg, e = RuntimeError msg.
Proof.
  rewrite procesar_chunk_unir. pose proof (unir_spec df_pib chunk) as Hu.
  destruct (tiene_claves chunk).
  - destruct Hu as (chunk' & depto_col & -> & _). discriminate.
  - destruct Hu as (msg & ->). intros [= <-]. eauto.
Qed.

Lemma procesar_chunk_returns (df_pib : list (pib_row V)) chunk :
  tiene_claves chunk = true -> returns (procesar_chunk fmean df_pib chunk).
Proof.
  intros Hk. rewrite procesar_chunk_unir. pose proof (unir_spec df_pib chunk) as Hu.
  rewrite Hk in Hu. destruct Hu as (chunk' & depto_col & -> & _). eexists. reflexivity.
Qed.

(** The run fails with the descriptive error exactly when some batch
    lacks a key column. *)
Lemma run_runtime_error (df_pib : list (pib_row V)) chunks :
  (exists msg, run fmean df_pib chunks = Raise (RuntimeError msg)) <->
  exists chunk, chunk ∈ chunks /\ tiene_claves chunk = false.
Proof.
  split.
  - intros [msg Hr].
    destruct (mapM (procesar_chunk fmean df_pib) chunks) as [rs|e] eqn:HM.
    + destruct (decide (rs = [])) as [->|Hne].
      * apply mapM_res_length in HM. destruct chunks; [| discriminate].
        rewrite run_nil in Hr. discriminate.
      * destruct (run_ret df_pib chunks rs HM Hne) as (st & Hst & _). congruence.
    + apply mapM_res_raise in HM as (chunk & Hin & Hc).
      apply procesar_chunk_raises in Hc as [Hk _]. eauto.
  - intros (chunk & Hin & Hk).
    destruct (mapM (procesar_chunk fmean df_pib) chunks) as [rs|e] eqn:HM.
    + apply mapM_res_Forall2 in HM.
      apply list_elem_of_lookup in Hin as [i Hi].
      destruct (Forall2_lookup_l _ _ _ _ _ HM Hi) as (r & _ & Hr).
      pose proof (unir_spec df_pib chunk) as Hu. rewrite Hk in Hu.
      destruct Hu as (msg & Hu). rewrite procesar_chunk_unir, Hu in Hr. discriminate.
    + pose proof HM as HM'. apply mapM_res_raise in HM' as (c & _ & Hc).
      apply procesar_chunk_raises in Hc as [_ [msg ->]].
      exists msg. apply run_raise, HM.
Qed.

Lemma mapM_procesar_unir (df_pib : list (pib_row V)) chunks cms :
  mapM (unir df_pib) chunks = Ret cms ->
  mapM (procesar_chunk fmean df_pib) chunks
  = Ret (map (fun cm => (imputar fmean cm, notna_sum (m_filas cm))) cms).
Proof.
  revert cms. induction chunks as [|chunk rest IH]; simpl; intros cms.
  - intros [= <-]. reflexivity.
  - rewrite procesar_chunk_unir.
    destruct (unir df_pib chunk) as [cm|e]; simpl; [| discriminate].
    destruct (mapM (unir df_pib) rest) as [cms'|e]; simpl; [| discriminate].
    intros [= <-]. rewrite (IH cms' eq_refl). reflexivity.
Qed.

Lemma mapM_unir_returns (df_pib : list (pib_row V)) chunks :
  (forall chunk, chunk ∈ chunks -> tiene_claves chunk = true) ->
  exists cms, mapM (unir df_pib) chunks = Ret cms
    /\ Forall2 (fun chunk cm => unir df_pib chunk = Ret cm) chunks cms.
Proof.
  intros Hk.
  destruct (mapM_res_returns (unir df_pib) chunks) as [cms Hc].
  { intros chunk Hin. pose proof (unir_spec df_pib chunk) as Hu.
    rewrite (Hk chunk Hin) in Hu. destruct Hu as (c' & d & -> & _). eexists. reflexivity. }
  exists cms. split; [exact Hc | apply mapM_res_Forall2, Hc].
Qed.

Lemma notna_sum_app (a b : list (fila_merged V)) :
  notna_sum (a ++ b) = notna_sum a + notna_sum b.
Proof. unfold notna_sum. rewrite List.filter_app, length_app. lia. Qed.

Lemma notna_sum_concat (l : list (list (fila_merged V))) :
  notna_sum (concat l) = suma (map notna_sum l).
Proof.
  induction l as [|a l IH]; simpl; [reflexivity |].
  rewrite notna_sum_app, IH. reflexivity.
Qed.

(** The imputation pass keeps every row and every value already there. *)
Lemma imputar_filas (cm : frame_merged V) :
  Forall2 (fun m m' => campos m' = campos m /\
                       (pib_departamental_mm m <> None -> pib_departamental_mm m' = pib_departamental_mm m))
          (m_filas cm) (m_filas (imputar fmean cm)).
Proof.
  unfold imputar. destruct (_ && _); simpl.
  - apply Forall2_fmap_r, Forall_Forall2_diag, Forall_forall. intros m _. simpl.
    split; [reflexivity |]. unfold imputar_pib.
    destruct (pib_departamental_mm m); [reflexivity | congruence].
  - apply Forall_Forall2_diag, Forall_forall. intros m _. split; reflexivity.
Qed.

Lemma notna_sum_imputar (cm : frame_merged V) :
  notna_sum (m_filas cm) <= notna_sum (m_filas (imputar fmean cm)).
Proof.
  pose proof (imputar_filas cm) as H. unfold notna_sum.
  induction H as [|m m' l l' [_ Hm] _ IH]; simpl; [lia |].
  destruct (bool_decide_reflect (pib_departamental_mm m <> None)) as [Hn|Hn].
  - rewrite (Hm Hn). rewrite bool_decide_true by assumption. simpl length. lia.
  - destruct (bool_decide (pib_departamental_mm m' <> None)); simpl length; lia.
Qed.

Lemma length_imputar (cm : frame_merged V) :
  length (m_filas (imputar fmean cm)) = length (m_filas cm).
Proof. symmetry. eapply Forall2_length, imputar_filas. Qed.

Lemma columnas_salida_depto_normalizado cols :
  "depto_normalizado" ∈ columnas_salida cols -> "depto_normalizado" ∈ cols.
Proof.
  unfold columnas_salida.
  set (cols' := List.filter _ cols).
  assert (Hsub : forall c, c ∈ cols' -> c ∈ cols).
  { intros c Hc. apply list_elem_of_In, filter_In in Hc as [Hc _]. apply list_elem_of_In, Hc. }
  destruct (bool_decide _).
  - rewrite elem_of_app, list_elem_of_fmap. intros [(x & Hx & Hin)|Hin].
    + destruct (String.eqb_spec x "departamento"); [discriminate | subst; auto].
    + repeat (apply elem_of_cons in Hin as [Hin|Hin]; [discriminate |]). inversion Hin.
  - rewrite elem_of_app. intros [Hin|Hin]; [auto |].
    repeat (apply elem_of_cons in Hin as [Hin|Hin]; [discriminate |]). inversion Hin.
Qed.

(** With a unique lookup key the imputation pass changes nothing, on
    either path: with [depto_normalizado] as the key no group has a
    mean to give, and without that column the pass does not run. *)
Lemma unir_imputar_id (df_pib : list (pib_row V)) chunk cm :
  NoDup (map clave_pib df_pib) ->
  unir df_pib chunk = Ret cm -> imputar fmean cm = cm.
Proof.
  intros Hnd Hu. pose proof (unir_spec df_pib chunk) as Hs.
  destruct (tiene_claves chunk).
  - destruct Hs as (chunk' & depto_col & Hu' & _ & Hdn & Hdn').
    rewrite Hu in Hu'. injection Hu' as ->.
    destruct (decide ("depto_normalizado" ∈ map Py.lower (columns chunk))) as [Hin|Hnin].
    + rewrite (Hdn Hin). apply imputar_identidad, Hnd.
    + unfold imputar.
      destruct (bool_decide_reflect ("depto_normalizado" ∈ m_columns (left_join df_pib depto_col chunk')))
        as [Hc|Hc]; [| rewrite andb_false_r; reflexivity].
      exfalso. apply Hnin, Hdn'. apply columnas_salida_depto_normalizado, Hc.
  - destruct Hs as (msg & Hs). congruence.
Qed.

Lemma unir_length (df_pib : list (pib_row V)) chunk cm :
  unir df_pib chunk = Ret cm ->
  (length (filas chunk) <= length (m_filas cm))%nat
  /\ (NoDup (map clave_pib df_pib) -> length (m_filas cm) = length (filas chunk)).
Proof.
  intros Hu. pose proof (unir_spec df_pib chunk) as Hs.
  destruct (tiene_claves chunk); [| destruct Hs as (msg & Hs); congruence].
  destruct Hs as (chunk' & depto_col & Hu' & Hlen & _).
  rewrite Hu in Hu'. injection Hu' as ->. rewrite <- Hlen. split.
  - unfold left_join. simpl. clear Hlen Hu.
    induction (filas chunk') as [|r l IH]; simpl; [lia |].
    rewrite length_app.
    pose proof (merge_fila_nonempty df_pib depto_col (has_col chunk' "departamento") r). lia.
  - intros Hnd. rewrite left_join_unique by assumption. apply length_map.
Qed.



Lemma estadisticas_helper_vacio (df_pib : list (pib_row V)) chunks :
  chunks <> [] ->
  (forall chunk, chunk ∈ chunks -> tiene_claves chunk = true /\ filas chunk = []) ->
  exists st, run fmean df_pib chunks = Ret st
    /\ ddm_filas st = [] /\ total_rows st = 0 /\ rows_with_pib st = 0
    /\ pib_coverage st = 0%Q.
Proof.
  intros Hne Hk.
  destruct (mapM_unir_returns df_pib chunks) as (cms & Hcms & HF);
    [intros c Hc; apply Hk, Hc |].
  pose proof (mapM_procesar_unir df_pib chunks cms Hcms) as HM.
  assert (Hne' : map (fun cm => (imputar fmean cm, notna_sum (m_filas cm))) cms <> []).
  { apply Forall2_length in HF. destruct chunks; [congruence |]. destruct cms; discriminate. }
  destruct (run_ret df_pib chunks _ HM Hne') as (st & Hst & H1 & H2 & H3 & H4 & H5).
  rewrite map_map in H1, H3. simpl in H1, H3.
  assert (Hnil : Forall (fun cm => m_filas cm = []) cms).
  { apply Forall_forall. intros cm Hin.
    apply list_elem_of_lookup in Hin as [i Hi].
    destruct (Forall2_lookup_r _ _ _ _ _ HF Hi) as (chunk & Hc & Hu).
    apply list_elem_of_lookup_2 in Hc. destruct (Hk chunk Hc) as [_ Hf].
    pose proof (unir_spec df_pib chunk) as Hs. rewrite (proj1 (Hk chunk Hc)) in Hs.
    destruct Hs as (chunk' & depto_col & Hu' & Hlen & _).
    rewrite Hu in Hu'. injection Hu' as ->. rewrite Hf in Hlen.
    unfold left_join. simpl. destruct (filas chunk'); [reflexivity | discriminate]. }
  assert (Hfilas : ddm_filas st = []).
  { rewrite H1. clear -Hnil. induction Hnil as [|cm l Hcm _ IH]; simpl; [reflexivity |].
    rewrite IH, app_nil_r. pose proof (length_imputar cm) as Hl. rewrite Hcm in Hl.
    destruct (m_filas (imputar fmean cm)); [reflexivity | discriminate]. }
  assert (Hwith : rows_with_pib st = 0).
  { rewrite H3. clear -Hnil. induction Hnil as [|cm l Hcm _ IH]; simpl; [reflexivity |].
    rewrite IH, Hcm. reflexivity. }
  exists st. split; [exact Hst |]. split; [exact Hfilas |].
  rewrite Hfilas in H2. simpl in H2.
  split; [exact H2 |]. split; [exact Hwith |].
  rewrite H5, H2. reflexivity.
Qed.

End Engine.

(** C1, amended: the with-value statistic is the number of rows whose
    value is non-null after the left join, counted before the
    imputation pass; rows_without_pib is total_rows minus that count
    and pib_coverage is their ratio (zero when there is no row). The
    count never exceeds the number of non-null values written, and
    equals it whenever the lookup key is unique (the imputation pass
    then fills nothing). *)
Theorem estadisticas_antes_de_imputar {V : Type} (fmean : V -> list V -> option V)
    (df_pib : list (pib_row V)) (chunks : list DataFrame) :
  chunks <> [] ->
  (forall chunk, chunk ∈ chunks -> tiene_claves chunk = true) ->
  exists cms st,
    mapM (unir df_pib) chunks = Ret cms
    /\ run fmean df_pib chunks = Ret st
    /\ ddm_filas st = concat (map (fun cm => m_filas (imputar fmean cm)) cms)
    /\ total_rows st = Z.of_nat (length (ddm_filas st))
    /\ rows_with_pib st = notna_sum (concat (map m_filas cms))
    /\ rows_without_pib st = total_rows st - rows_with_pib st
    /\ pib_coverage st =
         (if 0 <? total_rows st
          then (inject_Z (rows_with_pib st) / inject_Z (total_rows st))%Q else 0%Q)
    /\ rows_with_pib st <= notna_sum (ddm_filas st)
    /\ (NoDup (map clave_pib df_pib) -> rows_with_pib st = notna_sum (ddm_filas st)).
Proof.
  intros Hne Hk.
  destruct (mapM_unir_returns df_pib chunks Hk) as (cms & Hcms & HF).
  pose proof (mapM_procesar_unir fmean df_pib chunks cms Hcms) as HM.
  assert (Hne' : map (fun cm => (imputar fmean cm, notna_sum (m_filas cm))) cms <> []).
  { apply Forall2_length in HF. destruct chunks; [congruence |]. destruct cms; discriminate. }
  destruct (run_ret fmean df_pib chunks _ HM Hne') as (st & Hst & H1 & H2 & H3 & H4 & H5).
  rewrite map_map in H1, H3. simpl in H1, H3.
  assert (Hpre : rows_with_pib st = notna_sum (concat (map m_filas cms))).
  { rewrite H3, notna_sum_concat, map_map. reflexivity. }
  exists cms, st. repeat (split; [assumption |]).
  rewrite Hpre, H1, !notna_sum_concat, !map_map. split.
  - clear. induction cms as [|cm l IH]; simpl; [lia |].
    pose proof (notna_sum_imputar fmean cm). lia.
  - intros Hnd. f_equal. apply Forall_fmap_ext_1, Forall_forall. intros cm Hin.
    apply list_elem_of_lookup in Hin as [i Hi].
    destruct (Forall2_lookup_r _ _ _ _ _ HF Hi) as (chunk & _ & Hu).
    rewrite (unir_imputar_id fmean df_pib chunk cm Hnd Hu). reflexivity.
Qed.


(** C8, amended: the run fails with the descriptive [RuntimeError]
    exactly when some batch lacks a year column or a region column
    after all fallback names; there is no empty-input error: batches
    that carry no data row are processed, and the run completes with
    zero rows and a coverage of zero. *)
Theorem run_errores_de_claves {V : Type} (fmean : V -> list V -> option V)
    (df_pib : list (pib_row V)) (chunks : list DataFrame) :
  ((exists msg, run fmean df_pib chunks = Raise (RuntimeError msg)) <->
   exists chunk, chunk ∈ chunks /\ tiene_claves chunk = false)
  /\ (chunks <> [] ->
      (forall chunk, chunk ∈ chunks -> tiene_claves chunk = true /\ filas chunk = []) ->
      exists st, run fmean df_pib chunks = Ret st
        /\ ddm_filas st = [] /\ total_rows st = 0 /\ rows_with_pib st = 0
        /\ pib_coverage st = 0%Q).
Proof.
  split; [apply run_runtime_error |].
  intros Hne Hk.
  destruct (estadisticas_helper_vacio fmean df_pib chunks Hne Hk) as (st & H); eauto.
Qed.

(** C10: in a batch whose region key is taken from the column
    [depto_normalizado], with a lookup table whose key is unique, the
    rows of one (year, depto_normalizado) group all carry the same
    value after the left join, so a row without a value is in a group
    without a mean, and the imputation pass returns the batch unchanged. *)
Theorem imputacion_es_identidad {V : Type} (fmean : V -> list V -> option V)
    (df_pib : list (pib_row V)) (chunk : DataFrame) :
  NoDup (map clave_pib df_pib) ->
  "depto_normalizado" ∈ map Py.lower (columns chunk) ->
  tiene_alguna candidatos_anio chunk = true ->
  exists cm,
    unir df_pib chunk = Ret cm
    /\ imputar fmean cm = cm
    /\ procesar_chunk fmean df_pib chunk = Ret (cm, notna_sum (m_filas cm))
    /\ (forall m m' key,
          m ∈ m_filas cm -> m' ∈ m_filas cm ->
          clave_grupo m = Some key -> clave_grupo m' = Some key ->
          pib_departamental_mm m' = pib_departamental_mm m).
Proof.
  intros Hnd Hdn Ha.
  assert (Hk : tiene_claves chunk = true).
  { unfold tiene_claves. rewrite Ha. unfold candidatos_depto, tiene_alguna. cbn [existsb andb].
    rewrite bool_decide_true by assumption. reflexivity. }
  pose proof (unir_spec df_pib chunk) as Hs. rewrite Hk in Hs.
  destruct Hs as (chunk' & depto_col & Hu & _ & Hcol & _).
  rewrite (Hcol Hdn) in Hu.
  exists (left_join df_pib "depto_normalizado" chunk').
  split; [exact Hu |].
  split; [apply imputar_identidad, Hnd |].
  split; [rewrite procesar_chunk_unir, Hu; cbn [mbind res_bind bind mret res_ret];
          rewrite imputar_identidad by assumption; reflexivity |].
  intros m m' key Hm Hm' Hkm Hkm'.
  rewrite left_join_unique in Hm, Hm' by assumption.
  apply list_elem_of_fmap in Hm as (r & -> & _). apply list_elem_of_fmap in Hm' as (r' & -> & _).
  eapply grupo_mismo_valor; eassumption.
Qed.

(** *** Concrete tables and batches *)

(** A mean on integers, to run the model. *)
Definition zmean (v : Z) (vs : list Z) : option Z :=
  Some (fold_left Z.add vs v / Z.of_nat (S (length vs))).

(** The lookup table of the end-to-end scenario, with the region code
    as the Consolidator writes it. *)
Definition pib_unico : list (pib_row Z) :=
  [ mkPib (Some "2019") (Some "05") (Some "Antioquia") (Some 120) ].

(** A lookup table with the key (2019, 05) twice, once without a value. *)
Definition pib_duplicado : list (pib_row Z) :=
  [ mkPib (Some "2019") (Some "05") (Some "Antioquia") (Some 120);
    mkPib (Some "2019") (Some "05") (Some "Antioquia") None ].

Definition chunk_ejemplo : DataFrame :=
  {| columns := ["año"; "depto_normalizado"; "punt_global"];
     filas := [ {[ "año" := Some "2019"; "depto_normalizado" := Some "05";
                   "punt_global" := Some "300" ]};
                {[ "año" := Some "2019"; "depto_normalizado" := Some "11";
                   "punt_global" := Some "280" ]} ] |}.

(** A batch with its key columns and no data row. *)
Definition chunk_vacio : DataFrame :=
  {| columns := ["año"; "depto_normalizado"; "punt_global"]; filas := [] |}.

(** C1, as stated, fails: with a lookup key that occurs twice, once
    without a value, the imputation pass fills the second joined row;
    two rows of the output carry a value and the statistic says one. *)
Lemma estadistica_no_cuenta_imputados :
  match run zmean pib_duplicado [chunk_ejemplo] with
  | Ret st =>
      map pib_departamental_mm (ddm_filas st) = [Some 120; Some 120; None]
      /\ notna_sum (ddm_filas st) = 2
      /\ rows_with_pib st = 1
      /\ rows_without_pib st = 2
  | Raise _ => False
  end.
Proof. vm_compute. repeat split. Qed.

Lemma pib_unico_NoDup : NoDup (map clave_pib pib_unico).
Proof. apply NoDup_singleton. Qed.

Lemma chunk_ejemplo_claves :
  forall chunk, chunk ∈ [chunk_ejemplo] -> tiene_claves chunk = true.
Proof. intros chunk Hin. apply list_elem_of_singleton in Hin as ->. reflexivity. Qed.

Lemma estadisticas_antes_de_imputar_witness :
  exists cms st,
    mapM (unir pib_unico) [chunk_ejemplo] = Ret cms
    /\ run zmean pib_unico [chunk_ejemplo] = Ret st
    /\ ddm_filas st = concat (map (fun cm => m_filas (imputar zmean cm)) cms)
    /\ total_rows st = Z.of_nat (length (ddm_filas st))
    /\ rows_with_pib st = notna_sum (concat (map m_filas cms))
    /\ rows_without_pib st = total_rows st - rows_with_pib st
    /\ pib_coverage st =
         (if 0 <? total_rows st
          then (inject_Z (rows_with_pib st) / inject_Z (total_rows st))%Q else 0%Q)
    /\ rows_with_pib st <= notna_sum (ddm_filas st)
    /\ (NoDup (map clave_pib pib_unico) -> rows_with_pib st = notna_sum (ddm_filas st)).
Proof.
  apply (estadisticas_antes_de_imputar zmean pib_unico [chunk_ejemplo]).
  - discriminate.
  - exact chunk_ejemplo_claves.
Defined.

(** The table that the Lookup Normalizer produces from
    [TransformApiFacts.pib_crudo], as [merge.py] reads it. The region
    code comes back as ["5"], not as the ["05"] of [depto_normalizado]. *)
Definition pib_normalizado : list (pib_row Z) :=
  leer_pib [ TransformApi.mkAgregada 2019 5 "Antioquia" 120;
             TransformApi.mkAgregada 2019 11 "Bogotá" 200 ].


Example run_pib_normalizado :
  map clave_pib pib_normalizado = [(Some "2019", Some "5"); (Some "2019", Some "11")]
  /\ match run zmean pib_normalizado [chunk_ejemplo] with
     | Ret st => map pib_departamental_mm (ddm_filas st) = [None; Some 200]
                 /\ total_rows st = 2 /\ rows_with_pib st = 1
     | Raise _ => False
     end.
Proof. split; [reflexivity |]. vm_compute. repeat split. Qed.


(** C8, as stated, fails: an input without data rows does not fail.
    A batch with no row is processed and the run completes; and when
    no batch at all is yielded, what stops the run is the division of
    the final summary, not an error that names the empty input. *)
Lemma entrada_vacia_no_falla :
  filas chunk_vacio = []
  /\ match run zmean pib_unico [chunk_vacio] with
     | Ret st => total_rows st = 0 /\ ddm_filas st = [] /\ pib_coverage st = 0%Q
     | Raise _ => False
     end
  /\ run zmean pib_unico [] = Raise ZeroDivisionError.
Proof. split; [reflexivity |]. split; [vm_compute; repeat split | reflexivity]. Qed.

Lemma run_errores_de_claves_witness :
  exists st, run zmean pib_unico [chunk_vacio] = Ret st
    /\ ddm_filas st = [] /\ total_rows st = 0 /\ rows_with_pib st = 0
    /\ pib_coverage st = 0%Q.
Proof.
  apply (proj2 (run_errores_de_claves zmean pib_unico [chunk_vacio])).
  - discriminate.
  - intros chunk Hin. apply list_elem_of_singleton in Hin as ->. split; reflexivity.
Defined.

Lemma imputacion_es_identidad_witness :
  exists cm,
    unir pib_unico chunk_ejemplo = Ret cm
    /\ imputar zmean cm = cm
    /\ procesar_chunk zmean pib_unico chunk_ejemplo = Ret (cm, notna_sum (m_filas cm))
    /\ (forall m m' key,
          m ∈ m_filas cm -> m' ∈ m_filas cm ->
          clave_grupo m = Some key -> clave_grupo m' = Some key ->
          pib_departamental_mm m' = pib_departamental_mm m).
Proof.
  apply (imputacion_es_identidad zmean pib_unico chunk_ejemplo).
  - exact pib_unico_NoDup.
  - vm_compute. right. left.
  - reflexivity.
Defined.

End MergeFacts.

(** ** Properties of the Bulk Loader *)

Module LoadDwFacts.
Import Py LoadDw.

Lemma append_assoc (s1 s2 s3 : string) : (s1 +:+ s2) +:+ s3 = s1 +:+ (s2 +:+ s3).
Proof.
  induction s1 as [|c s1 IH]; [reflexivity |].
  change (String c ((s1 +:+ s2) +:+ s3) = String c (s1 +:+ (s2 +:+ s3))).
  rewrite IH. reflexivity.
Qed.

Lemma concat_cons2 sep (x y : string) l :
  String.concat sep (x :: y :: l) = x +:+ sep +:+ String.concat sep (y :: l).
Proof. reflexivity. Qed.

Definition sep : string := "," +:+ nl +:+ "  ".

Definition col_def (col : string) : string := quote +:+ replace_quote col +:+ quote +:+ " TEXT".

Lemma render_columna_text col : render_columna (mkColumna col true TEXT) = col_def col.
Proof. unfold render_columna, col_def. simpl. rewrite !append_assoc. reflexivity. Qed.

Lemma concat_columnas col (columns : list string) (last : string) :
  String.concat sep (map col_def (col :: columns) ++ [last])
  = String.concat sep (map col_def (col :: columns)) +:+ sep +:+ last.
Proof.
  revert col. induction columns as [|y l IH]; intros col; [reflexivity |].
  change (map col_def (col :: y :: l) ++ [last])
    with (col_def col :: (map col_def (y :: l) ++ [last])).
  change (map col_def (col :: y :: l)) with (col_def col :: col_def y :: map col_def l).
  destruct (map col_def (y :: l) ++ [last]) as [|z zs] eqn:E; [discriminate |].
  rewrite concat_cons2, <- E, IH, concat_cons2, !append_assoc. reflexivity.
Qed.

Lemma render_columnas_ddl (columns : list string) :
  map render_columna (columnas_ddl columns)
  = "id BIGSERIAL PRIMARY KEY"
    :: (map col_def columns ++ ["created_at TIMESTAMP DEFAULT now()"]).
Proof.
  unfold columnas_ddl. cbn [app map]. f_equal.
  rewrite map_app. f_equal.
  induction columns as [|x l IH]; [reflexivity |].
  cbn [map]. rewrite render_columna_text, IH. reflexivity.
Qed.

(** The text that [_ddl] builds is the statement with the columns of
    [columnas_ddl], whenever there is a column. *)
Lemma _ddl_render table (columns : list string) :
  columns <> [] -> _ddl table columns = render_create table (columnas_ddl columns).
Proof.
  destruct columns as [|col columns]; [congruence |]. intros _.
  unfold render_create. rewrite render_columnas_ddl.
  destruct (map col_def (col :: columns) ++ ["created_at TIMESTAMP DEFAULT now()"])
    as [|z zs] eqn:E; [discriminate |].
  change ("," +:+ nl +:+ "  ") with sep.
  rewrite concat_cons2, <- E, concat_columnas.
  unfold _ddl. change ("," +:+ nl +:+ "  ") with sep.
  change (map (fun col0 => quote +:+ replace_quote col0 +:+ quote +:+ " TEXT") (col :: columns))
    with (map col_def (col :: columns)).
  cbv zeta. rewrite !append_assoc. reflexivity.
Qed.

Lemma nombres_columnas_ddl (a b c : string) :
  map c_nombre (columnas_ddl [a; b; c]) = ["id"; a; b; c; "created_at"].
Proof. reflexivity. Qed.

Lemma exec_create_nueva table (a b c : string) (db : gmap string tabla) :
  db !! table = None ->
  NoDup ["id"; a; b; c; "created_at"] ->
  Forall (fun s => identificador_valido s = true) [a; b; c] ->
  exec_create table (columnas_ddl [a; b; c]) db
  = Ret (<[table := mkTabla (columnas_ddl [a; b; c]) [] 1]> db).
Proof.
  intros Hfresh Hnd Hval. unfold exec_create. rewrite Hfresh, nombres_columnas_ddl.
  rewrite bool_decide_false.
  2:{ intros Hin. rewrite Forall_forall in Hval.
      assert (Hne : forall x, x ∈ [a; b; c] -> "" <> x).
      { intros x Hx E. specialize (Hval x Hx). subst x. discriminate. }
      apply elem_of_cons in Hin as [Hin|Hin]; [discriminate |].
      apply elem_of_cons in Hin as [Hin|Hin]; [apply (Hne a); [left | exact Hin] |].
      apply elem_of_cons in Hin as [Hin|Hin];
        [apply (Hne b); [right; left | exact Hin] |].
      apply elem_of_cons in Hin as [Hin|Hin];
        [apply (Hne c); [right; right; left | exact Hin] |].
      apply list_elem_of_singleton in Hin. discriminate. }
  rewrite bool_decide_true by assumption. reflexivity.
Qed.

Lemma exec_copy_vacia table (a b c : string) (datos : list (list string)) (db : gmap string tabla) :
  db !! table = Some (mkTabla (columnas_ddl [a; b; c]) [] 1) ->
  Forall (fun rec => length rec = 3%nat) datos ->
  exists t, exec_copy table [a; b; c] ([a; b; c] :: datos) db = Ret (<[table := t]> db)
    /\ t_columnas t = columnas_ddl [a; b; c]
    /\ length (t_filas t) = length datos.
Proof.
  intros Hdb Hdatos. unfold exec_copy. rewrite Hdb. cbn [t_columnas t_filas t_next_id tail].
  assert (Hcols : forallb (fun c0 => bool_decide (c0 ∈ map c_nombre (columnas_ddl [a; b; c])))
                    [a; b; c] = true).
  { rewrite nombres_columnas_ddl. cbn [forallb]. rewrite !andb_true_iff.
    repeat split; apply bool_decide_eq_true;
      repeat ((left; fail) || right). }
  rewrite Hcols. cbn [negb].
  assert (Hlen : forallb (fun rec => (length rec =? length [a; b; c])%nat) datos = true).
  { apply forallb_forall. intros rec Hin. rewrite Forall_forall in Hdatos.
    apply Nat.eqb_eq. apply Hdatos. apply list_elem_of_In, Hin. }
  rewrite Hlen. cbn [negb].
  eexists. split; [reflexivity |]. split; [reflexivity |].
  cbn [t_filas]. rewrite app_nil_l. apply length_imap.
Qed.

(** C9: loading a file with a three-column header into a destination
    that has no table of that name creates a table whose columns are
    the identity key, the three header columns as nullable text, and
    the creation timestamp, in this order, the statement sent being the
    text that [_ddl] builds; the table holds one row per data record and
    rows_loaded is the number of data records. The header names are
    identifiers that PostgreSQL keeps as written, distinct from each
    other and from the two synthetic columns, and every data record has
    three fields: this is what makes the file one that can be loaded. *)
Theorem carga_tres_columnas (table conn_uri a b c : string) (replace : bool)
    (datos : list (list string)) (db : gmap string tabla) :
  conn_uri <> "" ->
  tabla_valida table = true ->
  db !! table = None ->
  Forall (fun s => identificador_valido s = true) [a; b; c] ->
  NoDup ["id"; a; b; c; "created_at"] ->
  Forall (fun rec => length rec = 3%nat) datos ->
  exists db' r t,
    run ([a; b; c] :: datos) table conn_uri replace db = Ret (db', r)
    /\ db' !! table = Some t
    /\ t_columnas t =
         [ mkColumna "id" false BIGSERIAL_PRIMARY_KEY;
           mkColumna a true TEXT; mkColumna b true TEXT; mkColumna c true TEXT;
           mkColumna "created_at" false TIMESTAMP_DEFAULT_NOW ]
    /\ map nullable (t_columnas t) = [false; true; true; true; true]
    /\ _ddl table [a; b; c] = render_create table (t_columnas t)
    /\ length (t_filas t) = length datos
    /\ rows_loaded r = Z.of_nat (length datos)
    /\ total_columns r = 3.
Proof.
  intros Hconn _ Hfresh Hval Hnd Hdatos. unfold run.
  destruct (String.eqb_spec conn_uri ""); [contradiction |].
  unfold existing_columns. rewrite Hfresh.
  destruct (bool_decide_reflect (@nil string = [])) as [_|N]; [| contradiction].
  cbn [negb andb].
  destruct (bool_decide_reflect ([a; b; c] = [])) as [E|_]; [discriminate |].
  rewrite exec_create_nueva by assumption. cbn [mbind res_bind bind].
  set (db1 := <[table := mkTabla (columnas_ddl [a; b; c]) [] 1]> db).
  assert (Hdb1 : db1 !! table = Some (mkTabla (columnas_ddl [a; b; c]) [] 1))
    by apply lookup_insert_eq.
  assert (Htr : (if replace then exec_truncate table db1 else Ret db1) = Ret db1).
  { destruct replace; [| reflexivity]. unfold exec_truncate. rewrite Hdb1.
    cbn [t_columnas]. unfold db1. rewrite insert_insert_eq. reflexivity. }
  rewrite Htr. cbn [mbind res_bind bind].
  assert (Hq : forallb sin_comilla [a; b; c] = true).
  { apply forallb_forall. intros x Hx. rewrite Forall_forall in Hval.
    specialize (Hval x (proj2 (list_elem_of_In _ _) Hx)).
    unfold identificador_valido in Hval. apply andb_true_iff in Hval as [_ Hval]. exact Hval. }
  rewrite Hq.
  destruct (exec_copy_vacia table a b c datos db1 Hdb1 Hdatos) as (t & Hcopy & Hcols & Hfilas).
  rewrite Hcopy. cbn [mbind res_bind bind mret res_ret].
  eexists _, _, t. split; [reflexivity |].
  split; [apply lookup_insert_eq |].
  split; [rewrite Hcols; reflexivity |].
  split; [rewrite Hcols; reflexivity |].
  split; [rewrite Hcols; apply _ddl_render; discriminate |].
  split; [exact Hfilas |].
  cbn [rows_loaded total_columns]. unfold count_rows. rewrite lookup_insert_eq, Hfilas.
  split; reflexivity.
Qed.

(** An enriched file of three columns and two data records. *)
Definition csv_enriquecido : list (list string) :=
  [ ["año"; "departamento"; "pib_departamental_mm"];
    ["2019"; "Antioquia"; "120.0"];
    ["2019"; ""; ""] ].

Lemma carga_tres_columnas_witness :
  exists db' r t,
    run csv_enriquecido "ddm_icfes_pib" "postgresql://localhost/dw" false ∅ = Ret (db', r)
    /\ db' !! "ddm_icfes_pib" = Some t
    /\ t_columnas t =
         [ mkColumna "id" false BIGSERIAL_PRIMARY_KEY;
           mkColumna "año" true TEXT; mkColumna "departamento" true TEXT;
           mkColumna "pib_departamental_mm" true TEXT;
           mkColumna "created_at" false TIMESTAMP_DEFAULT_NOW ]
    /\ map nullable (t_columnas t) = [false; true; true; true; true]
    /\ _ddl "ddm_icfes_pib" ["año"; "departamento"; "pib_departamental_mm"]
       = render_create "ddm_icfes_pib" (t_columnas t)
    /\ length (t_filas t) = 2%nat
    /\ rows_loaded r = 2
    /\ total_columns r = 3.
Proof.
  apply (carga_tres_columnas "ddm_icfes_pib" "postgresql://localhost/dw"
           "año" "departamento" "pib_departamental_mm" false
           [ ["2019"; "Antioquia"; "120.0"]; ["2019"; ""; ""] ] ∅).
  - discriminate.
  - vm_compute. reflexivity.
  - apply lookup_empty.
  - repeat constructor.
  - apply (bool_decide_unpack _). vm_compute. exact I.
  - repeat constructor.
Defined.

End LoadDwFacts.

(** ** Properties of [_extraer_anio_de_nombre] *)

Module NombreFacts.
Import Py TransformIcfes.

Lemma digit_val_rango c : is_digit c = true -> 0 <= digit_val c <= 9.
Proof.
  unfold is_digit, digit_val. intros H.
  apply andb_true_iff in H as [H1 H2].
  apply Nat.leb_le in H1, H2. lia.
Qed.

Lemma match_20dd_inv s v :
  match_20dd s = Some v ->
  exists c d rest,
    s = String "2" (String "0" (String c (String d rest)))
    /\ is_digit c = true /\ is_digit d = true
    /\ v = 2000 + 10 * digit_val c + digit_val d.
Proof.
  destruct s as [|a [|b [|c [|d rest]]]]; simpl; try discriminate.
  1-3: destruct a as [[] [] [] [] [] [] [] []]; try discriminate;
       try (destruct b as [[] [] [] [] [] [] [] []]; discriminate).
  destruct a as [[] [] [] [] [] [] [] []]; try discriminate.
  destruct b as [[] [] [] [] [] [] [] []]; try discriminate.
  destruct (is_digit c) eqn:Hc; [|discriminate].
  destruct (is_digit d) eqn:Hd; [|discriminate].
  simpl. intros [= <-]. exists c, d, rest. auto.
Qed.

Lemma match_20dd_rango s v : match_20dd s = Some v -> 2000 <= v <= 2099.
Proof.
  intros (c & d & rest & _ & Hc & Hd & ->)%match_20dd_inv.
  apply digit_val_rango in Hc, Hd. lia.
Qed.

Lemma re_search_Some pat s v :
  re_search pat s = Some v -> exists pre t, s = pre +:+ t /\ pat t = Some v.
Proof.
  induction s as [|c s IH]; simpl.
  - destruct (pat "") eqn:E; [|discriminate]. intros [= <-]. exists "", "". auto.
  - destruct (pat (String c s)) eqn:E.
    + intros [= <-]. exists "", (String c s). auto.
    + intros (pre & t & -> & Ht)%IH. exists (String c pre), t. auto.
Qed.

(** X1: the year that [_extraer_anio_de_nombre] gives for a file name
    is 9999, the mark of a name without a year, or a year of this
    century (2000 to 2099); the bounds 2014 and 2025 of the four-digit
    fallback never let another value through. *)
Theorem extraer_anio_rango (nombre : string) :
  _extraer_anio_de_nombre nombre = 9999
  \/ 2000 <= _extraer_anio_de_nombre nombre <= 2099.
Proof.
  unfold _extraer_anio_de_nombre.
  destruct (re_search match_20dd nombre) as [anio|] eqn:E1.
  - right. apply re_search_Some in E1 as (pre & t & _ & Ht).
    by apply match_20dd_rango in Ht.
  - destruct (re_search match_dddd nombre) as [anio|]; [|by left].
    destruct ((2014 <=? anio) && (anio <=? 2025)) eqn:E; [|by left].
    right. apply andb_true_iff in E as [?%Z.leb_le ?%Z.leb_le]. lia.
Qed.

Lemma contains_dos_cons c pre :
  contains "2" (String c pre) = false -> c <> "2"%char /\ contains "2" pre = false.
Proof.
  cbn [contains]. intros [H1 H2]%orb_false_iff. split; [|done].
  intros ->. by destruct pre.
Qed.

Lemma re_search_sin_dos pre t :
  contains "2" pre = false ->
  re_search match_20dd (pre +:+ t) = re_search match_20dd t.
Proof.
  induction pre as [|c pre IH]; [done|].
  intros [Hc Hpre]%contains_dos_cons.
  change (String c pre +:+ t) with (String c (pre +:+ t)).
  cbn [re_search].
  destruct (match_20dd (String c (pre +:+ t))) as [v|] eqn:E; [|by apply IH].
  apply match_20dd_inv in E as (? & ? & ? & [= -> _] & _). done.
Qed.

Definition anio_20dd (n : nat) : bool :=
  match str_int (2000 + Z.of_nat n) with
  | String "2" (String "0" (String c (String d ""))) =>
      is_digit c && is_digit d && (10 * digit_val c + digit_val d =? Z.of_nat n)
  | _ => false
  end.

Lemma anio_20dd_check : forallb anio_20dd (seq 0 100) = true.
Proof. vm_compute. reflexivity. Qed.

Lemma str_int_20dd y :
  2000 <= y <= 2099 ->
  exists c d, str_int y = String "2" (String "0" (String c (String d "")))
    /\ is_digit c = true /\ is_digit d = true /\ y = 2000 + 10 * digit_val c + digit_val d.
Proof.
  intros Hy.
  pose proof anio_20dd_check as H.
  rewrite forallb_forall in H.
  specialize (H (Z.to_nat (y - 2000))).
  assert (Hin : In (Z.to_nat (y - 2000)) (seq 0 100)) by (apply in_seq; lia).
  apply H in Hin. unfold anio_20dd in Hin.
  replace (2000 + Z.of_nat (Z.to_nat (y - 2000))) with y in Hin by lia.
  destruct (str_int y) as [|a [|b [|c [|d [|]]]]]; try discriminate;
    try (destruct a as [[] [] [] [] [] [] [] []]; try discriminate;
         destruct b as [[] [] [] [] [] [] [] []]; discriminate).
  destruct a as [[] [] [] [] [] [] [] []]; try discriminate.
  destruct b as [[] [] [] [] [] [] [] []]; try discriminate.
  apply andb_true_iff in Hin as [[Hc Hd]%andb_true_iff Hv%Z.eqb_eq].
  exists c, d. repeat split; [done|done|lia].
Qed.

(** X2: a name made of a prefix without the character 2, the four
    digits of a year of this century and any suffix gives that year:
    the first match counts and what follows the four digits (the term
    of the exam, for instance) is not looked at. *)
Theorem extraer_anio_primera_ocurrencia (pre post : string) (y : Z) :
  2000 <= y <= 2099 ->
  contains "2" pre = false ->
  _extraer_anio_de_nombre (pre +:+ str_int y +:+ post) = y.
Proof.
  intros Hy Hpre. unfold _extraer_anio_de_nombre.
  rewrite re_search_sin_dos by done.
  destruct (str_int_20dd y Hy) as (c & d & -> & Hc & Hd & Hv).
  change (String "2" (String "0" (String c (String d ""))) +:+ post)
    with (String "2" (String "0" (String c (String d post)))).
  cbn [re_search match_20dd]. rewrite Hc, Hd. cbn [andb]. by rewrite <- Hv.
Qed.

Lemma extraer_anio_primera_ocurrencia_witness :
  _extraer_anio_de_nombre ("Examen_Saber_11_" +:+ str_int 2019 +:+ "1") = 2019.
Proof. apply extraer_anio_primera_ocurrencia; [lia|reflexivity]. Defined.

End NombreFacts.

(** ** White space and [_normalizar_departamento] on integers *)

Module StripFacts.
Import Py.

(** A string of white space only. *)
Fixpoint espacios (s : string) : bool :=
  match s with
  | String c s' => isspace c && espacios s'
  | EmptyString => true
  end.

Lemma lstrip_espacios izq s : espacios izq = true -> lstrip (izq +:+ s) = lstrip s.
Proof.
  induction izq as [|c izq IH]; [done|].
  cbn [espacios]. intros [Hc Hi]%andb_true_iff.
  change (String c izq +:+ s) with (String c (izq +:+ s)).
  cbn [lstrip]. rewrite Hc. by apply IH.
Qed.

Lemma rstrip_solo_espacios der : espacios der = true -> rstrip der = "".
Proof.
  induction der as [|c der IH]; [done|].
  cbn [espacios rstrip]. intros [Hc Hd]%andb_true_iff.
  by rewrite (IH Hd), Hc.
Qed.

Lemma rstrip_espacios s der : espacios der = true -> rstrip (s +:+ der) = rstrip s.
Proof.
  intros Hd. induction s as [|c s IH]; [by apply rstrip_solo_espacios|].
  change (String c s +:+ der) with (String c (s +:+ der)).
  cbn [rstrip]. by rewrite IH.
Qed.

Lemma rstrip_idem s : rstrip (rstrip s) = rstrip s.
Proof.
  induction s as [|c s IH]; [done|].
  cbn [rstrip]. destruct (isspace c && String.eqb (rstrip s) "") eqn:E; [done|].
  cbn [rstrip]. by rewrite IH, E.
Qed.

Lemma lstrip_cabeza s :
  lstrip s = "" \/ exists c t, lstrip s = String c t /\ isspace c = false.
Proof.
  induction s as [|c s IH]; [by left|].
  cbn [lstrip]. destruct (isspace c) eqn:E; [done|]. right. by exists c, s.
Qed.

Lemma lstrip_rstrip_cabeza c t :
  isspace c = false -> lstrip (rstrip (String c t)) = rstrip (String c t).
Proof. intros Hc. cbn [rstrip]. rewrite Hc. cbn [andb lstrip]. by rewrite Hc. Qed.

Lemma strip_idem s : strip (strip s) = strip s.
Proof.
  unfold strip. destruct (lstrip_cabeza s) as [->|(c & t & -> & Hc)]; [done|].
  by rewrite lstrip_rstrip_cabeza, rstrip_idem.
Qed.

Lemma lstrip_solo_espacios der : espacios der = true -> lstrip der = "".
Proof.
  induction der as [|c der IH]; [done|].
  cbn [espacios lstrip]. intros [-> Hd]%andb_true_iff. by apply IH.
Qed.

Lemma lstrip_app s der :
  espacios der = true ->
  lstrip (s +:+ der) = if String.eqb (lstrip s) "" then "" else lstrip s +:+ der.
Proof.
  intros Hd. induction s as [|c s IH]; [by apply lstrip_solo_espacios|].
  change (String c s +:+ der) with (String c (s +:+ der)).
  cbn [lstrip]. destruct (isspace c); [done|reflexivity].
Qed.

(** White space around a string does not change what [strip] gives. *)
Lemma strip_espacios izq s der :
  espacios izq = true -> espacios der = true ->
  strip (izq +:+ s +:+ der) = strip s.
Proof.
  intros Hi Hd. unfold strip. rewrite lstrip_espacios, lstrip_app by done.
  destruct (String.eqb_spec (lstrip s) "") as [->|_]; [done|].
  by apply rstrip_espacios.
Qed.

End StripFacts.

Module NormalizarFacts.
Import Py Float64 TransformIcfes Float64Facts PyFacts TransformIcfesFacts StripFacts.

Lemma normalizar_strip s :
  _normalizar_departamento (Some s) = _normalizar_departamento (Some (strip s)).
Proof. unfold _normalizar_departamento. by rewrite strip_idem. Qed.

Lemma int_double_small z : Z.abs z <= 2 ^ 53 -> int_double z.
Proof.
  intros Hz. exists (Z.abs z), 0. split; [lia|]. split; [lia|]. split; [lia|].
  eapply Z.le_lt_trans; [exact Hz|]. apply Z.pow_lt_mono_r; lia.
Qed.

Lemma normalizar_str_int z :
  Z.abs z <= 2 ^ 53 ->
  _normalizar_departamento (Some (str_int z)) = Ret (Some (format_02d z)).
Proof.
  intros Hz. destruct (str_int_shape z) as (d & Hd & Hv & Hs).
  assert (Hstrip : strip (str_int z) = str_int z).
  { rewrite Hs. destruct (z <? 0); [apply strip_minus_digits | apply strip_digits, Hd]. }
  assert (Hne : str_int z <> "").
  { rewrite Hs. destruct (z <? 0); [discriminate |].
    destruct d; [congruence | ..]; discriminate. }
  unfold _normalizar_departamento. rewrite Hstrip.
  destruct (String.eqb_spec (str_int z) ""); [contradiction |].
  rewrite Hs at 1. rewrite float_of_str_digits by assumption. simpl.
  rewrite Hv, (int_of_decimal_exact z (int_double_small z Hz)). reflexivity.
Qed.

(** X3: the decimal text of an integer of absolute value up to 2^53,
    with white space around it or not, is normalized to that integer
    zero-padded to two characters: 5 gives 05 and 11 gives 11. *)
Theorem normalizar_departamento_entero (z : Z) (izq der : string) :
  Z.abs z <= 2 ^ 53 ->
  espacios izq = true -> espacios der = true ->
  _normalizar_departamento (Some (izq +:+ str_int z +:+ der)) = Ret (Some (format_02d z)).
Proof.
  intros Hz Hi Hd.
  rewrite normalizar_strip, strip_espacios, <- normalizar_strip by done.
  by apply normalizar_str_int.
Qed.

Lemma normalizar_departamento_entero_witness :
  _normalizar_departamento (Some (" " +:+ str_int 5 +:+ "  ")) = Ret (Some (format_02d 5)).
Proof. apply normalizar_departamento_entero; [vm_compute; discriminate|reflexivity|reflexivity]. Defined.

End NormalizarFacts.

(** ** Properties of [_read_csv_robusto] *)

Module LecturaFacts.
Import Py Pandas Lectura StripFacts.

Lemma duplicated_from_lookup seen cols i c :
  cols !! i = Some c ->
  duplicated_from seen cols !! i = Some (bool_decide (c ∈ seen ++ take i cols)).
Proof.
  revert seen i. induction cols as [|c' cols IH]; intros seen i; [done|].
  destruct i as [|i]; cbn [duplicated_from].
  - intros [= ->]. cbn [take]. by rewrite app_nil_r.
  - intros Hi. cbn [lookup list_lookup take]. rewrite (IH _ _ Hi).
    by rewrite <- app_assoc.
Qed.

Lemma loc_not_todas {A} (mask : list bool) (l : list A) :
  existsb id mask = false -> (length l <= length mask)%nat -> loc_not mask l = l.
Proof.
  revert l. induction mask as [|b mask IH]; intros [|x l]; cbn; try done; try lia.
  destruct b; [done|]. intros Hm Hl. rewrite IH; [done|done|lia].
Qed.

Lemma length_duplicated_from seen cols : length (duplicated_from seen cols) = length cols.
Proof. revert seen. induction cols as [|c cols IH]; intros seen; cbn; [done|]. by rewrite IH. Qed.

(** The names kept are distinct, and none was seen before. *)
Lemma loc_not_duplicated_NoDup seen cols :
  NoDup (loc_not (duplicated_from seen cols) cols)
  /\ forall c, c ∈ loc_not (duplicated_from seen cols) cols -> (c ∉ seen) /\ c ∈ cols.
Proof.
  revert seen. induction cols as [|c cols IH]; intros seen; cbn [duplicated_from loc_not].
  - split; [constructor|]. by intros c ?%elem_of_nil.
  - destruct (IH (seen ++ [c])) as [IH1 IH2].
    destruct (bool_decide_reflect (c ∈ seen)) as [Hc|Hc].
    + split; [done|]. intros x Hx. destruct (IH2 x Hx) as [Hn Hin].
      split; [|by right]. intros ?. apply Hn, elem_of_app. by left.
    + split.
      * apply NoDup_cons. split; [|done]. intros Hx. destruct (IH2 c Hx) as [Hn _].
        apply Hn, elem_of_app. right. by left.
      * intros x [->|Hx]%elem_of_cons; [split; [done|by left]|].
        destruct (IH2 x Hx) as [Hn Hin]. split; [|by right].
        intros ?. apply Hn, elem_of_app. by left.
Qed.

Lemma loc_not_duplicated_elem seen cols c :
  c ∈ cols -> c ∉ seen -> c ∈ loc_not (duplicated_from seen cols) cols.
Proof.
  revert seen. induction cols as [|c' cols IH]; intros seen; [by intros ?%elem_of_nil|].
  cbn [duplicated_from loc_not]. intros Hc Hs.
  destruct (decide (c = c')) as [<-|Hne].
  - rewrite bool_decide_eq_false_2 by done. by left.
  - apply elem_of_cons in Hc as [?|Hc]; [done|].
    assert (c ∈ loc_not (duplicated_from (seen ++ [c']) cols) cols).
    { apply IH; [done|]. intros [?|?%list_elem_of_singleton]%elem_of_app; done. }
    destruct (bool_decide (c' ∈ seen)); [done|by right].
Qed.

Lemma map_lookup_Some {A B} (f : A -> B) (l : list A) i x :
  l !! i = Some x -> map f l !! i = Some (f x).
Proof.
  revert i. induction l as [|y l IH]; intros [|i]; try done.
  - by intros [= ->].
  - apply IH.
Qed.

Lemma columns_read_csv_robusto raw :
  columns (_read_csv_robusto raw)
  = loc_not (duplicated (map strip (l_columns raw))) (map strip (l_columns raw)).
Proof.
  unfold _read_csv_robusto.
  destruct (existsb id (duplicated (map strip (l_columns raw)))) eqn:E; cbn [columns]; [done|].
  symmetry. apply loc_not_todas; [done|].
  unfold duplicated. by rewrite length_duplicated_from.
Qed.

(** The first column with a name decides what the row holds for it. *)
Lemma list_to_map_loc_not (mask : list bool) (cols : list string) (row : list cell) i k v :
  cols !! i = Some k -> row !! i = Some v -> mask !! i = Some false ->
  k ∉ take i cols ->
  (list_to_map (zip (loc_not mask cols) (loc_not mask row)) : gmap string cell) !! k = Some v.
Proof.
  revert mask cols row. induction i as [|i IH]; intros [|b mask] [|k' cols] [|v' row]; try done.
  - intros [= ->] [= ->] [= ->] _. cbn [loc_not zip zip_with].
    rewrite list_to_map_cons. apply lookup_insert_eq.
  - intros Hk Hv Hm Hn. cbn [lookup list_lookup] in Hk, Hv, Hm. cbn [take] in Hn.
    assert (k <> k') by (intros ->; apply Hn; by left).
    assert (k ∉ take i cols) by (intros ?; apply Hn; by right).
    cbn [loc_not]. destruct b; [by apply IH|].
    cbn [zip zip_with]. rewrite list_to_map_cons, lookup_insert_ne by done. by apply IH.
Qed.

Lemma zip_primero (cols : list string) (row : list cell) i k v :
  cols !! i = Some k -> row !! i = Some v -> k ∉ take i cols ->
  (list_to_map (zip cols row) : gmap string cell) !! k = Some v.
Proof.
  revert cols row. induction i as [|i IH]; intros [|k' cols] [|v' row]; try done.
  - intros [= ->] [= ->] _. cbn [zip zip_with].
    rewrite list_to_map_cons. apply lookup_insert_eq.
  - intros Hk Hv Hn. cbn [lookup list_lookup] in Hk, Hv. cbn [take] in Hn.
    assert (k <> k') by (intros ->; apply Hn; by left).
    assert (k ∉ take i cols) by (intros ?; apply Hn; by right).
    cbn [zip zip_with]. rewrite list_to_map_cons, lookup_insert_ne by done. by apply IH.
Qed.

(** X4: after [_read_csv_robusto] the column names are distinct and
    carry no white space around them, no name is lost, and a name that
    occurred several times keeps the cells of its first column; no
    cell is missing (a missing field is the empty string). *)
Theorem read_csv_robusto_columnas (raw : leido) :
  NoDup (columns (_read_csv_robusto raw))
  /\ (forall c, c ∈ columns (_read_csv_robusto raw) <-> c ∈ map strip (l_columns raw))
  /\ Forall (fun c => strip c = c) (columns (_read_csv_robusto raw))
  /\ Forall2 (fun row r =>
                forall i c v,
                  map strip (l_columns raw) !! i = Some c ->
                  c ∉ take i (map strip (l_columns raw)) ->
                  row !! i = Some v ->
                  r !! c = Some (Some (default "" v)))
             (l_filas raw) (filas (_read_csv_robusto raw)).
Proof.
  set (cols := map strip (l_columns raw)).
  rewrite columns_read_csv_robusto. fold cols.
  destruct (loc_not_duplicated_NoDup [] cols) as [Hnd Hel].
  split; [exact Hnd|]. split; [|split].
  - intros c. split; [by intros [_ ?]%Hel|].
    intros Hc. apply loc_not_duplicated_elem; [done|]. by intros ?%elem_of_nil.
  - apply Forall_forall. intros c [_ Hc]%Hel.
    apply list_elem_of_fmap in Hc as (x & -> & _). apply strip_idem.
  - unfold _read_csv_robusto. fold cols.
    destruct (existsb id (duplicated cols)) eqn:E; cbn [filas].
    + rewrite !map_map. apply Forall2_fmap_r, Forall_Forall2_diag, Forall_forall.
      intros row _ i c v Hc Hn Hv.
      apply (list_to_map_loc_not _ _ _ i); [done| |  |done].
      * by apply (map_lookup_Some fillna).
      * unfold duplicated. rewrite (duplicated_from_lookup _ _ _ _ Hc).
        by rewrite bool_decide_eq_false_2.
    + rewrite !map_map. apply Forall2_fmap_r, Forall_Forall2_diag, Forall_forall.
      intros row _ i c v Hc Hn Hv.
      apply (zip_primero _ _ i); [done| |done].
      by apply (map_lookup_Some fillna).
Qed.

End LecturaFacts.

(** ** The columns and rows that the Consolidator keeps *)

Module ColumnasFacts.
Import Py Pandas TransformIcfes ResFacts TransformIcfesFacts ConsolidatorFacts.

Lemma elem_of_dedup_keep_first x l : x ∈ dedup_keep_first l <-> x ∈ l.
Proof.
  induction l as [|y l IH]; [done|].
  cbn [dedup_keep_first]. rewrite !elem_of_cons, list_elem_of_In, filter_In, <- list_elem_of_In, IH.
  destruct (String.eqb_spec y x) as [->|Hne]; simpl; [tauto|].
  split; [tauto|]. intros [->|H]; [by left|by right].
Qed.

Lemma NoDup_List_filter {A} (f : A -> bool) (l : list A) : NoDup l -> NoDup (List.filter f l).
Proof.
  induction 1 as [|x l Hx Hl IH]; simpl; [constructor|].
  destruct (f x); [|done]. apply NoDup_cons. split; [|done].
  rewrite list_elem_of_In, filter_In, <- list_elem_of_In. tauto.
Qed.

Lemma NoDup_dedup_keep_first l : NoDup (dedup_keep_first l).
Proof.
  induction l as [|y l IH]; [constructor|].
  cbn [dedup_keep_first]. apply NoDup_cons. split.
  - rewrite list_elem_of_In, filter_In. intros [_ H]. by rewrite String.eqb_refl in H.
  - by apply NoDup_List_filter.
Qed.

(** A column name that matches one of the patterns kept. *)
Definition coincide_patron (col : string) : bool :=
  existsb (fun patron => contains (lower patron) (lower col)) columnas_mantener_patrones.

(** The frame of a file once the year column is set and the names are
    lower-cased (lines 134-156). *)
Definition con_anio (p : archivo) (anio : Z) : DataFrame :=
  lower_columns (poner_anio anio (contenido p)).

Lemma anio_en_con_anio p anio : "año" ∈ columns (con_anio p anio).
Proof.
  unfold con_anio, lower_columns, poner_anio. cbn [columns].
  apply (list_elem_of_fmap_2' lower _ "año"); [|reflexivity].
  set (df := match first_col _ _ with Some _ => _ | None => _ end).
  unfold assign. cbn [columns]. unfold has_col.
  destruct (bool_decide_reflect ("año" ∈ columns df)); [done|].
  apply elem_of_app. right. by apply list_elem_of_singleton.
Qed.

Lemma poner_depto_columns df df1 :
  poner_depto df = Ret df1 ->
  forall c, c ∈ columns df1 <->
    c ∈ columns df \/
    (c = "depto_normalizado" /\
     first_col ["cole_cod_depto_ubicacion"; "estu_cod_depto_presentacion";
                "estu_cod_reside_depto"] df <> None).
Proof.
  unfold poner_depto. destruct (first_col _ df) as [depto_col|].
  - destruct (mapM _ (filas df)) as [vals|e]; simpl; [|discriminate].
    intros [= <-] c. cbn [columns]. unfold has_col.
    destruct (bool_decide_reflect ("depto_normalizado" ∈ columns df)).
    + split; [by left|]. intros [H|[-> _]]; done.
    + rewrite elem_of_app, list_elem_of_singleton.
      split; [intros [H|H]; [by left|by right]|intros [H|[H _]]; auto].
  - intros [= <-] c. split; [by left|]. intros [H|[_ H]]; done.
Qed.

Lemma procesar_inv p anio df :
  procesar p anio = Ret df ->
  exists df1,
    poner_depto (con_anio p anio) = Ret df1
    /\ df = dropna ("año" :: (if has_col (select (columnas_seleccionadas df1) df1) "depto_normalizado"
                              then ["depto_normalizado"] else []))
                   (select (columnas_seleccionadas df1) df1).
Proof.
  intros Hp. destruct (ConsolidatorFacts.procesar_Ret _ _ _ Hp) as [He Hd].
  rewrite (ConsolidatorFacts.procesar_leido _ _ He Hd) in Hp. fold (con_anio p anio) in Hp.
  destruct (poner_depto (con_anio p anio)) as [df1|e]; simpl in Hp; [|discriminate].
  injection Hp as <-. by exists df1.
Qed.

Lemma columnas_de_procesar p anio df df1 :
  poner_depto (con_anio p anio) = Ret df1 ->
  df = dropna ("año" :: (if has_col (select (columnas_seleccionadas df1) df1) "depto_normalizado"
                         then ["depto_normalizado"] else []))
              (select (columnas_seleccionadas df1) df1) ->
  columns df = columnas_seleccionadas df1.
Proof. by intros _ ->. Qed.

Lemma elem_of_columnas_seleccionadas df c :
  c ∈ columnas_seleccionadas df <->
  c = "año" \/ (c = "depto_normalizado" /\ c ∈ columns df)
  \/ (c ∈ columns df /\ coincide_patron c = true).
Proof.
  unfold columnas_seleccionadas. rewrite elem_of_dedup_keep_first.
  rewrite !elem_of_app, list_elem_of_singleton.
  rewrite (list_elem_of_In (List.filter _ _) c), filter_In, <- list_elem_of_In.
  unfold has_col. fold (coincide_patron c).
  destruct (bool_decide_reflect ("depto_normalizado" ∈ columns df)) as [Hd|Hd].
  - rewrite list_elem_of_singleton. split; [|intros [?|[[-> ?]|?]]; auto].
    intros [?|[->|?]]; auto.
  - rewrite elem_of_nil. split; [intros [?|[[]|?]]; auto|].
    intros [?|[[-> ?]|?]]; auto; done.
Qed.

Lemma coincide_depto_normalizado : coincide_patron "depto_normalizado" = true.
Proof. reflexivity. Qed.

(** X5: the columns that the Consolidator keeps of a file are
    distinct, the year column comes first, every other column has a
    name that contains one of the patterns kept, every column selected
    is a column of the frame (the selection cannot fail on a missing
    name), and no column whose name contains a pattern is left out.
    The file is one whose column names stay distinct once lower-cased,
    the frames that the model of pandas covers. *)
Theorem procesar_columnas (p : archivo) (anio : Z) (df : DataFrame) :
  NoDup (map lower (columns (poner_anio anio (contenido p)))) ->
  procesar p anio = Ret df ->
  NoDup (columns df)
  /\ head (columns df) = Some "año"
  /\ (forall c, c ∈ columns df -> c = "año" \/ coincide_patron c = true)
  /\ (forall c, c ∈ columns df ->
        c = "depto_normalizado" \/ c ∈ map lower (columns (poner_anio anio (contenido p))))
  /\ (forall c, c ∈ map lower (columns (poner_anio anio (contenido p))) ->
        coincide_patron c = true -> c ∈ columns df).
Proof.
  intros _ (df1 & Hd & ->)%procesar_inv.
  cbn [dropna columns select].
  pose proof (poner_depto_columns _ _ Hd) as Hcols.
  split; [|split; [|split; [|split]]].
  - apply NoDup_dedup_keep_first.
  - reflexivity.
  - intros c [->|[[-> _]|[_ H]]]%elem_of_columnas_seleccionadas; auto.
  - intros c [->|[[-> _]|[H _]]]%elem_of_columnas_seleccionadas; auto.
    + right. apply (anio_en_con_anio p anio).
    + apply Hcols in H as [H|[-> _]]; auto.
  - intros c Hc Hp. apply elem_of_columnas_seleccionadas. right. right.
    split; [|done]. apply Hcols. by left.
Qed.

Lemma procesar_columnas_witness :
  exists df, procesar archivo_2019_periodo_2010 2019 = Ret df
    /\ NoDup (columns df)
    /\ head (columns df) = Some "año"
    /\ (forall c, c ∈ columns df -> c = "año" \/ coincide_patron c = true)
    /\ (forall c, c ∈ columns df ->
          c = "depto_normalizado"
          \/ c ∈ map lower (columns (poner_anio 2019 (contenido archivo_2019_periodo_2010))))
    /\ (forall c, c ∈ map lower (columns (poner_anio 2019 (contenido archivo_2019_periodo_2010))) ->
          coincide_patron c = true -> c ∈ columns df).
Proof.
  destruct (procesar archivo_2019_periodo_2010 2019) as [df|e] eqn:E;
    [|vm_compute in E; discriminate].
  exists df. split; [reflexivity|]. apply (procesar_columnas _ _ _); [|exact E].
  apply (bool_decide_unpack _). vm_compute. exact I.
Defined.

Lemma poner_anio_length anio df : length (filas (poner_anio anio df)) = length (filas df).
Proof.
  unfold poner_anio. destruct (first_col _ df); cbn [assign rename filas];
    by rewrite !length_map.
Qed.

Lemma con_anio_length p anio : length (filas (con_anio p anio)) = length (filas (contenido p)).
Proof.
  unfold con_anio, lower_columns. cbn [filas]. rewrite length_map. apply poner_anio_length.
Qed.

Lemma zip_with_Forall2 {A B C} (f : A -> B -> C) (R : A -> B -> Prop) l k :
  Forall2 R l k ->
  length (zip_with f l k) = length l
  /\ forall z, z ∈ zip_with f l k -> exists x y, z = f x y /\ R x y.
Proof.
  induction 1 as [|x y l k Hxy _ [IH1 IH2]]; simpl.
  - split; [done|]. by intros z ?%elem_of_nil.
  - split; [by rewrite IH1|].
    intros z [->|Hz]%elem_of_cons; [by exists x, y|by apply IH2].
Qed.

Lemma poner_depto_filas df df1 depto_col :
  first_col ["cole_cod_depto_ubicacion"; "estu_cod_depto_presentacion";
             "estu_cod_reside_depto"] df = Some depto_col ->
  poner_depto df = Ret df1 ->
  length (filas df1) = length (filas df)
  /\ forall r1, r1 ∈ filas df1 ->
       exists r0 v, r1 = <["depto_normalizado" := v]> r0
                    /\ _normalizar_departamento (celda r0 depto_col) = Ret v.
Proof.
  unfold poner_depto. intros ->.
  destruct (mapM _ (filas df)) as [vals|e] eqn:Hm; simpl; [|discriminate].
  intros [= <-]. cbn [filas].
  apply mapM_res_Forall2 in Hm.
  apply (zip_with_Forall2 (fun r v => <["depto_normalizado" := v]> r)) in Hm.
  exact Hm.
Qed.

Lemma poner_depto_length df df1 :
  poner_depto df = Ret df1 -> length (filas df1) = length (filas df).
Proof.
  intros H.
  destruct (first_col ["cole_cod_depto_ubicacion"; "estu_cod_depto_presentacion";
                       "estu_cod_reside_depto"] df) as [c|] eqn:E.
  - by apply (poner_depto_filas df df1 c).
  - unfold poner_depto in H. rewrite E in H. by injection H as <-.
Qed.

Lemma procesar_filas_inv p anio df df1 r :
  poner_depto (con_anio p anio) = Ret df1 ->
  df = dropna ("año" :: (if has_col (select (columnas_seleccionadas df1) df1) "depto_normalizado"
                         then ["depto_normalizado"] else []))
              (select (columnas_seleccionadas df1) df1) ->
  r ∈ filas df ->
  celda r "año" <> None
  /\ ("depto_normalizado" ∈ columns df1 -> celda r "depto_normalizado" <> None)
  /\ exists r1, r1 ∈ filas df1 /\ forall c x, r !! c = Some x -> r1 !! c = Some x.
Proof.
  intros Hd -> Hr. cbn [dropna filas select] in Hr.
  apply list_elem_of_filter in Hr as [Hcrit Hr].
  apply list_elem_of_fmap in Hr as (r1 & -> & Hr1).
  cbn [forallb] in Hcrit. apply andb_true_iff in Hcrit as [Ha Hcrit].
  apply bool_decide_eq_true in Ha. split; [done|]. split.
  - intros Hdn. unfold has_col in Hcrit. cbn [select columns] in Hcrit.
    rewrite bool_decide_eq_true_2 in Hcrit
      by (apply elem_of_columnas_seleccionadas; right; left; done).
    cbn [forallb] in Hcrit. apply andb_true_iff in Hcrit as [Hc _].
    by apply bool_decide_eq_true in Hc.
  - exists r1. split; [done|]. intros c x Hx.
    by apply map_lookup_filter_Some_1_1 in Hx.
Qed.

(** X6: when a file has one of the recognized department-code
    columns, the frame written for it has the column
    [depto_normalizado], never more rows than the file, and in every
    row a year and a normalized code that is the zero-padded rendering
    of an integer: the rows whose code is blank or not a number are
    dropped. The column names of the file stay distinct once
    lower-cased. *)
Theorem procesar_filas (p : archivo) (anio : Z) (df : DataFrame) (depto_col : string) :
  NoDup (map lower (columns (poner_anio anio (contenido p)))) ->
  first_col ["cole_cod_depto_ubicacion"; "estu_cod_depto_presentacion";
             "estu_cod_reside_depto"] (lower_columns (poner_anio anio (contenido p)))
    = Some depto_col ->
  procesar p anio = Ret df ->
  (length (filas df) <= length (filas (contenido p)))%nat
  /\ "depto_normalizado" ∈ columns df
  /\ Forall (fun r =>
              (exists a, celda r "año" = Some a)
              /\ exists codigo, celda r "depto_normalizado" = Some (format_02d codigo))
            (filas df).
Proof.
  intros _ Hc (df1 & Hd & Hdf)%procesar_inv.
  fold (con_anio p anio) in Hc.
  destruct (poner_depto_filas _ _ _ Hc Hd) as [Hlen Hfilas].
  assert (Hdn : "depto_normalizado" ∈ columns df1).
  { apply (poner_depto_columns _ _ Hd). right. split; [done|]. by rewrite Hc. }
  split; [|split].
  - rewrite Hdf. cbn [dropna filas select].
    etrans; [apply length_filter|]. by rewrite length_map, Hlen, con_anio_length.
  - rewrite Hdf. cbn [dropna columns select].
    apply elem_of_columnas_seleccionadas. right. left. done.
  - apply Forall_forall. intros r Hr.
    destruct (procesar_filas_inv _ _ _ _ _ Hd Hdf Hr) as (Ha & Hn & r1 & Hr1 & Hsub).
    split.
    + destruct (celda r "año") as [a|]; [by exists a|done].
    + specialize (Hn Hdn). unfold celda in Hn |- *.
      destruct (r !! "depto_normalizado") as [[s|]|] eqn:E; try done.
      apply Hsub in E.
      destruct (Hfilas r1 Hr1) as (r0 & v & -> & Hv).
      rewrite lookup_insert in E. injection E as ->.
      apply normalizar_some in Hv as (codigo & _ & ->). by exists codigo.
Qed.

(** A file of the first term of 2019, with the column names in upper
    case as the ICFES publishes them. *)
Definition archivo_2019_con_depto : archivo :=
  {| stem := "Examen_Saber_11_20191";
     contenido :=
       {| columns := ["PERIODO"; "COLE_COD_DEPTO_UBICACION"; "PUNT_GLOBAL"; "ESTU_GENERO"];
          filas := [ {[ "PERIODO" := Some "20191"; "COLE_COD_DEPTO_UBICACION" := Some "5";
                        "PUNT_GLOBAL" := Some "300"; "ESTU_GENERO" := Some "F" ]};
                     {[ "PERIODO" := Some "20191"; "COLE_COD_DEPTO_UBICACION" := Some "";
                        "PUNT_GLOBAL" := Some "250"; "ESTU_GENERO" := Some "M" ]} ] |};
     error_lectura := None |}.

Lemma procesar_filas_witness :
  exists df, procesar archivo_2019_con_depto 2019 = Ret df
    /\ (length (filas df) <= length (filas (contenido archivo_2019_con_depto)))%nat
    /\ "depto_normalizado" ∈ columns df
    /\ Forall (fun r =>
                (exists a, celda r "año" = Some a)
                /\ exists codigo, celda r "depto_normalizado" = Some (format_02d codigo))
              (filas df).
Proof.
  destruct (procesar archivo_2019_con_depto 2019) as [df|e] eqn:E;
    [|vm_compute in E; discriminate].
  exists df. split; [reflexivity|].
  apply (procesar_filas archivo_2019_con_depto 2019 df "cole_cod_depto_ubicacion");
    [apply (bool_decide_unpack _); vm_compute; exact I|vm_compute; reflexivity|exact E].
Defined.

Example procesar_archivo_2019_con_depto :
  procesar archivo_2019_con_depto 2019
  = Ret {| columns := ["año"; "depto_normalizado"; "cole_cod_depto_ubicacion"; "punt_global"];
           filas := [ {[ "año" := Some "2019"; "depto_normalizado" := Some "05";
                         "cole_cod_depto_ubicacion" := Some "5";
                         "punt_global" := Some "300" ]} ] |}.
Proof. vm_compute. reflexivity. Qed.

Lemma procesar_head p anio df :
  procesar p anio = Ret df -> exists resto, columns df = "año" :: resto.
Proof. intros (df1 & _ & ->)%procesar_inv. eexists. reflexivity. Qed.

Lemma procesar_length p anio df :
  procesar p anio = Ret df -> (length (filas df) <= length (filas (contenido p)))%nat.
Proof.
  intros (df1 & Hd & ->)%procesar_inv. cbn [dropna filas select].
  etrans; [apply length_filter|].
  by rewrite length_map, (poner_depto_length _ _ Hd), con_anio_length.
Qed.

Lemma procesar_anio_presente p anio df r :
  procesar p anio = Ret df -> r ∈ filas df -> exists a, celda r "año" = Some a.
Proof.
  intros (df1 & Hd & Hdf)%procesar_inv Hr.
  destruct (procesar_filas_inv _ _ _ _ _ Hd Hdf Hr) as (Ha & _).
  destruct (celda r "año") as [a|]; [by exists a|done].
Qed.

Lemma length_records (dfs : list DataFrame) :
  length (concat (map (fun df => map (to_record (columns df)) (filas df)) dfs))
  = length (concat (map filas dfs)).
Proof.
  induction dfs as [|df dfs IH]; [done|].
  cbn [map concat]. by rewrite !length_app, length_map, IH.
Qed.

(** X7: what a run of the Consolidator writes: the row count of the
    manifest is the number of records in the output file, the header
    starts with the year column, every record starts with a non-missing
    year, and the rows written are at most the rows of the files
    accepted. The column names of each file accepted stay distinct
    once lower-cased. *)
Theorem run_registros (csvs : list archivo) (r : resultado) :
  Forall (fun pa => NoDup (map lower (columns (poner_anio pa.2 (contenido pa.1)))))
         (seleccionar csvs) ->
  run csvs = Ret r ->
  rows r = Z.of_nat (length (records r))
  /\ head (header r) = Some "año"
  /\ Forall (fun rec => exists a, head rec = Some (Some a)) (records r)
  /\ rows r <= Z.of_nat (length (concat (map (fun pa => filas (contenido pa.1))
                                             (seleccionar csvs)))).
Proof.
  intros _ Hr.
  assert (Hs : seleccionar csvs <> []).
  { intros Hs. apply run_file_not_found in Hs as [m Hm]. congruence. }
  rewrite run_unfold in Hr by done.
  destruct (mapM _ (seleccionar csvs)) as [dfs|e] eqn:HM; simpl in Hr; [|discriminate].
  injection Hr as <-. cbn [rows records header].
  apply mapM_res_Forall2 in HM.
  split; [by rewrite length_records|]. split; [|split].
  - destruct HM as [|pa df sel dfs Hp _]; [done|].
    cbn [head from_option]. apply procesar_head in Hp as [resto ->]. reflexivity.
  - clear Hs. induction HM as [|pa df sel dfs Hp _ IH]; [constructor|].
    cbn [map concat]. apply Forall_app. split; [|apply IH].
    apply Forall_forall. intros rec (row & -> & Hrow)%list_elem_of_fmap.
    destruct (procesar_anio_presente _ _ _ _ Hp Hrow) as [a Ha].
    apply procesar_head in Hp as [resto ->].
    exists a. cbn [to_record map head]. by rewrite Ha.
  - apply inj_le. clear Hs.
    induction HM as [|pa df sel dfs Hp _ IH]; [done|].
    cbn [map concat]. rewrite !length_app.
    apply procesar_length in Hp. lia.
Qed.

Lemma run_registros_witness :
  exists r, run [archivo_2019_con_depto; archivo_2019_periodo_2010] = Ret r
    /\ rows r = Z.of_nat (length (records r))
    /\ head (header r) = Some "año"
    /\ Forall (fun rec => exists a, head rec = Some (Some a)) (records r)
    /\ rows r <= Z.of_nat (length (concat (map (fun pa => filas (contenido pa.1))
                              (seleccionar [archivo_2019_con_depto; archivo_2019_periodo_2010])))).
Proof.
  destruct (run [archivo_2019_con_depto; archivo_2019_periodo_2010]) as [r|e] eqn:E;
    [|vm_compute in E; discriminate].
  exists r. split; [reflexivity|]. apply (run_registros _ _); [|exact E].
  assert (Hs : seleccionar [archivo_2019_con_depto; archivo_2019_periodo_2010]
               = [(archivo_2019_con_depto, 2019); (archivo_2019_periodo_2010, 2019)])
    by (vm_compute; reflexivity).
  rewrite Hs. repeat constructor; apply (bool_decide_unpack _); vm_compute; exact I.
Defined.

End ColumnasFacts.

(** ** The key columns and the order of the Lookup Normalizer *)

Module TransformApiColumnasFacts.
Import Py Pandas TransformApiColumnas MergeFacts.

Lemma renombrar_par_mismo df s : renombrar_par df (s, s) = df.
Proof. unfold renombrar_par. cbn [fst snd]. by destruct (has_col df s). Qed.

Lemma renombrar_unfold df :
  renombrar df =
    renombrar_par
      (renombrar_par (renombrar_par df ("a_o", "anio"))
                     ("c_digo_departamento_divipola", "depto_divipola"))
      ("valor_miles_de_millones_de", "valor_api_mm").
Proof. unfold renombrar, RENAME_MAP. cbn [fold_left]. by rewrite !renombrar_par_mismo. Qed.

(** The columns after one turn of the loop. *)
Lemma renombrar_par_otro df src dst c :
  c <> src -> c <> dst ->
  (c ∈ columns (renombrar_par df (src, dst)) <-> c ∈ columns df).
Proof.
  intros H1 H2. unfold renombrar_par. cbn [fst snd].
  destruct (has_col df src && negb (has_col df dst)); [|done].
  by apply rename_columns_elem.
Qed.

Lemma renombrar_par_destino df src dst :
  src <> dst ->
  (dst ∈ columns (renombrar_par df (src, dst)) <-> dst ∈ columns df \/ src ∈ columns df).
Proof.
  intros Hne. unfold renombrar_par, has_col. cbn [fst snd].
  destruct (bool_decide_reflect (src ∈ columns df)) as [Hs|Hs];
    destruct (bool_decide_reflect (dst ∈ columns df)) as [Hd|Hd]; cbn [andb negb];
    try tauto.
  split; [by right|]. intros _. by apply rename_columns_new.
Qed.

Lemma renombrar_par_filas df par :
  length (filas (renombrar_par df par)) = length (filas df).
Proof.
  unfold renombrar_par. destruct (_ && _); [|done]. cbn [rename filas]. by rewrite length_map.
Qed.

(** A cell under a name that a turn of the loop neither renames nor
    creates stays as it was. *)
Lemma renombrar_par_celda df src dst k :
  k <> src -> (k = dst -> dst ∈ columns df) ->
  Forall2 (fun r r' => r' !! k = r !! k) (filas df) (filas (renombrar_par df (src, dst))).
Proof.
  intros H1 H2. unfold renombrar_par, has_col. cbn [fst snd].
  destruct (bool_decide_reflect (src ∈ columns df)) as [Hs|Hs]; cbn [andb];
    [|by apply Forall_Forall2_diag, Forall_forall].
  destruct (bool_decide_reflect (dst ∈ columns df)) as [Hd|Hd]; cbn [negb];
    [by apply Forall_Forall2_diag, Forall_forall|].
  assert (k <> dst) by (intros ->; by apply Hd, H2).
  cbn [rename filas]. apply Forall2_fmap_r, Forall_Forall2_diag, Forall_forall.
  intros r _. unfold compose. cbv beta. destruct (r !! src) eqn:E; [|done].
  by rewrite lookup_insert_ne, lookup_delete_ne.
Qed.

Lemma renombrar_length df : length (filas (renombrar df)) = length (filas df).
Proof. rewrite renombrar_unfold. by rewrite !renombrar_par_filas. Qed.

Lemma misma_celda_trans (k : string) (l1 l2 l3 : list (gmap string cell)) :
  Forall2 (fun r r' => r' !! k = r !! k) l1 l2 ->
  Forall2 (fun r r' => r' !! k = r !! k) l2 l3 ->
  Forall2 (fun r r' => r' !! k = r !! k) l1 l3.
Proof.
  intros H. revert l3. induction H as [|r r' l1 l2 Hr _ IH]; intros l3 H3.
  - inversion H3. constructor.
  - inversion H3 as [|? r'' ? l3' Hr' H3']; subst. constructor; [congruence|by apply IH].
Qed.

Ltac distintas := let E := fresh in intros E; discriminate E.

Lemma renombrar_celda df k :
  k ∈ ["anio"; "depto_divipola"; "valor_api_mm"] -> k ∈ columns df ->
  Forall2 (fun r r' => r' !! k = r !! k) (filas df) (filas (renombrar df)).
Proof.
  intros Hk Hin. rewrite renombrar_unfold.
  set (df1 := renombrar_par df ("a_o", "anio")).
  set (df2 := renombrar_par df1 ("c_digo_departamento_divipola", "depto_divipola")).
  repeat (apply elem_of_cons in Hk as [->|Hk]); [| | |by apply elem_of_nil in Hk].
  - apply (misma_celda_trans _ _ (filas df2)); [apply (misma_celda_trans _ _ (filas df1))|];
      apply renombrar_par_celda; first [distintas | intros _; exact Hin].
  - assert (H1 : "depto_divipola" ∈ columns df1).
    { apply renombrar_par_otro; [distintas|distintas|exact Hin]. }
    apply (misma_celda_trans _ _ (filas df2)); [apply (misma_celda_trans _ _ (filas df1))|];
      apply renombrar_par_celda; first [distintas | intros _; exact H1].
  - assert (H1 : "valor_api_mm" ∈ columns df1).
    { apply renombrar_par_otro; [distintas|distintas|exact Hin]. }
    assert (H2 : "valor_api_mm" ∈ columns df2).
    { apply renombrar_par_otro; [distintas|distintas|exact H1]. }
    apply (misma_celda_trans _ _ (filas df2)); [apply (misma_celda_trans _ _ (filas df1))|];
      apply renombrar_par_celda; first [distintas | intros _; exact H2].
Qed.

Definition disponible (df : DataFrame) (estandar api : string) : Prop :=
  estandar ∈ columns df \/ api ∈ columns df.

Lemma columnas_renombrar df :
  ("anio" ∈ columns (renombrar df) <-> disponible df "anio" "a_o")
  /\ ("depto_divipola" ∈ columns (renombrar df)
      <-> disponible df "depto_divipola" "c_digo_departamento_divipola")
  /\ ("valor_api_mm" ∈ columns (renombrar df)
      <-> disponible df "valor_api_mm" "valor_miles_de_millones_de").
Proof.
  rewrite renombrar_unfold. unfold disponible. split; [|split].
  - rewrite !renombrar_par_otro by done. by apply renombrar_par_destino.
  - rewrite renombrar_par_otro, renombrar_par_destino by done.
    by rewrite !renombrar_par_otro.
  - rewrite renombrar_par_destino by done. by rewrite !renombrar_par_otro.
Qed.

Lemma missing_nil df :
  missing df = [] <->
  "anio" ∈ columns df /\ "depto_divipola" ∈ columns df /\ "valor_api_mm" ∈ columns df.
Proof.
  unfold missing, has_col. cbn [List.filter].
  destruct (bool_decide_reflect ("anio" ∈ columns df));
    destruct (bool_decide_reflect ("depto_divipola" ∈ columns df));
    destruct (bool_decide_reflect ("valor_api_mm" ∈ columns df)); cbn [negb];
    split; try done; tauto.
Qed.

(** X8: the check of the key columns of the Lookup Normalizer. The
    run passes step 3 exactly when each of the three key columns is in
    the raw file under its standard name or under the name that the API
    gives it; otherwise it raises RuntimeError. When it passes, the
    rows are all kept, the three standard names are columns, and a
    column that already had the standard name is left as it was,
    whatever the column with the API name holds. *)
Theorem columnas_clave (repr_list : list string -> string) (df : DataFrame) :
  (returns (columnas_estandar repr_list df) <->
     disponible df "anio" "a_o"
     /\ disponible df "depto_divipola" "c_digo_departamento_divipola"
     /\ disponible df "valor_api_mm" "valor_miles_de_millones_de")
  /\ (forall e, columnas_estandar repr_list df = Raise e -> exists msg, e = RuntimeError msg)
  /\ (forall df', columnas_estandar repr_list df = Ret df' ->
        length (filas df') = length (filas df)
        /\ forall k, k ∈ ["anio"; "depto_divipola"; "valor_api_mm"] ->
             k ∈ columns df' /\
             (k ∈ columns df ->
              Forall2 (fun r r' => r' !! k = r !! k) (filas df) (filas df'))).
Proof.
  pose proof (columnas_renombrar df) as (H1 & H2 & H3).
  pose proof (missing_nil (renombrar df)) as Hm.
  pose proof (renombrar_length df) as Hlen.
  pose proof (renombrar_celda df) as Hcel.
  unfold columnas_estandar.
  generalize dependent (renombrar df). intros df0 H1 H2 H3 Hm Hlen Hcel.
  destruct (bool_decide_reflect (missing df0 = [])) as [E|E]; cbn [negb].
  - split; [|split].
    + split; [intros _; tauto|intros _; by eexists].
    + intros e He. discriminate He.
    + intros df' He. injection He as <-. apply Hm in E as (E1 & E2 & E3).
      split; [exact Hlen|].
      intros k Hk. split; [|by apply Hcel].
      repeat (apply elem_of_cons in Hk as [->|Hk]);
        [assumption|assumption|assumption|by apply elem_of_nil in Hk].
  - split; [|split].
    + split; [intros [df' He]; discriminate He|].
      intros (?%H1 & ?%H2 & ?%H3). exfalso. apply E, Hm. tauto.
    + intros e He. injection He as <-. by eexists.
    + intros df' He. discriminate He.
Qed.

End TransformApiColumnasFacts.

Module TransformApiOrden.
Import Py TransformApi TransformApiFacts.

Section Orden.
Context {V : Type}.

Definition clave_le (k1 k2 : Z * Z) : Prop := k1.1 < k2.1 \/ (k1.1 = k2.1 /\ k1.2 <= k2.2).

(** The order of the rows of the output: by year, then by code. *)
Definition clave_lt (k1 k2 : Z * Z) : Prop := k1.1 < k2.1 \/ (k1.1 = k2.1 /\ k1.2 < k2.2).

Lemma clave_leb_le k1 k2 : clave_leb k1 k2 = true <-> clave_le k1 k2.
Proof.
  unfold clave_leb, clave_le.
  rewrite orb_true_iff, andb_true_iff, Z.ltb_lt, Z.eqb_eq, Z.leb_le. reflexivity.
Qed.

Lemma clave_leb_false k1 k2 : clave_leb k1 k2 = false -> clave_le k2 k1.
Proof.
  unfold clave_leb, clave_le.
  rewrite orb_false_iff, andb_false_iff, Z.ltb_ge, Z.eqb_neq, Z.leb_gt. lia.
Qed.

Lemma clave_le_trans k1 k2 k3 : clave_le k1 k2 -> clave_le k2 k3 -> clave_le k1 k3.
Proof. unfold clave_le. lia. Qed.

Definition grupos_le (g g' : (Z * Z) * list (limpia V)) : Prop := clave_le g.1 g'.1.

Lemma insert_group_sorted (g : (Z * Z) * list (limpia V)) gs :
  StronglySorted grupos_le gs -> StronglySorted grupos_le (insert_group g gs).
Proof.
  induction 1 as [|g' gs Hs IH Hall]; cbn [insert_group].
  - repeat constructor.
  - destruct (clave_leb g.1 g'.1) eqn:E.
    + apply clave_leb_le in E. constructor; [by constructor|].
      constructor; [exact E|].
      eapply Forall_impl; [exact Hall|]. intros x Hx. eapply clave_le_trans; eauto.
    + apply clave_leb_false in E. constructor; [exact IH|].
      rewrite insert_group_perm. by constructor.
Qed.

Lemma groupby_sorted (df : list (limpia V)) : StronglySorted grupos_le (groupby df).
Proof.
  unfold groupby. induction (split_groups df) as [|g gs IH]; [constructor|].
  cbn [foldr]. by apply insert_group_sorted.
Qed.

Lemma sorted_NoDup_strict (ks : list (Z * Z)) :
  StronglySorted clave_le ks -> NoDup ks -> StronglySorted clave_lt ks.
Proof.
  induction 1 as [|k ks Hs IH Hall]; [constructor|].
  intros [Hk Hnd]%NoDup_cons. constructor; [by apply IH|].
  apply Forall_forall. intros k' Hk'.
  rewrite Forall_forall in Hall. specialize (Hall k' Hk').
  assert (k <> k') by (by intros ->).
  destruct k as [a d], k' as [a' d']. unfold clave_le, clave_lt in *. cbn in *.
  destruct Hall as [?|[-> ?]]; [by left|right]. split; [done|].
  assert (d <> d') by congruence. lia.
Qed.

Lemma sorted_map_fst (gs : list ((Z * Z) * list (limpia V))) :
  StronglySorted grupos_le gs -> StronglySorted clave_le (map fst gs).
Proof.
  induction 1 as [|g gs Hs IH Hall]; [constructor|].
  cbn [map]. constructor; [done|]. apply Forall_forall.
  intros k (g' & -> & Hg')%list_elem_of_fmap.
  rewrite Forall_forall in Hall. by apply Hall.
Qed.

End Orden.

(** X9: the rows that the Lookup Normalizer writes are in strictly
    increasing order of (year, code), the codes compared as numbers. *)
Theorem run_ordenado {V : Type} (vsum : list V -> V) (df : list (fila V))
    (out : list (agregada V)) :
  run vsum df = Ret out ->
  StronglySorted clave_lt (map (fun o => (g_anio o, g_depto o)) out).
Proof.
  unfold run. destruct (length (dropna df) =? 0)%nat; [discriminate|].
  intros [= <-].
  assert (Hmap : map (fun o => (g_anio o, g_depto o)) (map (agg vsum) (groupby (dropna df)))
                 = map fst (groupby (dropna df))).
  { rewrite map_map. apply map_ext. intros [[a d] rs]. reflexivity. }
  rewrite Hmap. apply sorted_NoDup_strict.
  - apply sorted_map_fst, groupby_sorted.
  - apply groupby_spec.
Qed.

Lemma run_ordenado_witness :
  exists out, run zsum pib_crudo = Ret out
    /\ StronglySorted clave_lt (map (fun o => (g_anio o, g_depto o)) out).
Proof.
  destruct (run zsum pib_crudo) as [out|e] eqn:E; [|vm_compute in E; discriminate].
  exists out. split; [reflexivity|]. exact (run_ordenado zsum pib_crudo out E).
Defined.

End TransformApiOrden.

(** ** The download of [extract_api.py] *)

Module ExtractApiFacts.
Import Py ExtractApi.

Lemma descargar_servidor {registro : Type} (datos : list registro) (page_limit : nat)
    (fuel offset : nat) (all_rows : list registro) :
  (0 < page_limit)%nat ->
  (length (drop offset datos) < fuel)%nat ->
  descargar registro (servidor datos) fuel page_limit offset all_rows
  = Some (all_rows ++ drop offset datos).
Proof.
  intros Hp. revert offset all_rows.
  induction fuel as [|fuel IH]; intros offset all_rows Hf; [lia|].
  cbn [descargar]. unfold servidor at 1.
  destruct (take page_limit (drop offset datos)) as [|x batch] eqn:E.
  - assert (Hd : drop offset datos = []).
    { destruct (drop offset datos); [done|]. destruct page_limit; [lia|discriminate E]. }
    by rewrite Hd, app_nil_r.
  - rewrite IH.
    + rewrite <- E, <- app_assoc. f_equal.
      rewrite <- (take_drop page_limit (drop offset datos)) at 2.
      f_equal. rewrite drop_drop. f_equal. 
    + rewrite <- drop_drop. rewrite length_drop.
      assert (length (drop offset datos) <> 0)%nat.
      { intros H0. apply length_zero_iff_nil in H0. by rewrite H0, take_nil in E. }
      lia.
Qed.

(** X10: against a server that pages its records, the download loop
    ends and brings every record once, in order, whatever the page
    size; an empty dataset is the RuntimeError of line 53. A number of
    requests above the number of records is enough. *)
Theorem descarga_completa {registro : Type} (datos : list registro) (page_limit fuel : nat) :
  (0 < page_limit)%nat ->
  (length datos < fuel)%nat ->
  run_online registro (servidor datos) fuel page_limit
  = Some (match datos with
          | [] => Raise (RuntimeError "[extract_api] La API devolvió 0 filas.")
          | _ => Ret datos
          end).
Proof.
  intros Hp Hf. unfold run_online.
  rewrite (descargar_servidor datos page_limit fuel 0 [] Hp) by (by rewrite drop_0).
  rewrite drop_0, app_nil_l. by destruct datos.
Qed.

Lemma descarga_completa_witness :
  run_online nat (servidor [1; 2; 3; 4; 5]%nat) 6 2 = Some (Ret [1; 2; 3; 4; 5]%nat).
Proof. apply (descarga_completa [1; 2; 3; 4; 5]%nat 2 6); cbn; lia. Defined.

End ExtractApiFacts.

(** ** The statistics of the Join and Imputation Engine *)

Module EstadisticasFacts.
Import Py Pandas Merge ResFacts MergeFacts.

Section Engine.
Context {V : Type}.
Variable fmean : V -> list V -> option V.

Lemma run_Ret_claves (df_pib : list (pib_row V)) chunks st :
  run fmean df_pib chunks = Ret st ->
  chunks <> [] /\ forall chunk, chunk ∈ chunks -> tiene_claves chunk = true.
Proof.
  intros Hr. split.
  - intros ->. rewrite run_nil in Hr. discriminate Hr.
  - intros chunk Hin. destruct (tiene_claves chunk) eqn:E; [done|].
    destruct (proj2 (run_runtime_error fmean df_pib chunks)) as [msg Hm]; [by exists chunk|].
    rewrite Hm in Hr. discriminate Hr.
Qed.

(** What a returned run holds, by batch. *)
Lemma run_Ret_inv (df_pib : list (pib_row V)) chunks st :
  run fmean df_pib chunks = Ret st ->
  exists cms,
    Forall2 (fun chunk cm => unir df_pib chunk = Ret cm) chunks cms
    /\ ddm_filas st = concat (map (fun cm => m_filas (imputar fmean cm)) cms)
    /\ total_rows st = Z.of_nat (length (ddm_filas st))
    /\ rows_with_pib st = suma (map (fun cm => notna_sum (m_filas cm)) cms)
    /\ rows_without_pib st = total_rows st - rows_with_pib st
    /\ pib_coverage st =
         if 0 <? total_rows st
         then (inject_Z (rows_with_pib st) / inject_Z (total_rows st))%Q else 0%Q.
Proof.
  intros Hr. destruct (run_Ret_claves _ _ _ Hr) as [Hne Hk].
  destruct (mapM_unir_returns df_pib chunks Hk) as (cms & Hcms & HF).
  pose proof (mapM_procesar_unir fmean df_pib chunks cms Hcms) as HM.
  assert (Hne' : map (fun cm => (imputar fmean cm, notna_sum (m_filas cm))) cms <> []).
  { apply Forall2_length in HF. destruct chunks; [congruence |]. destruct cms; discriminate. }
  destruct (run_ret fmean df_pib chunks _ HM Hne') as (st' & Hst & H1 & H2 & H3 & H4 & H5).
  rewrite Hr in Hst. injection Hst as <-.
  rewrite map_map in H1, H3. cbn [fst snd] in H1, H3.
  exists cms. done.
Qed.

Lemma notna_sum_rango (ms : list (fila_merged V)) :
  0 <= notna_sum ms <= Z.of_nat (length ms).
Proof.
  unfold notna_sum. split; [lia|]. apply inj_le, List.filter_length_le.
Qed.

Lemma suma_notna_rango (cms : list (frame_merged V)) :
  0 <= suma (map (fun cm => notna_sum (m_filas cm)) cms)
    <= Z.of_nat (length (concat (map (fun cm => m_filas (imputar fmean cm)) cms))).
Proof.
  induction cms as [|cm cms IH]; cbn [map suma foldr concat]; [lia|].
  rewrite length_app, length_imputar. fold (suma (map (fun cm => notna_sum (m_filas cm)) cms)).
  pose proof (notna_sum_rango (m_filas cm)). lia.
Qed.

Lemma cociente_rango (a b : Z) :
  0 <= a <= b -> 0 < b -> (0 <= inject_Z a / inject_Z b <= 1)%Q.
Proof.
  intros Ha Hb.
  assert (Hb' : (0 < inject_Z b)%Q) by (unfold Qlt, inject_Z; simpl; lia).
  split.
  - apply Qle_shift_div_l; [exact Hb'|]. unfold Qle, Qmult, inject_Z. simpl. lia.
  - apply Qle_shift_div_r; [exact Hb'|]. unfold Qle, Qmult, inject_Z. simpl. lia.
Qed.


End Engine.

(** X11: the statistics of a run of the Join and Imputation Engine
    are consistent, whatever the lookup table holds: the rows with a
    value are between 0 and the total, the rows without are not
    negative, the two add up to the total, and the coverage is between
    0 and 1. *)
Theorem estadisticas_acotadas {V : Type} (fmean : V -> list V -> option V)
    (df_pib : list (pib_row V)) (chunks : list DataFrame) (st : stats V) :
  run fmean df_pib chunks = Ret st ->
  0 <= rows_with_pib st <= total_rows st
  /\ 0 <= rows_without_pib st
  /\ rows_with_pib st + rows_without_pib st = total_rows st
  /\ (0 <= pib_coverage st <= 1)%Q.
Proof.
  intros (cms & HF & H1 & H2 & H3 & H4 & H5)%run_Ret_inv.
  pose proof (suma_notna_rango fmean cms) as Hs.
  rewrite <- H1, <- H2, <- H3 in Hs.
  split; [exact Hs|]. split; [lia|]. split; [lia|].
  rewrite H5. destruct (Z.ltb_spec 0 (total_rows st)).
  - by apply cociente_rango.
  - split; [apply Qle_refl|]. unfold Qle. simpl. lia.
Qed.

Lemma estadisticas_acotadas_witness :
  exists st, run zmean pib_duplicado [chunk_ejemplo] = Ret st
    /\ 0 <= rows_with_pib st <= total_rows st
    /\ 0 <= rows_without_pib st
    /\ rows_with_pib st + rows_without_pib st = total_rows st
    /\ (0 <= pib_coverage st <= 1)%Q.
Proof.
  destruct (run zmean pib_duplicado [chunk_ejemplo]) as [st|e] eqn:E;
    [|vm_compute in E; discriminate].
  exists st. split; [reflexivity|]. exact (estadisticas_acotadas _ _ _ _ E).
Defined.



(** X13: the run stops on a division by zero (the summary of line
    194) exactly when the reader yields no batch. *)
Theorem run_sin_lotes {V : Type} (fmean : V -> list V -> option V)
    (df_pib : list (pib_row V)) (chunks : list DataFrame) :
  run fmean df_pib chunks = Raise ZeroDivisionError <-> chunks = [].
Proof.
  split; [|intros ->; apply run_nil].
  intros Hr. destruct chunks as [|chunk rest]; [done|]. exfalso.
  destruct (mapM (procesar_chunk fmean df_pib) (chunk :: rest)) as [rs|e] eqn:HM.
  - assert (Hne : rs <> []).
    { apply mapM_res_length in HM. by destruct rs. }
    destruct (run_ret fmean df_pib _ rs HM Hne) as (st & Hst & _).
    rewrite Hst in Hr. discriminate Hr.
  - pose proof HM as HM'. apply mapM_res_raise in HM' as (c & _ & Hc).
    apply procesar_chunk_raises in Hc as [_ [msg ->]].
    rewrite (run_raise fmean df_pib _ _ HM) in Hr. discriminate Hr.
Qed.

End EstadisticasFacts.

(** ** The stages together *)

Module PipelineFacts.
Import Py Pandas Merge ResFacts PyFacts ConsolidatorFacts TransformApiFacts MergeFacts EstadisticasFacts.

(** Reading back the decimal text of an integer. *)
Lemma int_of_str_str_int z : int_of_str (str_int z) = Some z.
Proof.
  unfold int_of_str, str_int.
  assert (Hok : Z.to_int z <> Pos Nil /\ Z.to_int z <> Neg Nil).
  { destruct z as [|p|p]; simpl; split; try discriminate; intros [= E];
      pose proof (DecimalPos.Unsigned.of_to p) as Hp; rewrite E in Hp; discriminate. }
  rewrite (NilZero.isi (Z.to_int z) (proj1 Hok) (proj2 Hok)). cbn [option_map].
  by rewrite DecimalZ.of_to.
Qed.

(** The text that [format_02d] pads is the text of no integer. *)
Lemma format_02d_un_digito z d : 0 <= z <= 9 -> str_int d <> format_02d z.
Proof.
  intros Hz E.
  assert (Hd : int_of_str (format_02d z) = Some d) by (rewrite <- E; apply int_of_str_str_int).
  assert (Hcases : z = 0 \/ z = 1 \/ z = 2 \/ z = 3 \/ z = 4 \/ z = 5 \/ z = 6 \/ z = 7
                   \/ z = 8 \/ z = 9) by lia.
  repeat (destruct Hcases as [->|Hcases]); try subst z;
    vm_compute in Hd; injection Hd as <-; vm_compute in E; discriminate E.
Qed.

Lemma format_02d_dos_digitos z : z < 0 \/ 10 <= z -> format_02d z = str_int z.
Proof.
  intros Hz. unfold format_02d.
  destruct (Nat.ltb_spec (String.length (str_int z)) 2) as [Hl|Hl]; [|done]. exfalso.
  destruct (str_int_shape z) as (d & Hd & Hv & Hs). rewrite Hs in Hl.
  destruct (Z.ltb_spec z 0) as [Hneg|Hpos].
  - unfold digits in Hl. destruct d; [done|..]; cbn in Hl; clear - Hl; lia.
  - assert (H10 : 10 <= Z.of_uint d) by lia. clear - H10 Hl Hd.
    unfold digits in Hl.
    destruct d as [|d|d|d|d|d|d|d|d|d|d]; [done|..];
      (destruct d; [exfalso; apply H10; reflexivity|..]; cbn in Hl; clear - Hl; lia).
Qed.

Section Engine.
Context {V : Type}.

Lemma coincidencias_un_digito (out : list (TransformApi.agregada V)) (a : string) (z : Z) :
  0 <= z <= 9 -> coincidencias (leer_pib out) (a, format_02d z) = [].
Proof.
  intros Hz. unfold coincidencias, leer_pib.
  induction out as [|o out IH]; [done|].
  cbn [map List.filter anio_pib depto_codigo fst snd].
  rewrite bool_decide_eq_false_2; [exact IH|].
  intros [_ [= E]]. by apply (format_02d_un_digito z (TransformApi.g_depto o)).
Qed.

End Engine.

(** X14: a row whose normalized code is that of a department below 10
    finds no row of the table that the Lookup Normalizer writes, in any
    year: the Consolidator pads the code with a zero and the Lookup
    Normalizer writes the number without it. From 10 on the two texts
    agree. *)
Theorem codigo_de_un_digito_sin_pib {V : Type} (out : list (TransformApi.agregada V))
    (tiene_departamento : bool) (r : gmap string cell) (z : Z) :
  0 <= z <= 9 ->
  celda r "depto_normalizado" = Some (format_02d z) ->
  merge_fila (leer_pib out) "depto_normalizado" tiene_departamento r
  = [mkMerged (campos_salida tiene_departamento r None) None]
  /\ forall d, 10 <= d -> format_02d d = str_int d.
Proof.
  intros Hz Hr. split.
  - assert (Hk : clave_merge "depto_normalizado" r
                 = (astype_str (celda r "año"), format_02d z))
      by (unfold clave_merge; rewrite Hr; reflexivity).
    unfold merge_fila. rewrite Hk. by rewrite coincidencias_un_digito.
  - intros d Hd. apply format_02d_dos_digitos. by right.
Qed.

Lemma codigo_de_un_digito_sin_pib_witness :
  merge_fila pib_normalizado "depto_normalizado" false
    {[ "año" := Some "2019"; "depto_normalizado" := Some (format_02d 5) ]}
  = [mkMerged (campos_salida false
                 {[ "año" := Some "2019"; "depto_normalizado" := Some (format_02d 5) ]} None) None]
  /\ forall d, 10 <= d -> format_02d d = str_int d.
Proof.
  apply (codigo_de_un_digito_sin_pib
           [ TransformApi.mkAgregada 2019 5 "Antioquia" 120;
             TransformApi.mkAgregada 2019 11 "Bogotá" 200 ]
           false {[ "año" := Some "2019"; "depto_normalizado" := Some (format_02d 5) ]} 5);
    [lia|reflexivity].
Defined.

Lemma run_claves_unicas {V : Type} (vsum : list V -> V) (df : list (TransformApi.fila V))
    (out : list (TransformApi.agregada V)) :
  TransformApi.run vsum df = Ret out -> NoDup (map clave_pib (leer_pib out)).
Proof.
  unfold TransformApi.run. destruct (length (TransformApi.dropna df) =? 0)%nat; [discriminate|].
  intros [= <-]. apply leer_pib_NoDup.
  assert (Hmap : map (fun o => (TransformApi.g_anio o, TransformApi.g_depto o))
                     (map (TransformApi.agg vsum) (TransformApi.groupby (TransformApi.dropna df)))
                 = map fst (TransformApi.groupby (TransformApi.dropna df))).
  { rewrite map_map. apply map_ext. intros [[a d] rs]. reflexivity. }
  rewrite Hmap. apply groupby_spec.
Qed.

Lemma notna_isna {V : Type} (ms : list (fila_merged V)) :
  notna_sum ms + isna_sum ms = Z.of_nat (length ms).
Proof.
  unfold notna_sum, isna_sum. induction ms as [|m ms IH]; [done|].
  cbn [List.filter length]. destruct (pib_departamental_mm m) as [v|].
  - rewrite bool_decide_eq_true_2, bool_decide_eq_false_2 by done. cbn [length]. lia.
  - rewrite bool_decide_eq_false_2, bool_decide_eq_true_2 by (try done; by intros []).
    cbn [length]. lia.
Qed.

(** X15: the table that the Lookup Normalizer writes has a unique join
    key when the engine reads it back; with it the engine writes and
    counts exactly the rows it reads, the imputation pass changes
    nothing, and the two counters are the numbers of rows with and
    without a value in the file written. *)
Theorem tabla_del_normalizador {V : Type} (vsum : list V -> V)
    (fmean : V -> list V -> option V) (df : list (TransformApi.fila V))
    (out : list (TransformApi.agregada V)) (chunks : list DataFrame) (st : stats V) :
  TransformApi.run vsum df = Ret out ->
  run fmean (leer_pib out) chunks = Ret st ->
  NoDup (map clave_pib (leer_pib out))
  /\ total_rows st = Z.of_nat (length (concat (map filas chunks)))
  /\ rows_with_pib st = notna_sum (ddm_filas st)
  /\ rows_without_pib st = isna_sum (ddm_filas st)
  /\ Forall (fun chunk => exists cm, unir (leer_pib out) chunk = Ret cm
                                     /\ imputar fmean cm = cm) chunks.
Proof.
  intros Hout Hr. pose proof (run_claves_unicas vsum df out Hout) as Hnd.
  split; [exact Hnd|].
  destruct (run_Ret_inv fmean _ _ _ Hr) as (cms & HF & H1 & H2 & H3 & H4 & _).
  assert (Hid : Forall (fun cm => imputar fmean cm = cm) cms).
  { apply Forall_forall. intros cm Hin.
    apply list_elem_of_lookup in Hin as [i Hi].
    destruct (Forall2_lookup_r _ _ _ _ _ HF Hi) as (chunk & _ & Hu).
    exact (unir_imputar_id fmean _ chunk cm Hnd Hu). }
  assert (Hfilas : ddm_filas st = concat (map m_filas cms)).
  { rewrite H1. f_equal. apply Forall_fmap_ext_1.
    eapply Forall_impl; [exact Hid|]. by intros cm ->. }
  assert (Hwith : rows_with_pib st = notna_sum (ddm_filas st)).
  { by rewrite H3, Hfilas, notna_sum_concat, map_map. }
  split; [|split; [exact Hwith|split]].
  - rewrite H2, Hfilas. f_equal. clear - HF Hnd.
    induction HF as [|chunk cm chunks cms Hu _ IH]; [done|].
    cbn [map concat]. rewrite !length_app, IH.
    by rewrite (proj2 (unir_length _ _ _ Hu) Hnd).
  - rewrite H4, H2, Hwith. pose proof (notna_isna (ddm_filas st)). lia.
  - apply Forall_forall. intros chunk Hin.
    apply list_elem_of_lookup in Hin as [i Hi].
    destruct (Forall2_lookup_l _ _ _ _ _ HF Hi) as (cm & Hcm & Hu).
    exists cm. split; [exact Hu|].
    apply list_elem_of_lookup_2 in Hcm. rewrite Forall_forall in Hid. by apply Hid.
Qed.

Lemma tabla_del_normalizador_witness :
  exists out st,
    TransformApi.run zsum pib_crudo = Ret out
    /\ run zmean (leer_pib out) [chunk_ejemplo] = Ret st
    /\ NoDup (map clave_pib (leer_pib out))
    /\ total_rows st = Z.of_nat (length (concat (map filas [chunk_ejemplo])))
    /\ rows_with_pib st = notna_sum (ddm_filas st)
    /\ rows_without_pib st = isna_sum (ddm_filas st)
    /\ Forall (fun chunk => exists cm, unir (leer_pib out) chunk = Ret cm
                                       /\ imputar zmean cm = cm) [chunk_ejemplo].
Proof.
  destruct (TransformApi.run zsum pib_crudo) as [out|e] eqn:E1;
    [|vm_compute in E1; discriminate].
  destruct (run zmean (leer_pib out) [chunk_ejemplo]) as [st|e] eqn:E2.
  - exists out, st. split; [reflexivity|]. split; [exact E2|].
    exact (tabla_del_normalizador zsum zmean pib_crudo out [chunk_ejemplo] st E1 E2).
  - exfalso. rewrite run_pib_crudo in E1. injection E1 as <-.
    vm_compute in E2. discriminate E2.
Defined.

End PipelineFacts.

(** ** The file search and the quoting of the Bulk Loader *)

Module LoadDwRutasFacts.
Import Py LoadDwRutas.

Lemma buscar_find (ruta : Type) (str : ruta -> string) (existe : ruta -> bool)
    (alts : list ruta) (tried : list string) :
  match List.find existe alts with
  | Some p => buscar ruta str existe alts tried = inl p
  | None =>
      exists tried', buscar ruta str existe alts tried = inr tried'
        /\ (NoDup tried -> NoDup tried')
        /\ (forall s, s ∈ tried' <-> s ∈ tried \/ s ∈ map str alts)
  end.
Proof.
  revert tried. induction alts as [|alt rest IH]; intros tried; cbn [List.find buscar].
  - exists tried. split; [done|]. split; [done|]. intros s. split; [by left|].
    by intros [?|?%elem_of_nil].
  - destruct (existe alt); [done|].
    set (tried1 := if bool_decide (str alt ∈ tried) then tried else tried ++ [str alt]).
    assert (H1 : NoDup tried -> NoDup tried1).
    { intros Hnd. subst tried1. destruct (bool_decide_reflect (str alt ∈ tried)); [done|].
      apply NoDup_app. split; [done|]. split; [|apply NoDup_singleton].
      intros x Hx ->%list_elem_of_singleton. done. }
    assert (H2 : forall s, s ∈ tried1 <-> s ∈ tried \/ s = str alt).
    { intros s. subst tried1. destruct (bool_decide_reflect (str alt ∈ tried)).
      - split; [by left|]. by intros [?| ->].
      - by rewrite elem_of_app, list_elem_of_singleton. }
    specialize (IH tried1). destruct (List.find existe rest); [done|].
    destruct IH as (tried' & -> & Hnd & Hin). exists tried'. split; [done|].
    split; [by intros ?%H1%Hnd|].
    intros s. rewrite Hin, H2. cbn [map]. rewrite elem_of_cons. tauto.
Qed.

(** X16: the file that the Bulk Loader reads is the first that exists
    among the path given (or the default one) and the five alternative
    locations, in this order; when none exists the run raises
    FileNotFoundError, and the paths listed in its message are those
    six, each once. *)
Theorem busqueda_del_csv (ruta : Type) (DATA_DIR STAGING : ruta)
    (sobre : ruta -> string -> ruta) (name : ruta -> string) (str : ruta -> string)
    (existe : ruta -> bool) (path : option ruta) :
  match List.find existe
          (from_option id (DEFAULT_DDM ruta STAGING sobre) path
           :: alt_paths ruta DATA_DIR STAGING sobre name
                (from_option id (DEFAULT_DDM ruta STAGING sobre) path)) with
  | Some p => csv_encontrado ruta DATA_DIR STAGING sobre name str existe path = Ret p
  | None =>
      exists tried,
        csv_encontrado ruta DATA_DIR STAGING sobre name str existe path
        = Raise (FileNotFoundError (mensaje ruta DATA_DIR sobre str tried))
        /\ NoDup tried
        /\ forall s, s ∈ tried <->
             s ∈ map str (from_option id (DEFAULT_DDM ruta STAGING sobre) path
                          :: alt_paths ruta DATA_DIR STAGING sobre name
                               (from_option id (DEFAULT_DDM ruta STAGING sobre) path))
  end.
Proof.
  unfold csv_encontrado.
  set (csv_path := from_option id (DEFAULT_DDM ruta STAGING sobre) path).
  cbn [List.find]. destruct (existe csv_path); [done|].
  pose proof (buscar_find ruta str existe
                (alt_paths ruta DATA_DIR STAGING sobre name csv_path) [str csv_path]) as H.
  destruct (List.find existe (alt_paths ruta DATA_DIR STAGING sobre name csv_path)).
  - by rewrite H.
  - destruct H as (tried & -> & Hnd & Hin). exists tried. split; [done|].
    split; [apply Hnd, NoDup_singleton|].
    intros s. rewrite Hin, list_elem_of_singleton. cbn [map]. by rewrite elem_of_cons.
Qed.

End LoadDwRutasFacts.

Module SqlFacts.
Import Py LoadDw Sql.

Lemma leer_citado_cierre resto :
  sin_comilla_inicial resto = true -> leer_citado (quote +:+ resto) = Some ("", resto).
Proof.
  intros H. change (quote +:+ resto) with (String comilla resto).
  cbn [leer_citado]. rewrite Ascii.eqb_refl.
  destruct resto as [|c2 resto]; [done|].
  cbn [sin_comilla_inicial] in H. apply negb_true_iff in H. by rewrite H.
Qed.

Lemma leer_citado_replace_quote col resto :
  sin_comilla_inicial resto = true ->
  leer_citado (replace_quote col +:+ quote +:+ resto) = Some (col, resto).
Proof.
  intros H. induction col as [|c col IH]; [by apply leer_citado_cierre|].
  cbn [replace_quote]. destruct (Ascii.eqb_spec c comilla) as [->|Hc].
  - change (String comilla (String comilla (replace_quote col)) +:+ quote +:+ resto)
      with (String comilla (String comilla (replace_quote col +:+ quote +:+ resto))).
    cbn [leer_citado]. rewrite Ascii.eqb_refl. by rewrite IH.
  - change (String c (replace_quote col) +:+ quote +:+ resto)
      with (String c (replace_quote col +:+ quote +:+ resto)).
    cbn [leer_citado]. apply Ascii.eqb_neq in Hc. by rewrite Hc, IH.
Qed.

Lemma contains_comilla_cons c s :
  contains quote (String c s) = Ascii.eqb c comilla || contains quote s.
Proof.
  cbn [contains]. f_equal. unfold quote. cbn [String.prefix].
  destruct (ascii_dec comilla c) as [<-|Hne].
  - rewrite Ascii.eqb_refl. by destruct s.
  - symmetry. apply Ascii.eqb_neq. congruence.
Qed.

Lemma sin_comilla_cons c s :
  sin_comilla (String c s) = negb (Ascii.eqb c comilla) && sin_comilla s.
Proof. unfold sin_comilla. by rewrite contains_comilla_cons, negb_orb. Qed.

Lemma replace_quote_sin_comilla s : sin_comilla s = true -> replace_quote s = s.
Proof.
  induction s as [|c s IH]; [done|].
  rewrite sin_comilla_cons. intros [Hc Hs]%andb_true_iff.
  cbn [replace_quote]. apply negb_true_iff in Hc. by rewrite Hc, IH.
Qed.

(** What is read is never longer than what was written, and is as long
    only when no doubled quote was met. *)
Lemma leer_citado_length (k : nat) s n r :
  (String.length s <= k)%nat ->
  leer_citado s = Some (n, r) ->
  (String.length n + 1 + String.length r <= String.length s)%nat
  /\ ((String.length n + 1 + String.length r = String.length s)%nat -> sin_comilla n = true).
Proof.
  revert s n r. induction k as [|k IH]; intros s n r Hk.
  - destruct s; [discriminate|]. cbn in Hk. lia.
  - destruct s as [|c s]; [discriminate|]. cbn [leer_citado].
    destruct (Ascii.eqb c comilla) eqn:Ec.
    + destruct s as [|c2 s].
      * intros [= <- <-]. cbn. split; [lia|done].
      * destruct (Ascii.eqb c2 comilla) eqn:Ec2.
        -- destruct (leer_citado s) as [[n' r']|] eqn:E; [|discriminate].
           intros [= <- <-]. cbn [String.length] in *.
           destruct (IH s n' r') as [H1 _]; [lia|done|]. split; lia.
        -- intros [= <- <-]. cbn [String.length]. split; [lia|done].
    + destruct (leer_citado s) as [[n' r']|] eqn:E; [|discriminate].
      intros [= <- <-]. cbn [String.length] in *.
      destruct (IH s n' r') as [H1 H2]; [lia|done|]. split; [lia|].
      intros Hl. rewrite sin_comilla_cons, Ec. cbn [negb andb]. apply H2. lia.
Qed.

Lemma length_append (s1 s2 : string) :
  String.length (s1 +:+ s2) = (String.length s1 + String.length s2)%nat.
Proof.
  induction s1 as [|c s1 IH]; [done|].
  change (String c s1 +:+ s2) with (String c (s1 +:+ s2)).
  cbn [String.length]. by rewrite IH.
Qed.

(** X17: the column definitions of [_ddl] double the quotes of a
    name, and the name is read back as it was; the column list of
    [COPY] writes the name between quotes as it is, which reads back
    as the name exactly when the name has no quote. *)
Theorem nombres_entre_comillas (col resto : string) :
  sin_comilla_inicial resto = true ->
  leer_citado (replace_quote col +:+ quote +:+ resto) = Some (col, resto)
  /\ (leer_citado (col +:+ quote +:+ resto) = Some (col, resto) <-> sin_comilla col = true).
Proof.
  intros H. split; [by apply leer_citado_replace_quote|]. split.
  - intros E.
    apply (leer_citado_length _ _ _ _ (Nat.le_refl _)) in E as [_ E]. apply E.
    rewrite !length_append. cbn. lia.
  - intros Hs. rewrite <- (replace_quote_sin_comilla col Hs) at 1.
    by apply leer_citado_replace_quote.
Qed.

Lemma nombres_entre_comillas_witness :
  leer_citado (replace_quote ("a" +:+ quote +:+ "b") +:+ quote +:+ " TEXT")
  = Some ("a" +:+ quote +:+ "b", " TEXT")
  /\ (leer_citado (("a" +:+ quote +:+ "b") +:+ quote +:+ " TEXT")
      = Some ("a" +:+ quote +:+ "b", " TEXT")
      <-> sin_comilla ("a" +:+ quote +:+ "b") = true).
Proof. apply nombres_entre_comillas. reflexivity. Defined.

End SqlFacts.

(** ** Loading into a destination that holds tables *)

Module CargaFacts.
Import Py LoadDw LoadDwFacts.

(** Lines 211-213: the table is there and its columns are not those
    of the file. *)
Definition descarta (db : gmap string tabla) (table : string) (cols : list string) : bool :=
  negb (bool_decide (existing_columns db table = []))
  && negb (bool_decide
             ((list_to_set (existing_columns db table) : gset string)
                ∖ {[ "id"; "created_at"; "updated_at" ]}
              = list_to_set cols)).

(** The rows that [COPY] appends for the data records, the identity
    continuing at [next]. *)
Definition nuevas (next : Z) (cols : list string) (datos : list (list string)) : list fila_db :=
  imap (fun i rec => mkFilaDb (next + Z.of_nat i) (list_to_map (zip cols (map campo_copy rec))))
       datos.

(** The statistics of step 8, read from the destination. *)
Definition estadisticas (table : string) (csv_columns : list string) (db : gmap string tabla)
    : resultado :=
  {| r_table := table;
     rows_loaded := count_rows table db;
     pib_coverage :=
       match primera_en ["pib_departamental_mm"; "valor_api_mm"; "pib"] csv_columns with
       | Some pib_col =>
           if 0 <? count_rows table db
           then (inject_Z (count_present table pib_col db) / inject_Z (count_rows table db))%Q
           else 0%Q
       | None => 0%Q
       end;
     unique_years :=
       match primera_en ["año"; "anio"; "periodo"] csv_columns with
       | Some year_col => count_distinct table year_col db
       | None => 0
       end;
     unique_deptos :=
       match primera_en ["cole_cod_depto_ubicacion"; "estu_cod_depto_presentacion";
                         "departamento"] csv_columns with
       | Some depto_col => count_distinct table depto_col db
       | None => 0
       end;
     total_columns := Z.of_nat (length csv_columns) |}.

Lemma run_pasos cols datos table conn_uri replace db :
  conn_uri <> "" ->
  run (cols :: datos) table conn_uri replace db =
    db2 ← (if bool_decide (cols = []) then Raise (Psycopg2Error "42601")
           else exec_create table (columnas_ddl cols)
                  (if descarta db table cols then exec_drop table db else db));
    db3 ← (if replace then exec_truncate table db2 else Ret db2);
    db4 ← (if forallb sin_comilla cols then exec_copy table cols (cols :: datos) db3
           else Raise (Psycopg2Error "42601"));
    mret (db4, estadisticas table cols db4).
Proof.
  intros Hu. unfold run. destruct (String.eqb_spec conn_uri ""); [done|]. reflexivity.
Qed.

Lemma exec_create_inv table cs db db' :
  exec_create table cs db = Ret db' ->
  (exists t, db !! table = Some t /\ db' = db)
  \/ (db !! table = None /\ NoDup (map c_nombre cs) /\ db' = <[table := mkTabla cs [] 1]> db).
Proof.
  unfold exec_create. destruct (db !! table) as [t|] eqn:E.
  - intros [= <-]. left. by exists t.
  - destruct (bool_decide (EmptyString ∈ map c_nombre cs)); [discriminate|].
    destruct (bool_decide_reflect (NoDup (map c_nombre cs))); [|discriminate].
    intros [= <-]. by right.
Qed.

Lemma exec_copy_inv table cols csv db db' :
  exec_copy table cols csv db = Ret db' ->
  exists t, db !! table = Some t
    /\ Forall (fun c => c ∈ map c_nombre (t_columnas t)) cols
    /\ Forall (fun rec => length rec = length cols) (tail csv)
    /\ db' = <[table := mkTabla (t_columnas t)
                           (t_filas t ++ nuevas (t_next_id t) cols (tail csv))
                           (t_next_id t + Z.of_nat (length (tail csv)))]> db.
Proof.
  unfold exec_copy. destruct (db !! table) as [t|]; [|discriminate].
  destruct (forallb _ cols) eqn:Hc; [|discriminate]. cbn [negb].
  destruct (forallb _ (tail csv)) eqn:Hl; [|discriminate]. cbn [negb].
  intros [= <-]. exists t. split; [done|]. split; [|split; [|done]].
  - apply Forall_forall. intros c Hin. rewrite forallb_forall in Hc.
    specialize (Hc c (proj1 (list_elem_of_In _ _) Hin)).
    by apply bool_decide_eq_true in Hc.
  - apply Forall_forall. intros rec Hin. rewrite forallb_forall in Hl.
    apply Nat.eqb_eq, Hl, list_elem_of_In, Hin.
Qed.

Lemma exec_copy_ok table cols csv db t :
  db !! table = Some t ->
  Forall (fun c => c ∈ map c_nombre (t_columnas t)) cols ->
  Forall (fun rec => length rec = length cols) (tail csv) ->
  exec_copy table cols csv db
  = Ret (<[table := mkTabla (t_columnas t)
                      (t_filas t ++ nuevas (t_next_id t) cols (tail csv))
                      (t_next_id t + Z.of_nat (length (tail csv)))]> db).
Proof.
  intros Ht Hc Hl. unfold exec_copy. rewrite Ht.
  assert (H1 : forallb (fun c => bool_decide (c ∈ map c_nombre (t_columnas t))) cols = true).
  { apply forallb_forall. intros c Hin. rewrite Forall_forall in Hc.
    apply bool_decide_eq_true_2, Hc, list_elem_of_In, Hin. }
  assert (H2 : forallb (fun rec => (length rec =? length cols)%nat) (tail csv) = true).
  { apply forallb_forall. intros rec Hin. rewrite Forall_forall in Hl.
    apply Nat.eqb_eq, Hl, list_elem_of_In, Hin. }
  by rewrite H1, H2.
Qed.

(** The table of the destination right before [COPY], when the
    statements before it succeed. *)
Definition antes_de_copy (db : gmap string tabla) (table : string) (cols : list string)
    (replace : bool) : tabla :=
  match (if descarta db table cols then None else db !! table) with
  | Some t => if replace then mkTabla (t_columnas t) [] 1 else t
  | None => mkTabla (columnas_ddl cols) [] 1
  end.

(** What a run that returns has done. *)
Lemma run_inv cols datos table conn_uri replace db db' r :
  run (cols :: datos) table conn_uri replace db = Ret (db', r) ->
  let t0 := antes_de_copy db table cols replace in
  conn_uri <> "" /\ forallb sin_comilla cols = true /\ cols <> []
  /\ ((if descarta db table cols then None else db !! table) = None ->
      NoDup (map c_nombre (columnas_ddl cols)))
  /\ Forall (fun c => c ∈ map c_nombre (t_columnas t0)) cols
  /\ Forall (fun rec => length rec = length cols) datos
  /\ db' = <[table := mkTabla (t_columnas t0)
                        (t_filas t0 ++ nuevas (t_next_id t0) cols datos)
                        (t_next_id t0 + Z.of_nat (length datos))]> db
  /\ r = estadisticas table cols db'.
Proof.
  intros Hr t0.
  assert (Hu : conn_uri <> "").
  { intros ->. unfold run in Hr. discriminate Hr. }
  rewrite run_pasos in Hr by done.
  destruct (bool_decide_reflect (cols = [])) as [|Hne]; [discriminate Hr|].
  set (db1 := if descarta db table cols then exec_drop table db else db) in Hr.
  assert (Hdb1 : db1 !! table = if descarta db table cols then None else db !! table).
  { subst db1. destruct (descarta db table cols); [apply lookup_delete_eq|done]. }
  assert (Hins : forall t, <[table := t]> db1 = <[table := t]> db).
  { intros t. subst db1. destruct (descarta db table cols); [apply insert_delete_eq|done]. }
  subst t0. unfold antes_de_copy. rewrite <- Hdb1. clearbody db1.
  destruct (exec_create table (columnas_ddl cols) db1) as [db2|e] eqn:Hc; [|discriminate Hr].
  cbn [mbind res_bind bind] in Hr.
  assert (Hdb2 : exists t2, db2 !! table = Some t2
                   /\ (forall t, <[table := t]> db2 = <[table := t]> db)
                   /\ t2 = match db1 !! table with
                           | Some t => t
                           | None => mkTabla (columnas_ddl cols) [] 1
                           end
                   /\ (db1 !! table = None -> NoDup (map c_nombre (columnas_ddl cols)))).
  { apply exec_create_inv in Hc as [(t & Ht & ->)|(Ht & Hnd & ->)].
    - exists t. rewrite Ht. split; [done|]. split; [done|]. split; [done|]. discriminate.
    - eexists. rewrite lookup_insert_eq, Ht. split; [done|]. split; [|done].
      intros t. by rewrite insert_insert_eq. }
  destruct Hdb2 as (t2 & Ht2 & Hins2 & Et2 & Hnd).
  destruct ((if replace then exec_truncate table db2 else Ret db2)) as [db3|e] eqn:Htr;
    [|discriminate Hr].
  cbn [mbind res_bind bind] in Hr.
  assert (Hdb3 : db3 !! table = Some (if replace then mkTabla (t_columnas t2) [] 1 else t2)
                 /\ forall t, <[table := t]> db3 = <[table := t]> db).
  { destruct replace.
    - unfold exec_truncate in Htr. rewrite Ht2 in Htr. injection Htr as <-.
      rewrite lookup_insert_eq. split; [done|]. intros t. by rewrite insert_insert_eq.
    - injection Htr as <-. done. }
  destruct Hdb3 as [Ht3 Hins3].
  destruct (forallb sin_comilla cols) eqn:Hq; [|discriminate Hr].
  destruct (exec_copy table cols (cols :: datos) db3) as [db4|e] eqn:Hcp; [|discriminate Hr].
  cbn [mbind res_bind bind mret res_ret] in Hr. injection Hr as <- <-.
  apply exec_copy_inv in Hcp as (t3 & Ht3' & Hcols & Hlen & ->).
  rewrite Ht3 in Ht3'. injection Ht3' as <-. cbn [tail] in *.
  rewrite Hins3.
  assert (Et : (if replace then mkTabla (t_columnas t2) [] 1 else t2)
               = match db1 !! table with
                 | Some t => if replace then mkTabla (t_columnas t) [] 1 else t
                 | None => mkTabla (columnas_ddl cols) [] 1
                 end).
  { rewrite Et2. destruct (db1 !! table); destruct replace; reflexivity. }
  rewrite <- Et. done.
Qed.

Lemma run_acumula cols datos table conn_uri db t :
  conn_uri <> "" -> cols <> [] -> forallb sin_comilla cols = true ->
  db !! table = Some t -> descarta db table cols = false ->
  Forall (fun c => c ∈ map c_nombre (t_columnas t)) cols ->
  Forall (fun rec => length rec = length cols) datos ->
  run (cols :: datos) table conn_uri false db
  = Ret (<[table := mkTabla (t_columnas t) (t_filas t ++ nuevas (t_next_id t) cols datos)
                            (t_next_id t + Z.of_nat (length datos))]> db,
         estadisticas table cols
           (<[table := mkTabla (t_columnas t) (t_filas t ++ nuevas (t_next_id t) cols datos)
                               (t_next_id t + Z.of_nat (length datos))]> db)).
Proof.
  intros Hu Hne Hq Ht Hd Hc Hl. rewrite run_pasos by done.
  rewrite bool_decide_eq_false_2 by done. rewrite Hd.
  unfold exec_create. rewrite Ht. cbn [mbind res_bind bind]. rewrite Hq.
  rewrite (exec_copy_ok table cols (cols :: datos) db t Ht Hc Hl). reflexivity.
Qed.

Lemma count_rows_insert table t (db : gmap string tabla) :
  count_rows table (<[table := t]> db) = Z.of_nat (length (t_filas t)).
Proof. unfold count_rows. by rewrite lookup_insert_eq. Qed.

Lemma length_nuevas next cols datos : length (nuevas next cols datos) = length datos.
Proof. apply length_imap. Qed.

Lemma nombres_ddl cols :
  map c_nombre (columnas_ddl cols) = "id" :: cols ++ ["created_at"].
Proof.
  unfold columnas_ddl. cbn [app map c_nombre]. f_equal.
  rewrite map_app, map_map. cbn [map c_nombre]. f_equal.
  induction cols as [|c cols IH]; [done|]. cbn [map c_nombre]. by rewrite IH.
Qed.

Lemma nombres_ddl_NoDup cols :
  NoDup (map c_nombre (columnas_ddl cols)) -> ("id" ∉ cols) /\ ("created_at" ∉ cols).
Proof.
  rewrite nombres_ddl. intros [H1 H2]%NoDup_cons. split.
  - intros ?. apply H1, elem_of_app. by left.
  - intros ?. apply NoDup_app in H2 as (_ & H2 & _). apply (H2 "created_at"); [done|by left].
Qed.

(** A field between quotes, its quotes doubled, is read as its text. *)
Lemma valor_csv_replace_quote (v : string) :
  valor_csv true (replace_quote v +:+ quote) = v.
Proof.
  induction v as [|c v IH]; [reflexivity|].
  cbn [replace_quote]. destruct (Ascii.eqb c comilla) eqn:Ec.
  - change (String c (String c (replace_quote v)) +:+ quote)
      with (String c (String c (replace_quote v +:+ quote))).
    cbn [valor_csv]. rewrite Ec. apply Ascii.eqb_eq in Ec. by rewrite IH, Ec.
  - change (String c (replace_quote v) +:+ quote)
      with (String c (replace_quote v +:+ quote)).
    cbn [valor_csv]. by rewrite Ec, IH.
Qed.

(** A field without a quote is read as it is written. *)
Lemma valor_csv_sin_comilla (en_comillas : bool) (campo : string) :
  sin_comilla campo = true -> valor_csv en_comillas campo = campo.
Proof.
  induction campo as [|c campo IH]; [reflexivity|].
  rewrite SqlFacts.sin_comilla_cons. intros [Hc Hs]%andb_true_iff.
  apply negb_true_iff in Hc. cbn [valor_csv]. by rewrite Hc, IH.
Qed.

Lemma campo_copy_casos (campo : string) :
  (campo_copy campo = None <-> campo = "")
  /\ campo_copy (quote +:+ replace_quote campo +:+ quote) = Some campo
  /\ (sin_comilla campo = true -> campo <> "" -> campo_copy campo = Some campo).
Proof.
  split; [|split].
  - unfold campo_copy. destruct (String.eqb_spec campo ""); split; try done.
  - change (quote +:+ replace_quote campo +:+ quote)
      with (String comilla (replace_quote campo +:+ quote)).
    unfold campo_copy. cbn [String.eqb valor_csv]. rewrite Ascii.eqb_refl.
    by rewrite valor_csv_replace_quote.
  - intros Hs Hne. unfold campo_copy.
    destruct (String.eqb_spec campo ""); [done|]. by rewrite valor_csv_sin_comilla.
Qed.

(** X18: when the table is not there, or is there with other columns,
    or the run is asked to replace, the table holds after the run the
    records of the file and nothing else, numbered from 1; no other
    table of the destination is touched. A table with other columns is
    dropped with its rows even when the run is not asked to replace.
    Each field is stored as [COPY] reads it: only a field written as
    nothing is NULL; a field written between quotes is stored as its
    text, the empty string when there is nothing between the quotes;
    a field without quotes is stored as it is written. The names of the
    table and of the columns are ones that PostgreSQL keeps as they are
    written (not empty, no quote, at most 63 bytes). *)
Theorem carga_reemplaza (cols : list string) (datos : list (list string))
    (table conn_uri : string) (replace : bool) (db db' : gmap string tabla) (r : resultado) :
  tabla_valida table = true ->
  Forall (fun s => identificador_valido s = true) cols ->
  run (cols :: datos) table conn_uri replace db = Ret (db', r) ->
  replace = true \/ db !! table = None \/ descarta db table cols = true ->
  (exists t, db' !! table = Some t
     /\ t_filas t = nuevas 1 cols datos
     /\ t_next_id t = 1 + Z.of_nat (length datos))
  /\ rows_loaded r = Z.of_nat (length datos)
  /\ (forall otra, otra <> table -> db' !! otra = db !! otra)
  /\ (forall campo,
        (campo_copy campo = None <-> campo = "")
        /\ campo_copy (quote +:+ replace_quote campo +:+ quote) = Some campo
        /\ (sin_comilla campo = true -> campo <> "" -> campo_copy campo = Some campo)).
Proof.
  intros _ _ Hr Hcaso.
  destruct (run_inv _ _ _ _ _ _ _ _ Hr) as (_ & _ & _ & _ & _ & _ & -> & ->).
  set (t0 := antes_de_copy db table cols replace).
  assert (Ht0 : t_filas t0 = [] /\ t_next_id t0 = 1).
  { subst t0. unfold antes_de_copy. destruct Hcaso as [->|[Hn|Hd]].
    - by destruct (if descarta db table cols then None else db !! table).
    - rewrite Hn. by destruct (descarta db table cols).
    - by rewrite Hd. }
  destruct Ht0 as [Hf Hn]. rewrite Hf, Hn. cbn [app]. split; [|split; [|split]].
  - eexists. rewrite lookup_insert_eq. by split.
  - cbn [estadisticas rows_loaded]. rewrite count_rows_insert. cbn [t_filas].
    by rewrite length_nuevas.
  - intros otra Ho. by rewrite lookup_insert_ne.
  - apply campo_copy_casos.
Qed.

(** A file with a name between quotes, a field of two quotes and a
    field written as nothing. *)
Definition csv_con_comillas : list (list string) :=
  [ ["año"; "departamento"; "pib_departamental_mm"];
    ["2019"; quote +:+ "Valle, del Cauca" +:+ quote; "95.5"];
    ["2019"; quote +:+ quote; ""] ].

Lemma carga_reemplaza_witness :
  exists db' r,
    run csv_con_comillas "ddm_icfes_pib" "postgresql://localhost/dw" true
        {[ "ddm_icfes_pib" := mkTabla (columnas_ddl ["año"; "departamento"; "pib_departamental_mm"])
                                (nuevas 1 ["año"; "departamento"; "pib_departamental_mm"]
                                        [["2018"; "Cauca"; "7.5"]]) 2 ]}
    = Ret (db', r)
    /\ (exists t, db' !! "ddm_icfes_pib" = Some t
           /\ t_filas t =
                [ mkFilaDb 1 (list_to_map [ ("año", Some "2019");
                                            ("departamento", Some "Valle, del Cauca");
                                            ("pib_departamental_mm", Some "95.5") ]);
                  mkFilaDb 2 (list_to_map [ ("año", Some "2019");
                                            ("departamento", Some "");
                                            ("pib_departamental_mm", None) ]) ]
           /\ t_next_id t = 1 + Z.of_nat 2)
    /\ rows_loaded r = Z.of_nat 2
    /\ (forall otra, otra <> "ddm_icfes_pib" ->
          db' !! otra
          = ({[ "ddm_icfes_pib" :=
                  mkTabla (columnas_ddl ["año"; "departamento"; "pib_departamental_mm"])
                    (nuevas 1 ["año"; "departamento"; "pib_departamental_mm"]
                            [["2018"; "Cauca"; "7.5"]]) 2 ]} : gmap string tabla) !! otra)
    /\ (forall campo,
          (campo_copy campo = None <-> campo = "")
          /\ campo_copy (quote +:+ replace_quote campo +:+ quote) = Some campo
          /\ (sin_comilla campo = true -> campo <> "" -> campo_copy campo = Some campo)).
Proof.
  set (db := ({[ "ddm_icfes_pib" :=
                   mkTabla (columnas_ddl ["año"; "departamento"; "pib_departamental_mm"])
                     (nuevas 1 ["año"; "departamento"; "pib_departamental_mm"]
                             [["2018"; "Cauca"; "7.5"]]) 2 ]} : gmap string tabla)).
  destruct (run csv_con_comillas "ddm_icfes_pib" "postgresql://localhost/dw" true db)
    as [[db' r]|e] eqn:E; [|vm_compute in E; discriminate E].
  exists db', r. split; [reflexivity|].
  apply (carga_reemplaza (hd [] csv_con_comillas) (tl csv_con_comillas)
           "ddm_icfes_pib" "postgresql://localhost/dw" true db db' r);
    [vm_compute; reflexivity|repeat constructor|exact E|by left].
Defined.

(** The names that the comparison of line 213 sets aside. *)
Lemma conjunto_ddl (cols : list string) :
  "id" ∉ cols -> "created_at" ∉ cols -> "updated_at" ∉ cols ->
  (list_to_set (map c_nombre (columnas_ddl cols)) : gset string)
    ∖ {[ "id"; "created_at"; "updated_at" ]}
  = list_to_set cols.
Proof.
  intros H1 H2 H3. rewrite nombres_ddl. apply set_eq. intros x.
  rewrite elem_of_difference, !elem_of_list_to_set, elem_of_cons, elem_of_app,
    list_elem_of_singleton, !elem_of_union, !elem_of_singleton.
  split.
  - intros [[-> | [? | ->]] Hn]; [exfalso; apply Hn; tauto|done|exfalso; apply Hn; tauto].
  - intros Hx. split; [tauto|]. intros [[-> | ->] | ->]; done.
Qed.

Lemma descarta_false db table cols t :
  db !! table = Some t ->
  (list_to_set (map c_nombre (t_columnas t)) : gset string)
    ∖ {[ "id"; "created_at"; "updated_at" ]} = list_to_set cols ->
  descarta db table cols = false.
Proof.
  intros Ht Hs. unfold descarta, existing_columns. rewrite Ht.
  rewrite (bool_decide_eq_true_2 _ Hs). apply andb_false_r.
Qed.

Lemma descarta_false_inv db table cols t :
  db !! table = Some t -> descarta db table cols = false ->
  t_columnas t = []
  \/ (list_to_set (map c_nombre (t_columnas t)) : gset string)
       ∖ {[ "id"; "created_at"; "updated_at" ]} = list_to_set cols.
Proof.
  unfold descarta, existing_columns. intros -> H.
  apply andb_false_iff in H as [H|H]; apply negb_false_iff, bool_decide_eq_true in H.
  - left. by destruct (t_columnas t).
  - by right.
Qed.

(** The columns of the table before [COPY] are those against which a
    second run compares the header. *)
Lemma antes_de_copy_conjunto db table cols :
  cols <> [] ->
  "updated_at" ∉ cols ->
  ((if descarta db table cols then None else db !! table) = None ->
   NoDup (map c_nombre (columnas_ddl cols))) ->
  Forall (fun c => c ∈ map c_nombre (t_columnas (antes_de_copy db table cols false))) cols ->
  (list_to_set (map c_nombre (t_columnas (antes_de_copy db table cols false))) : gset string)
    ∖ {[ "id"; "created_at"; "updated_at" ]} = list_to_set cols.
Proof.
  intros Hne Hup Hnd Hc. unfold antes_de_copy in *.
  destruct (descarta db table cols) eqn:Hd.
  - cbn [t_columnas]. destruct (nombres_ddl_NoDup cols (Hnd eq_refl)). by apply conjunto_ddl.
  - destruct (db !! table) as [t|] eqn:Ht.
    + destruct (descarta_false_inv _ _ _ _ Ht Hd) as [E|E]; [|done].
      exfalso. rewrite E in Hc. destruct cols as [|c cols]; [done|].
      apply Forall_cons in Hc as [Hc _]. by apply elem_of_nil in Hc.
    + cbn [t_columnas]. destruct (nombres_ddl_NoDup cols (Hnd eq_refl)). by apply conjunto_ddl.
Qed.

(** X19: without the request to replace (as the DAG calls the
    loader), a second run on the same file appends its records again:
    the rows of the first run stay, the identity goes on, and the count
    grows by what the file holds. The header is taken not to have a
    column named [updated_at], a name that the comparison of line 213
    sets aside, and the names of the table and of the columns are ones
    that PostgreSQL keeps as they are written. *)
Theorem carga_repetida (cols : list string) (datos : list (list string))
    (table conn_uri : string) (db db1 : gmap string tabla) (r1 : resultado) :
  tabla_valida table = true ->
  Forall (fun s => identificador_valido s = true) cols ->
  run (cols :: datos) table conn_uri false db = Ret (db1, r1) ->
  "updated_at" ∉ cols ->
  exists db2 r2 t1 t2,
    run (cols :: datos) table conn_uri false db1 = Ret (db2, r2)
    /\ db1 !! table = Some t1 /\ db2 !! table = Some t2
    /\ t_filas t2 = t_filas t1 ++ nuevas (t_next_id t1) cols datos
    /\ rows_loaded r2 = rows_loaded r1 + Z.of_nat (length datos).
Proof.
  intros _ _ Hr Hup.
  destruct (run_inv _ _ _ _ _ _ _ _ Hr) as (Hu & Hq & Hne & Hnd & Hc & Hl & -> & ->).
  set (t0 := antes_de_copy db table cols false) in *.
  set (t1 := mkTabla (t_columnas t0) (t_filas t0 ++ nuevas (t_next_id t0) cols datos)
                     (t_next_id t0 + Z.of_nat (length datos))).
  assert (Ht1 : (<[table := t1]> db : gmap string tabla) !! table = Some t1)
    by apply lookup_insert_eq.
  assert (Hd : descarta (<[table := t1]> db) table cols = false).
  { apply (descarta_false _ _ _ t1 Ht1). subst t1. cbn [t_columnas].
    by apply antes_de_copy_conjunto. }
  rewrite (run_acumula cols datos table conn_uri _ t1 Hu Hne Hq Ht1 Hd Hc Hl).
  eexists _, _, t1, _. split; [reflexivity|]. split; [exact Ht1|].
  split; [apply lookup_insert_eq|]. split; [reflexivity|].
  cbn [estadisticas rows_loaded]. rewrite !count_rows_insert. subst t1. cbn [t_filas].
  rewrite !length_app, !length_nuevas. lia.
Qed.

Lemma carga_repetida_witness :
  exists db1 r1 db2 r2 t1 t2,
    run csv_enriquecido "ddm_icfes_pib" "postgresql://localhost/dw" false ∅ = Ret (db1, r1)
    /\ run csv_enriquecido "ddm_icfes_pib" "postgresql://localhost/dw" false db1 = Ret (db2, r2)
    /\ db1 !! "ddm_icfes_pib" = Some t1 /\ db2 !! "ddm_icfes_pib" = Some t2
    /\ t_filas t2 = t_filas t1 ++ nuevas (t_next_id t1)
                                    ["año"; "departamento"; "pib_departamental_mm"]
                                    [["2019"; "Antioquia"; "120.0"]; ["2019"; ""; ""]]
    /\ rows_loaded r2 = rows_loaded r1 + Z.of_nat 2.
Proof.
  destruct (run csv_enriquecido "ddm_icfes_pib" "postgresql://localhost/dw" false ∅)
    as [[db1 r1]|e] eqn:E; [|vm_compute in E; discriminate E].
  destruct (carga_repetida (hd [] csv_enriquecido) (tl csv_enriquecido)
              "ddm_icfes_pib" "postgresql://localhost/dw" ∅ db1 r1) as (db2 & r2 & t1 & t2 & H).
  { vm_compute. reflexivity. }
  { repeat constructor. }
  { exact E. }
  { vm_compute. intros H. repeat (apply elem_of_cons in H as [H|H]; [discriminate H|]).
    by apply elem_of_nil in H. }
  exists db1, r1, db2, r2, t1, t2. split; [reflexivity|exact H].
Defined.

(** X20: a file with a column named [id] or [created_at] is never
    loaded, whatever the destination holds: the statement of [_ddl]
    would define the column twice, and a table that is there never has
    the columns of such a file. *)
Theorem columna_reservada (cols : list string) (datos : list (list string))
    (table conn_uri : string) (replace : bool) (db : gmap string tabla) :
  "id" ∈ cols \/ "created_at" ∈ cols ->
  exists e, run (cols :: datos) table conn_uri replace db = Raise e.
Proof.
  intros Hres.
  destruct (run (cols :: datos) table conn_uri replace db) as [[db' r]|e] eqn:Hr;
    [exfalso|by exists e].
  destruct (run_inv _ _ _ _ _ _ _ _ Hr) as (_ & _ & Hne & Hnd & Hc & _).
  unfold antes_de_copy in Hc.
  assert (Hfresh : ~ NoDup (map c_nombre (columnas_ddl cols))).
  { intros [H1 H2]%nombres_ddl_NoDup. by destruct Hres. }
  destruct (descarta db table cols) eqn:Hd; [by apply Hfresh, Hnd|].
  destruct (db !! table) as [t|] eqn:Ht; [|by apply Hfresh, Hnd].
  assert (Hc' : Forall (fun c => c ∈ map c_nombre (t_columnas t)) cols)
    by (by destruct replace).
  rewrite Forall_forall in Hc'.
  destruct (descarta_false_inv _ _ _ _ Ht Hd) as [E|E].
  - rewrite E in Hc'. destruct Hres as [H|H]; apply Hc' in H; by apply elem_of_nil in H.
  - assert (Hx : forall x, x ∈ cols -> x ∉ ({[ "id"; "created_at"; "updated_at" ]} : gset string)).
    { intros x Hx. apply (elem_of_list_to_set (C := gset string)) in Hx.
      rewrite <- E in Hx. by apply elem_of_difference in Hx as [_ Hx]. }
    destruct Hres as [H|H]; apply Hx in H; apply H; set_solver.
Qed.

Lemma columna_reservada_witness :
  exists e, run [["id"; "año"]; ["7"; "2019"]] "ddm_icfes_pib" "postgresql://localhost/dw"
                false ∅ = Raise e.
Proof. apply columna_reservada. left. by left. Defined.

Lemma size_list_to_set_le (l : list string) :
  (size (list_to_set l : gset string) <= length l)%nat.
Proof.
  induction l as [|x l IH]; [by rewrite list_to_set_nil, size_empty|].
  rewrite list_to_set_cons, size_union_alt, size_singleton. cbn [length].
  assert (Hsz : (size (list_to_set l ∖ {[x]} : gset string)
                 <= size (list_to_set l : gset string))%nat).
  { apply subseteq_size. intros y Hy. by apply elem_of_difference in Hy as [Hy _]. }
  lia.
Qed.

Lemma length_valores_presentes table col (db : gmap string tabla) :
  Z.of_nat (length (valores_presentes table col db)) <= count_rows table db.
Proof.
  unfold valores_presentes, count_rows. destruct (db !! table) as [t|]; [|done].
  apply inj_le. induction (t_filas t) as [|f l IH]; [done|].
  cbn [omap list_omap length]. destruct (f_valores f !! col) as [[v|]|]; cbn; try lia.
  destruct (String.eqb v ""); cbn; lia.
Qed.

Lemma count_distinct_rango table col (db : gmap string tabla) :
  0 <= count_distinct table col db <= count_rows table db.
Proof.
  unfold count_distinct. split; [lia|].
  etrans; [|apply (length_valores_presentes table col db)].
  apply inj_le, size_list_to_set_le.
Qed.

(** X21: the figures that a run of the Bulk Loader returns: the row
    count is what the table holds after the run, never less than the
    records of the file; the distinct years and departments are at most
    the rows; the coverage is a ratio between 0 and 1. *)
Theorem estadisticas_de_carga (cols : list string) (datos : list (list string))
    (table conn_uri : string) (replace : bool) (db db' : gmap string tabla) (r : resultado) :
  run (cols :: datos) table conn_uri replace db = Ret (db', r) ->
  r_table r = table
  /\ total_columns r = Z.of_nat (length cols)
  /\ rows_loaded r = count_rows table db'
  /\ Z.of_nat (length datos) <= rows_loaded r
  /\ 0 <= unique_years r <= rows_loaded r
  /\ 0 <= unique_deptos r <= rows_loaded r
  /\ (0 <= pib_coverage r <= 1)%Q.
Proof.
  intros Hr.
  destruct (run_inv _ _ _ _ _ _ _ _ Hr) as (_ & _ & _ & _ & _ & _ & Hdb & ->).
  cbn [estadisticas r_table total_columns rows_loaded unique_years unique_deptos pib_coverage].
  split; [done|]. split; [done|]. split; [done|].
  assert (Hpos : 0 <= count_rows table db').
  { unfold count_rows. destruct (db' !! table); lia. }
  split; [|split; [|split]].
  - rewrite Hdb, count_rows_insert. cbn [t_filas]. rewrite length_app, length_nuevas. lia.
  - destruct (primera_en _ cols); [apply count_distinct_rango|lia].
  - destruct (primera_en _ cols); [apply count_distinct_rango|lia].
  - assert (H01 : (0 <= 0 <= 1)%Q) by (split; unfold Qle; simpl; lia).
    destruct (primera_en _ cols) as [pib_col|]; [|exact H01].
    destruct (Z.ltb_spec 0 (count_rows table db')); [|exact H01].
    apply EstadisticasFacts.cociente_rango; [|done]. split.
    + unfold count_present. lia.
    + apply length_valores_presentes.
Qed.

Lemma estadisticas_de_carga_witness :
  exists db' r,
    run csv_enriquecido "ddm_icfes_pib" "postgresql://localhost/dw" false ∅ = Ret (db', r)
    /\ r_table r = "ddm_icfes_pib"
    /\ total_columns r = Z.of_nat 3
    /\ rows_loaded r = count_rows "ddm_icfes_pib" db'
    /\ Z.of_nat 2 <= rows_loaded r
    /\ 0 <= unique_years r <= rows_loaded r
    /\ 0 <= unique_deptos r <= rows_loaded r
    /\ (0 <= pib_coverage r <= 1)%Q.
Proof.
  destruct (run csv_enriquecido "ddm_icfes_pib" "postgresql://localhost/dw" false ∅)
    as [[db' r]|e] eqn:E; [|vm_compute in E; discriminate E].
  exists db', r. split; [reflexivity|]. exact (estadisticas_de_carga _ _ _ _ _ _ _ _ E).
Defined.

End CargaFacts.

(** ** Properties of [run_local.py] *)

Module RunLocalFacts.
Import Py RunLocal.

(** X22: the local runner completes only when it is asked for none of
    the steps extract_icfes, transform_icfes, transform_api and load:
    the call of each of them does not fit the signature of the function
    called. With extract_icfes among the steps, as in the default list,
    the run stops on the TypeError of that first call. *)
Theorem main_llamadas (estado : Type)
    (extract_icfes transform_icfes extract_api transform_api merge load_dw
       : estado -> res estado)
    (steps : list string) (state : estado) :
  ("extract_icfes" ∈ steps ->
     main estado extract_icfes transform_icfes extract_api transform_api merge load_dw
          steps state = Raise TypeError)
  /\ (forall state',
        main estado extract_icfes transform_icfes extract_api transform_api merge load_dw
             steps state = Ret state' ->
        Forall (fun s => s ∉ steps) ["extract_icfes"; "transform_icfes"; "transform_api"; "load"]).
Proof.
  unfold main, paso. split.
  - intros H. by rewrite (bool_decide_eq_true_2 _ H).
  - intros state'.
    destruct (bool_decide_reflect ("extract_icfes" ∈ steps)) as [|H1]; [discriminate|].
    cbn [mbind res_bind bind].
    destruct (bool_decide_reflect ("transform_icfes" ∈ steps)) as [|H2]; [discriminate|].
    cbn [mbind res_bind bind].
    destruct (if bool_decide ("extract_api" ∈ steps) then _ else _) as [s3|]; [|discriminate].
    cbn [mbind res_bind bind].
    destruct (bool_decide_reflect ("transform_api" ∈ steps)) as [|H4]; [discriminate|].
    cbn [mbind res_bind bind].
    destruct (if bool_decide ("merge" ∈ steps) then _ else _) as [s5|]; [|discriminate].
    cbn [mbind res_bind bind].
    destruct (bool_decide_reflect ("load" ∈ steps)) as [|H6]; [discriminate|].
    intros _. repeat constructor; done.
Qed.

End RunLocalFacts.
